(** * Enhanced iTerm MCP server: session tracker, bridge and tool handlers

    A shallow embedding of [src/index-python-api.ts].

    - [JsMap]: the insertion-ordered [Map<string, _>] of JavaScript.
    - [Tracker]: the three global maps [windows], [tabs], [panes] and the
      three counters.  Pane and tab objects are shared between maps (a pane
      object sits in [panes] and in its tab's [panes] map), so they live in
      a store and the maps hold references.
    - [Bridge]: [cleanupOldScripts] and [executeITermPythonScript] over a
      directory of script files.
    - [Tools]: one function per registered tool handler.  The value that
      [await executeITermPythonScript(...)] followed by [JSON.parse] yields
      is an input ([Outcome]) of the handler.
    - [PyScripts]: the two pieces of generated Python whose result the
      handlers report: the colour rule of set-tab-color and the send loop of
      broadcast-input.
    - [Harness]: the text the bridge and the handlers put into a script file
      (indentation, quote escaping), and the run of the file through the
      fixed Python harness: what it prints and the code it exits with.
    - [PyMonitor]: the polling loop of the monitor-session script.

    Numbers: the counters and pane positions are JavaScript numbers that only
    take small non-negative integer values; they are modelled by [N] and [Z]
    (exact below 2^53).  A JavaScript string is modelled by the bytes of its
    UTF-8 encoding; a Python [str] by its code points. *)

From Stdlib Require Import ZArith NArith QArith String Ascii List Sorted.
From stdpp Require Import base option list strings pretty gmap.

Local Open Scope string_scope.
Local Open Scope list_scope.

(** ** Characters that cannot be written inside a literal *)

Definition nl : string := String "010"%char EmptyString.
Definition dquote : string := String "034"%char EmptyString.

(** ** JavaScript values *)

(** A JavaScript number: a finite value (as a rational; [0] stands for both
    zeros), [NaN], or an infinity. *)
Inductive JsNumber :=
| NumQ (q : Q)
| NumNaN
| NumInf (negative : bool).

(** What [JSON.parse] can return. *)
#[warnings="-register-all"]
Inductive Json :=
| JNull
| JBool (b : bool)
| JNum (n : JsNumber)
| JStr (s : string)
| JArr (items : list Json)
| JObj (fields : list (string * Json)).

(** A JavaScript value read from a parsed payload: [None] is [undefined]. *)
Definition JsVal := option Json.

(** A string as a JavaScript value. *)
Definition jsString (s : string) : JsVal := Some (JStr s).

Definition numTruthy (n : JsNumber) : bool :=
  match n with
  | NumQ q => negb (Qeq_bool q 0)
  | NumNaN => false
  | NumInf _ => true
  end.

(** ToBoolean. *)
Definition truthy (v : JsVal) : bool :=
  match v with
  | None => false
  | Some JNull => false
  | Some (JBool b) => b
  | Some (JNum n) => numTruthy n
  | Some (JStr s) => negb (String.eqb s "")
  | Some (JArr _) => true
  | Some (JObj _) => true
  end.

(** Truthiness of an optional string argument ([paneId], [profile], ...). *)
Definition truthyArg (a : option string) : bool :=
  match a with
  | Some s => negb (String.eqb s "")
  | None => false
  end.

Fixpoint assoc {V} (k : string) (l : list (string * V)) : option V :=
  match l with
  | [] => None
  | (k', v) :: rest => if String.eqb k k' then Some v else assoc k rest
  end.

(** [data.field]: reading a property of [null] raises a TypeError, whose
    message is returned on the left; objects give the field or [undefined];
    the other values have none of the fields the handlers read. *)
Definition getProp (data : Json) (field : string) : string + JsVal :=
  match data with
  | JNull => inl ("Cannot read properties of null (reading '" +:+ field +:+ "')")
  | JObj fields => inr (assoc field fields)
  | _ => inr None
  end.

(** ** Insertion-ordered maps *)

Module JsMap.

Definition t (V : Type) := list (string * V).

Definition empty {V} : t V := [].

Definition get {V} (m : t V) (k : string) : option V := assoc k m.

Definition has {V} (m : t V) (k : string) : bool :=
  match get m k with Some _ => true | None => false end.

(** [Map.prototype.set]: an existing key keeps its place, a new key goes
    to the end. *)
Fixpoint set {V} (m : t V) (k : string) (v : V) : t V :=
  match m with
  | [] => [(k, v)]
  | (k', v') :: rest =>
      if String.eqb k k' then (k', v) :: rest else (k', v') :: set rest k v
  end.

Definition keys {V} (m : t V) : list string := m.*1.
Definition values {V} (m : t V) : list V := m.*2.
Definition size {V} (m : t V) : nat := length m.

End JsMap.

(** ** The data model *)

(** [PaneInfo].  The fields [process] (a shadow shell) and [output] (what
    that shell printed) are filled by operating-system callbacks and are read
    by no handler; they are left out. *)
Record PaneInfo := mkPane {
  pane_id : string;
  sessionId : JsVal;
  pane_windowId : string;
  pane_tabId : string;
  position : Z * Z;
  isActive : bool;
  title : JsVal;
  workingDirectory : JsVal;
  foregroundJob : JsVal
}.

(** [TabInfo]; [tab_panes] holds references into the pane store. *)
Record TabInfo := mkTab {
  tab_id : string;
  tab_windowId : string;
  tab_panes : JsMap.t nat;
  activePaneId : option string;
  color : option string
}.

(** [WindowInfo]; [win_tabs] holds references into the tab store.  Window
    objects are written once and never shared, so they are kept by value. *)
Record WindowInfo := mkWindow {
  win_id : string;
  win_tabs : JsMap.t nat;
  activeTabId : option string
}.

Record Tracker := mkTracker {
  paneObjs : list PaneInfo;
  tabObjs : list TabInfo;
  windows : JsMap.t WindowInfo;
  tabs : JsMap.t nat;
  panes : JsMap.t nat;
  windowCounter : N;
  tabCounter : N;
  paneCounter : N
}.

Definition initial : Tracker :=
  mkTracker [] [] JsMap.empty JsMap.empty JsMap.empty 0 0 0.

(** The part of the tracker that holds records (everything but the
    counters). *)
Definition records (st : Tracker)
  : list PaneInfo * list TabInfo * JsMap.t WindowInfo * JsMap.t nat * JsMap.t nat :=
  (paneObjs st, tabObjs st, windows st, tabs st, panes st).

(** [panes.get(id)]: the reference and the object behind it. *)
Definition lookupPane (st : Tracker) (id : string) : option (nat * PaneInfo) :=
  r ← JsMap.get (panes st) id; p ← paneObjs st !! r; Some (r, p).

Definition lookupTab (st : Tracker) (id : string) : option (nat * TabInfo) :=
  r ← JsMap.get (tabs st) id; t ← tabObjs st !! r; Some (r, t).

(** [Array.from(panes.values())], with the reference of each object. *)
Definition paneValues (st : Tracker) : list (nat * PaneInfo) :=
  omap (λ r, p ← paneObjs st !! r; Some (r, p)) (JsMap.values (panes st)).

(** Local identifiers: [`window-${n}`], [`tab-${n}`], [`pane-${n}`]. *)
Inductive Kind := KWindow | KTab | KPane.

Definition kindPrefix (k : Kind) : string :=
  match k with KWindow => "window-" | KTab => "tab-" | KPane => "pane-" end.

Definition localId (k : Kind) (n : N) : string := kindPrefix k +:+ pretty n.

(** ** Generated scripts and handler results *)

(** The fragment an optional argument contributes to a script:
    [${arg ? `...${arg}...` : ''}] is empty for [undefined] and for the
    empty string. *)
Definition fragment (a : option string) : option string :=
  if truthyArg a then a else None.

(** The script a handler hands to the bridge, by the holes of its template. *)
Inductive Script :=
| ScriptOpen (profile workingDirectory command : option string)
    (windowId tabId paneId : string)
| ScriptSplit (vertical : bool) (target : JsVal) (profile command : option string)
    (newPaneId : string)
| ScriptExecute (target : JsVal) (command : string)
| ScriptInfo (target : JsVal)
| ScriptDetails (sessionId : string)
| ScriptColor (target : JsVal) (color : string)
| ScriptList
| ScriptMonitor (target : JsVal) (duration : JsNumber)
| ScriptBroadcast (sessionIds : list JsVal) (command : string).

(** A piece of a template literal: fixed text, an interpolated value
    [${v}], or [JSON.stringify(v, null, 2)]. *)
Inductive Frag :=
| Lit (s : string)
| Interp (v : JsVal)
| Stringify (v : JsVal).

Definition Text := list Frag.

(** What a handler does with its caller: return [{content: [{type: "text",
    text}]}], or throw [new Error(message)]. *)
Inductive Result :=
| Returned (text : Text)
| Thrown (message : string).

(** What [await executeITermPythonScript(script)] followed by
    [JSON.parse(result)] gives the handler. *)
Inductive Outcome :=
| BridgeThrew (message : string)
| ParseThrew (message : string)
| Parsed (data : Json).

(** One handler call: its result, the tracker it leaves, the scripts it
    handed to the bridge and the counter values it consumed. *)
Record Run := mkRun {
  result : Result;
  final : Tracker;
  bridgeCalls : list Script;
  allocated : list (Kind * N)
}.

Definition withCounters (st : Tracker) (w t p : N) : Tracker :=
  mkTracker (paneObjs st) (tabObjs st) (windows st) (tabs st) (panes st) w t p.

Definition withPaneObjs (st : Tracker) (objs : list PaneInfo) : Tracker :=
  mkTracker objs (tabObjs st) (windows st) (tabs st) (panes st)
    (windowCounter st) (tabCounter st) (paneCounter st).

Definition withTabObjs (st : Tracker) (objs : list TabInfo) : Tracker :=
  mkTracker (paneObjs st) objs (windows st) (tabs st) (panes st)
    (windowCounter st) (tabCounter st) (paneCounter st).

Definition withPanes (st : Tracker) (m : JsMap.t nat) : Tracker :=
  mkTracker (paneObjs st) (tabObjs st) (windows st) (tabs st) m
    (windowCounter st) (tabCounter st) (paneCounter st).

Definition withTabs (st : Tracker) (m : JsMap.t nat) : Tracker :=
  mkTracker (paneObjs st) (tabObjs st) (windows st) m (panes st)
    (windowCounter st) (tabCounter st) (paneCounter st).

Definition withWindows (st : Tracker) (m : JsMap.t WindowInfo) : Tracker :=
  mkTracker (paneObjs st) (tabObjs st) m (tabs st) (panes st)
    (windowCounter st) (tabCounter st) (paneCounter st).

Definition setActive (p : PaneInfo) (b : bool) : PaneInfo :=
  mkPane (pane_id p) (sessionId p) (pane_windowId p) (pane_tabId p)
    (position p) b (title p) (workingDirectory p) (foregroundJob p).

Definition setAdvisory (p : PaneInfo) (t wd fj : JsVal) : PaneInfo :=
  mkPane (pane_id p) (sessionId p) (pane_windowId p) (pane_tabId p)
    (position p) (isActive p) t wd fj.

Definition setTabPanes (t : TabInfo) (m : JsMap.t nat) : TabInfo :=
  mkTab (tab_id t) (tab_windowId t) m (activePaneId t) (color t).

Definition setColor (t : TabInfo) (c : string) : TabInfo :=
  mkTab (tab_id t) (tab_windowId t) (tab_panes t) (activePaneId t) (Some c).

Definition notFound (paneId : string) : Text :=
  [Lit ("Pane " +:+ paneId +:+ " not found")].

(** [`Error: ${data.error}`] *)
Definition domainError (e : JsVal) : Text := [Lit "Error: "; Interp e].

(** ** The tool handlers *)

Module Tools.

(** *** open-terminal *)

Definition openedText (windowId tabId paneId : string) (sid : JsVal) : Text :=
  [Lit ("Terminal opened - Window: " +:+ windowId +:+ ", Tab: " +:+ tabId
        +:+ ", Pane: " +:+ paneId +:+ ", Session: "); Interp sid].

Definition openTerminal (profile command workingDir : option string)
    (o : Outcome) (st : Tracker) : Run :=
  let windowId := localId KWindow (windowCounter st) in
  let tabId := localId KTab (tabCounter st) in
  let paneId := localId KPane (paneCounter st) in
  let st1 := withCounters st (windowCounter st + 1) (tabCounter st + 1)
               (paneCounter st + 1) in
  let script := ScriptOpen (fragment profile) (fragment workingDir)
                  (fragment command) windowId tabId paneId in
  let allocs := [(KWindow, windowCounter st); (KTab, tabCounter st);
                 (KPane, paneCounter st)] in
  let rethrow m :=
    mkRun (Thrown ("Failed to create terminal: " +:+ m)) st1 [script] allocs in
  match o with
  | BridgeThrew m => rethrow m
  | ParseThrew m => rethrow m
  | Parsed data =>
      match getProp data "sessionId" with
      | inl m => rethrow m
      | inr sid =>
          let pane := mkPane paneId sid windowId tabId (0, 0)%Z true None
                        (JStr <$> workingDir) None in
          let paneRef := length (paneObjs st1) in
          let tab := mkTab tabId windowId
                       (JsMap.set JsMap.empty paneId paneRef) (Some paneId) None in
          let tabRef := length (tabObjs st1) in
          let window := mkWindow windowId
                          (JsMap.set JsMap.empty tabId tabRef) (Some tabId) in
          let st2 := withPaneObjs st1 (paneObjs st1 ++ [pane]) in
          let st3 := withTabObjs st2 (tabObjs st2 ++ [tab]) in
          let st4 := withPanes st3 (JsMap.set (panes st3) paneId paneRef) in
          let st5 := withTabs st4 (JsMap.set (tabs st4) tabId tabRef) in
          let st6 := withWindows st5 (JsMap.set (windows st5) windowId window) in
          mkRun (Returned (openedText windowId tabId paneId sid)) st6
            [script] allocs
      end
  end.

(** *** split-terminal-horizontal and split-terminal-vertical

    The two handlers are the same text up to the orientation: the
    [vertical] flag of the split call, the axis of the position offset and
    the adverb of the messages. *)

Inductive Target :=
| PaneNotFound (paneId : string)
| NoActivePane
| TargetPane (ref : nat) (pane : PaneInfo).

(** The first lines of both split handlers: the pane named by [paneId],
    or, without one, the first pane of [panes] whose active flag is set. *)
Definition resolveTargetPane (st : Tracker) (paneId : option string) : Target :=
  if truthyArg paneId then
    let id := default "" paneId in
    match lookupPane st id with
    | None => PaneNotFound id
    | Some (r, p) => TargetPane r p
    end
  else
    match filter (λ rp, isActive rp.2 = true) (paneValues st) with
    | [] => NoActivePane
    | (r, p) :: _ => TargetPane r p
    end.

Definition adverb (vertical : bool) : string :=
  if vertical then "vertically" else "horizontally".

Definition splitText (vertical : bool) (newPaneId : string) (sid : JsVal) : Text :=
  [Lit ("Pane split " +:+ adverb vertical +:+ " - New pane: " +:+ newPaneId
        +:+ ", Session: "); Interp sid].

Definition splitPosition (vertical : bool) (pos : Z * Z) : Z * Z :=
  if vertical then (pos.1 + 1, pos.2)%Z else (pos.1, pos.2 + 1)%Z.

Definition splitTerminal (vertical : bool) (paneId profile command : option string)
    (o : Outcome) (st : Tracker) : Run :=
  match resolveTargetPane st paneId with
  | PaneNotFound id => mkRun (Returned (notFound id)) st [] []
  | NoActivePane => mkRun (Returned [Lit "No active pane found"]) st [] []
  | TargetPane r targetPane =>
      let newPaneId := localId KPane (paneCounter st) in
      let st1 := withCounters st (windowCounter st) (tabCounter st)
                   (paneCounter st + 1) in
      let script := ScriptSplit vertical (sessionId targetPane)
                      (fragment profile) (fragment command) newPaneId in
      let allocs := [(KPane, paneCounter st)] in
      let rethrow m :=
        mkRun (Thrown ("Failed to split pane " +:+ adverb vertical +:+ ": " +:+ m))
          st1 [script] allocs in
      match o with
      | BridgeThrew m => rethrow m
      | ParseThrew m => rethrow m
      | Parsed data =>
          match getProp data "error" with
          | inl m => rethrow m
          | inr e =>
              if truthy e then
                mkRun (Returned (domainError e)) st1 [script] allocs
              else
                let sid := match getProp data "newSessionId" with
                           | inl _ => None
                           | inr v => v
                           end in
                let newPane := mkPane newPaneId sid (pane_windowId targetPane)
                                 (pane_tabId targetPane)
                                 (splitPosition vertical (position targetPane))
                                 true None None None in
                match lookupTab st1 (pane_tabId targetPane) with
                | None =>
                    rethrow "Cannot read properties of undefined (reading 'panes')"
                | Some (t, tab) =>
                    let newRef := length (paneObjs st1) in
                    let st2 := withTabObjs st1
                                 (<[t := setTabPanes tab
                                           (JsMap.set (tab_panes tab) newPaneId newRef)]>
                                    (tabObjs st1)) in
                    let st3 := withPaneObjs st2 (paneObjs st2 ++ [newPane]) in
                    let st4 := withPanes st3 (JsMap.set (panes st3) newPaneId newRef) in
                    let st5 := withPaneObjs st4
                                 (<[r := setActive targetPane false]> (paneObjs st4)) in
                    mkRun (Returned (splitText vertical newPaneId sid)) st5
                      [script] allocs
                end
          end
      end
  end.

(** *** The handlers that return their failures

    The common shape [try { const data = JSON.parse(await bridge(script));
    if (data.error) return ...; ... } catch (error) { return ... }]. *)
Definition afterBridge (o : Outcome) (caught : string → Run)
    (onError : JsVal → Run) (onData : Json → Run) : Run :=
  match o with
  | BridgeThrew m => caught m
  | ParseThrew m => caught m
  | Parsed data =>
      match getProp data "error" with
      | inl m => caught m
      | inr e => if truthy e then onError e else onData data
      end
  end.

(** A property of a payload already known not to be [null]. *)
Definition prop (data : Json) (field : string) : JsVal :=
  match getProp data field with
  | inl _ => None
  | inr v => v
  end.

(** execute-command-in-pane.  The write to the shadow shell's standard
    input touches no tracked field. *)
Definition executeCommandInPane (paneId command : string)
    (o : Outcome) (st : Tracker) : Run :=
  match lookupPane st paneId with
  | None => mkRun (Returned (notFound paneId)) st [] []
  | Some (_, pane) =>
      let script := ScriptExecute (sessionId pane) command in
      afterBridge o
        (λ m, mkRun (Returned [Lit ("Failed to execute command in pane "
                                    +:+ paneId +:+ ": " +:+ m)]) st [script] [])
        (λ e, mkRun (Returned (domainError e)) st [script] [])
        (λ _, mkRun (Returned [Lit ("Command executed in pane " +:+ paneId
                                    +:+ ": " +:+ command)]) st [script] [])
  end.

(** get-session-info *)
Definition getSessionInfo (paneId : string) (o : Outcome) (st : Tracker) : Run :=
  match lookupPane st paneId with
  | None => mkRun (Returned (notFound paneId)) st [] []
  | Some (r, pane) =>
      let script := ScriptInfo (sessionId pane) in
      afterBridge o
        (λ m, mkRun (Returned [Lit ("Failed to get session info: " +:+ m)])
                st [script] [])
        (λ e, mkRun (Returned (domainError e)) st [script] [])
        (λ data,
           let pane' := setAdvisory pane (prop data "title")
                          (prop data "working_directory")
                          (prop data "foreground_job") in
           mkRun (Returned [Lit ("Session Information for " +:+ paneId +:+ ":" +:+ nl);
                            Stringify (Some data)])
             (withPaneObjs st (<[r := pane']> (paneObjs st))) [script] [])
  end.

(** get-session-details *)
Definition detailsText (sessionId : string) (data : Json) : Text :=
  [Lit ("Detailed Session Information (" +:+ sessionId +:+ "):" +:+ nl
        +:+ "Session ID: "); Interp (prop data "session_id");
   Lit (nl +:+ "Working Directory: "); Interp (prop data "path");
   Lit (nl +:+ "Foreground Job: "); Interp (prop data "foregroundJob");
   Lit (nl +:+ "Session Name: "); Interp (prop data "name");
   Lit (nl +:+ "Session Title: "); Interp (prop data "title");
   Lit (nl +:+ "TTY: "); Interp (prop data "tty");
   Lit (nl +:+ "Hostname: "); Interp (prop data "hostname");
   Lit (nl +:+ "Username: "); Interp (prop data "username");
   Lit (nl +:+ "Last Command: "); Interp (prop data "lastCommand");
   Lit (nl +:+ "At Shell Prompt: "); Interp (prop data "isAtShellPrompt");
   Lit (nl +:+ "Terminal Size: "); Interp (prop data "columns");
   Lit "x"; Interp (prop data "rows"); Lit " (cols x rows)"].

Definition getSessionDetails (sessionId : string) (o : Outcome) (st : Tracker) : Run :=
  let script := ScriptDetails sessionId in
  afterBridge o
    (λ m, mkRun (Returned [Lit ("Failed to read session content: " +:+ m)])
            st [script] [])
    (λ e, mkRun (Returned (domainError e)) st [script] [])
    (λ data, mkRun (Returned (detailsText sessionId data)) st [script] []).

(** set-tab-color *)
Definition setTabColor (paneId color : string) (o : Outcome) (st : Tracker) : Run :=
  match lookupPane st paneId with
  | None => mkRun (Returned (notFound paneId)) st [] []
  | Some (_, pane) =>
      let script := ScriptColor (sessionId pane) color in
      let caught m :=
        mkRun (Returned [Lit ("Failed to set tab color: " +:+ m)]) st [script] [] in
      afterBridge o caught
        (λ e, mkRun (Returned (domainError e)) st [script] [])
        (λ _,
           match lookupTab st (pane_tabId pane) with
           | None => caught "Cannot set properties of undefined (setting 'color')"
           | Some (t, tab) =>
               mkRun (Returned [Lit ("Tab color set to " +:+ color +:+ " for pane "
                                     +:+ paneId)])
                 (withTabObjs st (<[t := setColor tab color]> (tabObjs st)))
                 [script] []
           end)
  end.

(** list-all-sessions *)
Definition listAllSessions (o : Outcome) (st : Tracker) : Run :=
  let script := ScriptList in
  afterBridge o
    (λ m, mkRun (Returned [Lit ("Failed to list sessions: " +:+ m)]) st [script] [])
    (λ e, mkRun (Returned (domainError e)) st [script] [])
    (λ data, mkRun (Returned [Lit ("iTerm2 Sessions Overview:" +:+ nl);
                              Stringify (Some data)]) st [script] []).

(** *** monitor-session *)

Definition ten : JsNumber := NumQ 10.

(** The input schema: [z.number().optional().default(10)]. *)
Definition schemaDuration (d : option JsNumber) : JsNumber := default ten d.

(** [duration || 10] *)
Definition effectiveDuration (duration : JsNumber) : JsNumber :=
  if numTruthy duration then duration else ten.

Definition monitorSession (paneId : string) (duration : option JsNumber)
    (o : Outcome) (st : Tracker) : Run :=
  let duration := schemaDuration duration in
  match lookupPane st paneId with
  | None => mkRun (Returned (notFound paneId)) st [] []
  | Some (_, pane) =>
      let script := ScriptMonitor (sessionId pane) (effectiveDuration duration) in
      afterBridge o
        (λ m, mkRun (Returned [Lit ("Failed to monitor session: " +:+ m)])
                st [script] [])
        (λ e, mkRun (Returned (domainError e)) st [script] [])
        (λ data, mkRun (Returned [Lit ("Session Monitoring Results for " +:+ paneId
                                       +:+ ":" +:+ nl); Stringify (Some data)])
                   st [script] [])
  end.

(** *** broadcast-input *)

Definition hasPane (st : Tracker) (id : string) : bool :=
  bool_decide (is_Some (lookupPane st id)).

Definition validPanes (st : Tracker) (paneIds : list string) : list string :=
  filter (λ id, hasPane st id = true) paneIds.

(** [validPanes.map(id => panes.get(id)!.sessionId)] *)
Definition sessionIdsOf (st : Tracker) (ids : list string) : list JsVal :=
  omap (λ id, (λ rp : nat * PaneInfo, sessionId rp.2) <$> lookupPane st id) ids.

Definition broadcastText (command : string) (data : Json) : Text :=
  [Lit ("Broadcast Results:" +:+ nl +:+ "Command " +:+ dquote +:+ command
        +:+ dquote +:+ " sent to "); Interp (prop data "total_panes");
   Lit (" panes" +:+ nl); Stringify (prop data "broadcast_results")].

Definition broadcastInput (paneIds : list string) (command : string)
    (o : Outcome) (st : Tracker) : Run :=
  let valid := validPanes st paneIds in
  match valid with
  | [] => mkRun (Returned [Lit "No valid panes found"]) st [] []
  | _ =>
      let script := ScriptBroadcast (sessionIdsOf st valid) command in
      let caught m :=
        mkRun (Returned [Lit ("Failed to broadcast input: " +:+ m)]) st [script] [] in
      match o with
      | BridgeThrew m => caught m
      | ParseThrew m => caught m
      | Parsed data =>
          match getProp data "total_panes" with
          | inl m => caught m
          | inr _ => mkRun (Returned (broadcastText command data)) st [script] []
          end
      end
  end.

(** *** list-panes and get-terminal-state (no bridge call) *)

Definition paneEntries (st : Tracker) : list (string * PaneInfo) :=
  omap (λ kr : string * nat, p ← paneObjs st !! kr.2; Some (kr.1, p)) (panes st).

Definition paneLine (id : string) (pane : PaneInfo) : Text :=
  [Lit (id +:+ ": Window=" +:+ pane_windowId pane +:+ ", Tab=" +:+ pane_tabId pane
        +:+ ", Session="); Interp (sessionId pane);
   Lit (", Position=(" +:+ pretty (position pane).1 +:+ ","
        +:+ pretty (position pane).2 +:+ "), Active="
        +:+ (if isActive pane then "true" else "false"))].

(** [lines.join('\n')] on texts *)
Fixpoint joinLines (lines : list Text) : Text :=
  match lines with
  | [] => []
  | [l] => l
  | l :: rest => l ++ Lit nl :: joinLines rest
  end.

Definition listPanes (st : Tracker) : Run :=
  let paneList := map (λ e : string * PaneInfo, paneLine e.1 e.2) (paneEntries st) in
  let body := match paneList with
              | [] => [Lit "No panes found"]
              | _ => joinLines paneList
              end in
  mkRun (Returned (Lit ("Total panes: " +:+ pretty (JsMap.size (panes st)) +:+ nl)
                   :: body)) st [] [].

Definition num (n : nat) : Json := JNum (NumQ (inject_Z (Z.of_nat n))).

(** A property that [JSON.stringify] drops when it is [undefined]. *)
Definition optField (k : string) (v : option string) : list (string * Json) :=
  match v with
  | Some s => [(k, JStr s)]
  | None => []
  end.

Definition tabState (st : Tracker) (e : string * nat) : option Json :=
  tab ← tabObjs st !! e.2;
  Some (JObj ([("tabId", JStr e.1)] ++ optField "activePaneId" (activePaneId tab)
              ++ [("panes", JArr (map JStr (JsMap.keys (tab_panes tab))))])).

Definition windowState (st : Tracker) (e : string * WindowInfo) : Json :=
  JObj ([("windowId", JStr e.1)] ++ optField "activeTabId" (activeTabId e.2)
        ++ [("tabs", JArr (omap (tabState st) (win_tabs e.2)))]).

Definition terminalState (st : Tracker) : Json :=
  JObj [("windows", num (JsMap.size (windows st)));
        ("tabs", num (JsMap.size (tabs st)));
        ("panes", num (JsMap.size (panes st)));
        ("details", JArr (map (windowState st) (windows st)))].

Definition getTerminalState (st : Tracker) : Run :=
  mkRun (Returned [Lit ("Terminal State Overview:" +:+ nl);
                   Stringify (Some (terminalState st))]) st [] [].

(** *** The registered tools *)

Inductive Request :=
| OpenTerminal (profile command workingDirectory : option string)
| SplitTerminalHorizontal (paneId profile command : option string)
| SplitTerminalVertical (paneId profile command : option string)
| ExecuteCommandInPane (paneId command : string)
| GetSessionInfo (paneId : string)
| GetSessionDetails (sessionId : string)
| SetTabColor (paneId color : string)
| ListAllSessions
| MonitorSession (paneId : string) (duration : option JsNumber)
| BroadcastInput (paneIds : list string) (command : string)
| ListPanes
| GetTerminalState.

Definition dispatch (req : Request) (o : Outcome) (st : Tracker) : Run :=
  match req with
  | OpenTerminal profile command wd => openTerminal profile command wd o st
  | SplitTerminalHorizontal paneId profile command =>
      splitTerminal false paneId profile command o st
  | SplitTerminalVertical paneId profile command =>
      splitTerminal true paneId profile command o st
  | ExecuteCommandInPane paneId command => executeCommandInPane paneId command o st
  | GetSessionInfo paneId => getSessionInfo paneId o st
  | GetSessionDetails sessionId => getSessionDetails sessionId o st
  | SetTabColor paneId color => setTabColor paneId color o st
  | ListAllSessions => listAllSessions o st
  | MonitorSession paneId duration => monitorSession paneId duration o st
  | BroadcastInput paneIds command => broadcastInput paneIds command o st
  | ListPanes => listPanes st
  | GetTerminalState => getTerminalState st
  end.

(** A process lifetime: the calls handled one after the other, each with
    what the bridge answered; the tracker at the end and every identifier
    allocation on the way, in order. *)
Fixpoint runAll (calls : list (Request * Outcome)) (st : Tracker)
  : Tracker * list (Kind * N) :=
  match calls with
  | [] => (st, [])
  | (req, o) :: rest =>
      let r := dispatch req o st in
      let '(st', more) := runAll rest (final r) in
      (st', allocated r ++ more)
  end.

(** The counter values handed out for one kind. *)
Definition suffixes (k : Kind) (allocs : list (Kind * N)) : list N :=
  omap (λ a : Kind * N,
          match k, a.1 with
          | KWindow, KWindow | KTab, KTab | KPane, KPane => Some a.2
          | _, _ => None
          end) allocs.

End Tools.

(** ** The bridge *)

Module Bridge.

(** [s.startsWith(p)], [s.endsWith(p)], [s.includes(p)] *)
Definition startsWith (s p : string) : bool := String.prefix p s.

Definition endsWith (s p : string) : bool :=
  String.prefix (String.rev p) (String.rev s).

Fixpoint includes (s p : string) : bool :=
  String.prefix p s ||
  match s with
  | EmptyString => false
  | String _ rest => includes rest p
  end.

(** White space and line terminators as [trim] sees them.  The characters
    beyond ASCII are met as their UTF-8 bytes: U+00A0 in two bytes; U+1680,
    U+2000 to U+200A, U+2028, U+2029, U+202F, U+205F, U+3000 and U+FEFF in
    three. *)

(** Tab, line feed, vertical tab, form feed, carriage return, space. *)
Definition isWhite (c : ascii) : bool :=
  let n := nat_of_ascii c in
  ((9 <=? n)%nat && (n <=? 13)%nat) || (n =? 32)%nat.

Definition isWhite2 (c1 c2 : ascii) : bool :=
  (nat_of_ascii c1 =? 194)%nat && (nat_of_ascii c2 =? 160)%nat.

Definition isWhite3 (c1 c2 c3 : ascii) : bool :=
  let a := nat_of_ascii c1 in
  let b := nat_of_ascii c2 in
  let c := nat_of_ascii c3 in
  ((a =? 225)%nat && (b =? 154)%nat && (c =? 128)%nat)
  || ((a =? 226)%nat && (b =? 128)%nat
      && (((128 <=? c)%nat && (c <=? 138)%nat)
          || (c =? 168)%nat || (c =? 169)%nat || (c =? 175)%nat))
  || ((a =? 226)%nat && (b =? 129)%nat && (c =? 159)%nat)
  || ((a =? 227)%nat && (b =? 128)%nat && (c =? 128)%nat)
  || ((a =? 239)%nat && (b =? 187)%nat && (c =? 191)%nat).

(** The text without the white space it starts with.  With [backwards] the
    text is a reversed string, whose characters come last byte first. *)
Fixpoint strip (backwards : bool) (s : string) : string :=
  match s with
  | EmptyString => EmptyString
  | String c1 rest1 =>
      if isWhite c1 then strip backwards rest1
      else
        match rest1 with
        | EmptyString => s
        | String c2 rest2 =>
            if (if backwards then isWhite2 c2 c1 else isWhite2 c1 c2)
            then strip backwards rest2
            else
              match rest2 with
              | EmptyString => s
              | String c3 rest3 =>
                  if (if backwards then isWhite3 c3 c2 c1 else isWhite3 c1 c2 c3)
                  then strip backwards rest3
                  else s
              end
        end
  end.

Definition trimStart (s : string) : string := strip false s.

Definition trimEnd (s : string) : string :=
  String.rev (strip true (String.rev s)).

Definition trim (s : string) : string := trimEnd (trimStart s).

(** The scripts directory [pythonScriptsDir]: file name to modification
    time in milliseconds. *)
Abbreviation Dir := (gmap string Z).

Definition readdirSync (dir : Dir) : list string := (map_to_list dir).*1.

(** [statSync(file).mtime.getTime()]; [None] when it throws. *)
Definition statSync (file : string) (dir : Dir) : option Z := dir !! file.

(** [unlinkSync(file)]; [None] when it throws. *)
Definition unlinkSync (file : string) (dir : Dir) : option Dir :=
  match dir !! file with
  | Some _ => Some (delete file dir)
  | None => None
  end.

Definition writeFileSync (file : string) (now : Z) (dir : Dir) : Dir :=
  <[file := now]> dir.

Definition isScriptName (file : string) : bool :=
  startsWith file "iterm_script_" && endsWith file ".py".

(** The loop of [cleanupOldScripts]; an exception of [statSync] or
    [unlinkSync] leaves the loop, with the directory as it then is. *)
Fixpoint cleanupLoop (now : Z) (files : list string) (dir : Dir) : Dir :=
  match files with
  | [] => dir
  | file :: rest =>
      if isScriptName file then
        match statSync file dir with
        | None => dir
        | Some mtime =>
            if (now - mtime >? 300000)%Z then
              match unlinkSync file dir with
              | None => dir
              | Some dir' => cleanupLoop now rest dir'
              end
            else cleanupLoop now rest dir
        end
      else cleanupLoop now rest dir
  end.

Definition cleanupOldScripts (now : Z) (dir : Dir) : Dir :=
  cleanupLoop now (readdirSync dir) dir.

(** What the child process of [exec] did: it could not be spawned, it was
    killed on the timeout of [exec], or it wrote [stdout] and [stderr] and
    ended with [code].  [message] is the message of the error [exec] rejects
    with, when it rejects. *)
Inductive ChildExit :=
| SpawnFailed (message : string)
| TimedOut (message : string)
| Exited (code : Z) (stdout stderr message : string).

(** The [maxBuffer] of [exec] when the options name none: 1024 * 1024
    bytes, for each of the two outputs. *)
Definition maxBuffer : N := 1048576.

(** [Buffer.byteLength(s, 'utf8')] *)
Definition byteLength (s : string) : N := N.of_nat (String.length s).

Definition fits (s : string) : bool := (byteLength s <=? maxBuffer)%N.

(** [await execPromise(...)]: resolves with the two outputs exactly when
    the child exited with code zero and neither output went beyond
    [maxBuffer] ([exec] kills a child that writes more, and rejects). *)
Definition execPromise (c : ChildExit) : (string * string) + string :=
  match c with
  | SpawnFailed m => inr m
  | TimedOut m => inr m
  | Exited code stdout stderr m =>
      if (code =? 0)%Z && fits stdout && fits stderr
      then inl (stdout, stderr) else inr m
  end.

(** The two lines the bridge writes with [console.error]: the standard
    error of the child after "Python script stderr:", and the error [exec]
    rejected with after "Python script error:" (the error object, named here
    by its message; it carries what the child had written). *)
Inductive LogLine :=
| LogStderr (stderr : string)
| LogError (message : string).

Inductive Effect :=
| Wrote (file : string) (script : Script)
| Executed (file : string)
| Unlinked (file : string).

Record BridgeRun := mkBridgeRun {
  returned : string + string;
  dirAfter : Dir;
  logged : list LogLine;
  effects : list Effect
}.

Definition scriptName (now : Z) : string :=
  "iterm_script_" +:+ pretty now +:+ ".py".

(** [executeITermPythonScript]; [now] is [Date.now()].  [returned] is the
    value of the promise on the left, the message of the error it rejects
    with on the right.  The file holds the fixed Python harness around the
    script. *)
Definition executeITermPythonScript (now : Z) (script : Script)
    (child : ChildExit) (dir : Dir) : BridgeRun :=
  let scriptPath := scriptName now in
  let dir1 := writeFileSync scriptPath now dir in
  let '(res, logs) :=
    match execPromise child with
    | inl (stdout, stderr) =>
        (inl (trim stdout),
         if negb (String.eqb stderr "") && negb (includes stderr "Warning")
         then [LogStderr stderr] else [])
    | inr m => (inr ("Python execution failed: " +:+ m), [LogError m])
    end in
  match unlinkSync scriptPath dir1 with
  | Some dir2 =>
      mkBridgeRun res dir2 logs
        [Wrote scriptPath script; Executed scriptPath; Unlinked scriptPath]
  | None =>
      mkBridgeRun res dir1 logs [Wrote scriptPath script; Executed scriptPath]
  end.

(** What a handler sees of a bridge run, given what [JSON.parse] makes of
    the returned text. *)
Definition outcomeOf (parse : string → string + Json) (r : string + string)
  : Outcome :=
  match r with
  | inr m => BridgeThrew m
  | inl text =>
      match parse text with
      | inl m => ParseThrew m
      | inr data => Parsed data
      end
  end.

End Bridge.

(** ** Generated Python whose result the handlers report *)

Module PyScripts.

(** *** Python strings *)

(** A [str]: its code points. *)
Definition str := list N.

(** The [str] of a text of ASCII characters. *)
Definition text (s : string) : str := N_of_ascii <$> list_ascii_of_string s.

(** What the Unicode database of the interpreter says of the characters
    beyond ASCII: which are white space ([str.isspace]), which are decimal
    digits and of what value, and the lower-case form of the character at a
    position of a string (up to three characters; for a capital sigma it
    depends on the neighbours).  The colour rule is stated for every such
    database. *)
Record Unicode := mkUnicode {
  isspace : N → bool;
  decimal : N → option N;
  tolower : str → nat → list N
}.

Definition isAscii (s : str) : bool := forallb (λ c, c <? 128)%N s.

Fixpoint eqb (a b : str) : bool :=
  match a, b with
  | [], [] => true
  | x :: a', y :: b' => (x =? y)%N && eqb a' b'
  | _, _ => false
  end.

(** [s.startswith(p)] *)
Fixpoint startswith (s p : str) {struct p} : bool :=
  match p, s with
  | [], _ => true
  | x :: p', y :: s' => (x =? y)%N && startswith s' p'
  | _ :: _, [] => false
  end.

(** [s[a:b]] for [0 <= a <= b] *)
Definition slice (a b : nat) (s : str) : str := take (b - a) (drop a s).

(** [d.get(key)] on a dict given by its items. *)
Fixpoint dict_get {V} (d : list (str * V)) (key : str) : option V :=
  match d with
  | [] => None
  | (k, v) :: rest => if eqb key k then Some v else dict_get rest key
  end.

Definition asciiLower (c : N) : N :=
  if ((65 <=? c) && (c <=? 90))%N then (c + 32)%N else c.

(** [s.lower()]: the letters A to Z become a to z, the other ASCII
    characters stay, the characters beyond ASCII are looked up. *)
Definition lower (U : Unicode) (s : str) : str :=
  concat (imap (λ i c, if (c <? 128)%N then [asciiLower c] else tolower U s i) s).

(** *** [int(s, 16)] *)

(** The characters [int] skips around a number: tab, line feed, vertical
    tab, form feed, carriage return, space. *)
Definition pySpace (c : N) : bool :=
  (((9 <=? c) && (c <=? 13)) || (c =? 32))%N.

Fixpoint pyLstrip (s : str) : str :=
  match s with
  | c :: rest => if pySpace c then pyLstrip rest else s
  | [] => []
  end.

(** What [int] reads in place of a character of a string that is not all
    ASCII: the character itself below 127, a space for white space, the
    ASCII digit for a decimal digit; [None] for any other character, which
    no number contains. *)
Definition toAscii (U : Unicode) (c : N) : option N :=
  if (c <? 127)%N then Some c
  else if isspace U c then Some 32%N
  else d ← decimal U c; if (d <? 10)%N then Some (48 + d)%N else None.

Definition hexDigit (c : N) : option Z :=
  if ((48 <=? c) && (c <=? 57))%N then Some (Z.of_N c - 48)%Z
  else if ((97 <=? c) && (c <=? 102))%N then Some (Z.of_N c - 87)%Z
  else if ((65 <=? c) && (c <=? 70))%N then Some (Z.of_N c - 55)%Z
  else None.

(** The digits of a number, single underscores allowed between them: the
    value read and the text that follows.  [seen] tells whether a digit has
    been read, [bar] whether an underscore may not come next. *)
Fixpoint hexDigits (acc : Z) (seen bar : bool) (s : str) : option (Z * str) :=
  let stop := if seen && negb bar then Some (acc, s) else None in
  match s with
  | [] => stop
  | c :: rest =>
      if (c =? 95)%N then
        if bar then None else hexDigits acc seen true rest
      else
        match hexDigit c with
        | Some d => hexDigits (16 * acc + d) true false rest
        | None => stop
        end
  end.

(** The number after the sign: an optional [0x] or [0X] (and one
    underscore), the digits, white space. *)
Definition unsigned16 (s : str) : option Z :=
  let digits :=
    match s with
    | zero :: x :: rest =>
        if ((zero =? 48) && ((x =? 120) || (x =? 88)))%N then
          match rest with
          | u :: rest' => if (u =? 95)%N then rest' else rest
          | [] => rest
          end
        else s
    | _ => s
    end in
  '(n, rest) ← hexDigits 0 false true digits;
  match pyLstrip rest with
  | [] => Some n
  | _ :: _ => None
  end.

(** [int(s, 16)]; [None] is a ValueError. *)
Definition int16 (U : Unicode) (s : str) : option Z :=
  a ← (if isAscii s then Some s else mapM (toAscii U) s);
  match pyLstrip a with
  | [] => None
  | c :: rest =>
      if (c =? 43)%N then unsigned16 rest
      else if (c =? 45)%N then Z.opp <$> unsigned16 rest
      else unsigned16 (c :: rest)
  end.

(** *** The colour rule of set-tab-color

    [color_value] is the text of the [color] argument as Python reads it
    (the argument itself when it has no quote, backslash or line break).
    Channels are the real numbers whose nearest floating-point values Python
    computes, kept in lowest terms. *)

Definition Color := (Q * Q * Q)%type.

(** [iterm2.Color(r, g, b)] *)
Definition rgb (r g b : Q) : Color := (r, g, b).

Definition gray : Color := rgb (1 # 2) (1 # 2) (1 # 2).

Definition color_map : list (str * Color) :=
  [(text "red", rgb 1 0 0); (text "green", rgb 0 1 0); (text "blue", rgb 0 0 1);
   (text "yellow", rgb 1 1 0); (text "purple", rgb 1 0 1);
   (text "cyan", rgb 0 1 1); (text "orange", rgb 1 (1 # 2) 0);
   (text "pink", rgb 1 (7 # 10) (4 # 5))].

(** [n / 255.0] *)
Definition channel (n : Z) : Q := Qred (Qmake n 255).

(** The colour the script computes; [None] when [int] raises. *)
Definition parse_color (U : Unicode) (color_value : str) : option Color :=
  if startswith color_value (text "#") then
    let hex_color := drop 1 color_value in
    r ← int16 U (slice 0 2 hex_color);
    g ← int16 U (slice 2 4 hex_color);
    b ← int16 U (slice 4 6 hex_color);
    Some (rgb (channel r) (channel g) (channel b))
  else
    Some (default gray (dict_get color_map (lower U color_value))).

(** *** The send loop of broadcast-input

    The terminal application as the script walks it: windows, their tabs,
    the session identifiers of each tab. *)
Definition App := list (list (list string)).

Definition appSessions (app : App) : list string := concat (concat app).

(** [target_sessions]: the open sessions whose identifier is in
    [session_ids], in the order of the walk. *)
Definition target_sessions (app : App) (session_ids : list string) : list string :=
  filter (λ s, s ∈ session_ids) (appSessions app).

(** One entry of [results]; [send s] is [None] when [async_send_text]
    returns and the text of the exception otherwise. *)
Definition sendResult (send : string → option string) (s : string) : Json :=
  match send s with
  | None => JObj [("session_id", JStr s); ("success", JBool true)]
  | Some e => JObj [("session_id", JStr s); ("success", JBool false);
                    ("error", JStr e)]
  end.

(** The payload the broadcast script prints. *)
Definition broadcast_payload (app : App) (send : string → option string)
    (session_ids : list string) : Json :=
  let results := sendResult send <$> target_sessions app session_ids in
  JObj [("success", JBool true);
        ("broadcast_results", JArr results);
        ("total_panes", Tools.num (length results))].

(** The session identifiers listed in the breakdown of a payload. *)
Definition breakdownIds (data : Json) : list JsVal :=
  match Tools.prop data "broadcast_results" with
  | Some (JArr results) => (λ r, Tools.prop r "session_id") <$> results
  | _ => []
  end.

End PyScripts.

(** ** The script file: its text and its run *)

Module Harness.

(** [s.split('\n')]: the pieces between line feeds, at least one. *)
Fixpoint splitLines (s : string) : list string :=
  match s with
  | EmptyString => [EmptyString]
  | String c rest =>
      if Ascii.eqb c "010" then EmptyString :: splitLines rest
      else match splitLines rest with
           | [] => [String c EmptyString]
           | line :: lines => String c line :: lines
           end
  end.

(** [lines.join('\n')] *)
Fixpoint joinLines (lines : list string) : string :=
  match lines with
  | [] => EmptyString
  | [line] => line
  | line :: rest => line +:+ nl +:+ joinLines rest
  end.

(** A text without line feed is one line. *)
Fixpoint oneLine (s : string) : bool :=
  match s with
  | EmptyString => true
  | String c rest => negb (Ascii.eqb c "010") && oneLine rest
  end.

Definition indent : string := "        ".

(** The body of [main] in the script file:
    [scriptContent.split('\n').map(line => '        ' + line).join('\n')]. *)
Definition indentScript (scriptContent : string) : string :=
  joinLines ((λ line, indent +:+ line) <$> splitLines scriptContent).

(** [command.replace(/"/g, '\\"')]: a backslash before every double quote. *)
Fixpoint escapeQuotes (command : string) : string :=
  match command with
  | EmptyString => EmptyString
  | String c rest =>
      if Ascii.eqb c "034" then String "\" (String "034" (escapeQuotes rest))
      else String c (escapeQuotes rest)
  end.

(** *** String literals of the generated Python

    How the tokenizer reads on after the opening double quote of a string
    literal: a backslash takes the next character with it, whatever it is; a
    double quote closes the literal; a line end, or the end of the text,
    leaves it unterminated.  The text is the source as the tokenizer sees
    it, with its line ends as line feeds. *)
Inductive LiteralEnd :=
| Closed (body rest : string)
| Unterminated.

(** The same end, for a literal that has [pre] before what was read. *)
Definition withBody (pre : string) (e : LiteralEnd) : LiteralEnd :=
  match e with
  | Closed body rest => Closed (pre +:+ body) rest
  | Unterminated => Unterminated
  end.

Fixpoint scanLiteral (s : string) : LiteralEnd :=
  match s with
  | EmptyString => Unterminated
  | String c rest =>
      if Ascii.eqb c "\" then
        match rest with
        | String c2 rest2 =>
            withBody (String c (String c2 EmptyString)) (scanLiteral rest2)
        | EmptyString => Unterminated
        end
      else if Ascii.eqb c "034" then Closed EmptyString rest
      else if Ascii.eqb c "010" then Unterminated
      else withBody (String c EmptyString) (scanLiteral rest)
  end.


(** *** The run of a script file

    The file is the fixed harness around the indented script.  [main] runs
    the script inside [try]; when an [Exception] leaves the script, [main]
    prints [error_details] and exits with code 1.  The last lines of the
    file print a connection error and exit with code 1 when
    [iterm2.run_until_complete] raises.  Every script prints one object, as
    its last statement on each of its paths. *)

Inductive ScriptRun :=
| NoConnection (conn_error : string)
| BodyRaised (e traceback error_type : string)
| BodyCompleted (printed : Json) (conn_error : option string).

Definition error_details (e traceback error_type : string) : Json :=
  JObj [("error", JStr e); ("traceback", JStr traceback);
        ("error_type", JStr error_type)].

Definition connection_error (conn_error : string) : Json :=
  JObj [("error", JStr ("Connection error: " +:+ conn_error))].

(** The objects the process prints and the code it exits with.
    [NoConnection]: [run_until_complete] raises before [main] runs.
    [BodyCompleted printed conn_error]: the script ran to its end;
    [conn_error] is the exception [run_until_complete] raises after that, if
    it does. *)
Definition output (r : ScriptRun) : list Json * Z :=
  match r with
  | NoConnection conn_error => ([connection_error conn_error], 1%Z)
  | BodyRaised e traceback error_type =>
      ([error_details e traceback error_type], 1%Z)
  | BodyCompleted printed None => ([printed], 0%Z)
  | BodyCompleted printed (Some conn_error) =>
      ([printed; connection_error conn_error], 1%Z)
  end.

(** The keys of the [result] a script prints when it has done its work, in
    the order of the dict. *)
Definition resultKeys (script : Script) : list string :=
  match script with
  | ScriptOpen _ _ _ _ _ _ =>
      ["success"; "windowId"; "tabId"; "paneId"; "sessionId"; "realWindowId";
       "realTabId"]
  | ScriptSplit _ _ _ _ _ => ["success"; "newPaneId"; "newSessionId"]
  | ScriptExecute _ _ => ["success"; "command"]
  | ScriptInfo _ =>
      ["success"; "session_id"; "name"; "working_directory"; "foreground_job";
       "title"; "columns"; "rows"; "is_at_shell_prompt"; "tty"]
  | ScriptDetails _ =>
      ["success"; "session_id"; "columns"; "rows"; "path"; "foregroundJob";
       "name"; "isAtShellPrompt"; "title"; "tty"; "hostname"; "username";
       "lastCommand"]
  | ScriptColor _ _ => ["success"; "color"]
  | ScriptList => ["success"; "windows"; "total_windows"; "total_sessions"]
  | ScriptMonitor _ _ => ["success"; "changes"; "monitoring_duration"]
  | ScriptBroadcast _ _ => ["success"; "broadcast_results"; "total_panes"]
  end.

(** The texts of the error objects a script prints on its own, without
    raising: none in the scripts of open-terminal, list-all-sessions and
    broadcast-input; the missing session in the others; two more, each with
    the text of an exception, in the script of get-session-details. *)
Definition printsError (script : Script) (e : string) : bool :=
  match script with
  | ScriptOpen _ _ _ _ _ _ => false
  | ScriptList => false
  | ScriptBroadcast _ _ => false
  | ScriptDetails _ =>
      String.eqb e "Target session not found"
      || String.prefix "Session access error: " e
      || String.prefix "General error: " e
  | _ => String.eqb e "Target session not found"
  end.

(** What a script prints when it runs to its end with its arguments inside
    their string literals: its [result], or one of its error objects. *)
Definition prints (script : Script) (printed : Json) : bool :=
  match printed with
  | JObj fields =>
      bool_decide (fields.*1 = resultKeys script)
      || match fields with
         | [(k, JStr e)] => String.eqb k "error" && printsError script e
         | _ => false
         end
  | _ => false
  end.

End Harness.

(** ** The polling loop of the monitor-session script *)

Module PyMonitor.

Section Loop.

(** The values of the three session variables, with the equality the
    script's [!=] tests. *)
Context {V : Type} `{EqDecision V}.

(** Working directory, foreground job, at-shell-prompt flag. *)
Definition Snapshot : Type := V * V * V.

Inductive Event := MonitoringStarted | ChangeDetected.

(** The [while] loop, by the snapshots read after each sleep (how many there
    are is decided by the clock): a snapshot that differs from the previous
    one in any of the three values is appended and becomes the previous
    one.  Entries are given without their time stamps. *)
Fixpoint monitorLoop (prev : Snapshot) (samples : list Snapshot)
  : list (Event * Snapshot) :=
  match samples with
  | [] => []
  | curr :: rest =>
      if decide (curr.1.1 ≠ prev.1.1 ∨ curr.1.2 ≠ prev.1.2 ∨ curr.2 ≠ prev.2)
      then (ChangeDetected, curr) :: monitorLoop curr rest
      else monitorLoop prev rest
  end.

(** [changes] at the end of the script. *)
Definition changes (initial : Snapshot) (samples : list Snapshot)
  : list (Event * Snapshot) :=
  (MonitoringStarted, initial) :: monitorLoop initial samples.

End Loop.

End PyMonitor.

(** ** Vocabulary of the properties *)

Import Tools.

Definition counter (k : Kind) (st : Tracker) : N :=
  match k with
  | KWindow => windowCounter st
  | KTab => tabCounter st
  | KPane => paneCounter st
  end.

Definition counters (st : Tracker) : N * N * N :=
  (windowCounter st, tabCounter st, paneCounter st).

(** The handlers whose [catch] throws again. *)
Definition rethrows (req : Request) : bool :=
  match req with
  | OpenTerminal _ _ _ => true
  | SplitTerminalHorizontal _ _ _ => true
  | SplitTerminalVertical _ _ _ => true
  | _ => false
  end.

(** What the [catch] of each handler puts before the message it caught. *)
Definition failurePrefix (req : Request) : string :=
  match req with
  | OpenTerminal _ _ _ => "Failed to create terminal: "
  | SplitTerminalHorizontal _ _ _ => "Failed to split pane horizontally: "
  | SplitTerminalVertical _ _ _ => "Failed to split pane vertically: "
  | ExecuteCommandInPane paneId _ =>
      "Failed to execute command in pane " +:+ paneId +:+ ": "
  | GetSessionInfo _ => "Failed to get session info: "
  | GetSessionDetails _ => "Failed to read session content: "
  | SetTabColor _ _ => "Failed to set tab color: "
  | ListAllSessions => "Failed to list sessions: "
  | MonitorSession _ _ => "Failed to monitor session: "
  | BroadcastInput _ _ => "Failed to broadcast input: "
  | ListPanes => ""
  | GetTerminalState => ""
  end.

(** A failed bridge call and the message of the exception the handler
    catches: [exec] rejected (the child could not be spawned, was killed on
    the timeout, exited with a non-zero code, or wrote more than
    [maxBuffer]), or the output did not parse. *)
Definition bridgeFailure (parse : string → string + Json)
    (child : Bridge.ChildExit) : option string :=
  match Bridge.execPromise child with
  | inr m => Some ("Python execution failed: " +:+ m)
  | inl (stdout, _) =>
      match parse (Bridge.trim stdout) with
      | inl m => Some m
      | inr _ => None
      end
  end.

(** What the handler gets from one run of the bridge. *)
Definition bridgeOutcome (parse : string → string + Json)
    (child : Bridge.ChildExit) (now : Z) (script : Script) (dir : Bridge.Dir)
  : Outcome :=
  Bridge.outcomeOf parse
    (Bridge.returned (Bridge.executeITermPythonScript now script child dir)).

(** The bridge threw, or what it returned did not parse. *)
Definition bridgeFailed (o : Outcome) : bool :=
  match o with
  | BridgeThrew _ => true
  | ParseThrew _ => true
  | Parsed _ => false
  end.

(** The payload carries a truthy [error]. *)
Definition reportsError (o : Outcome) : bool :=
  match o with
  | Parsed data =>
      match getProp data "error" with
      | inr e => truthy e
      | inl _ => false
      end
  | _ => false
  end.

Definition isOpenTerminal (req : Request) : bool :=
  match req with
  | OpenTerminal _ _ _ => true
  | _ => false
  end.

(** The payload has an [error] field. *)
Definition hasErrorField (data : Json) : bool :=
  match getProp data "error" with
  | inr (Some _) => true
  | _ => false
  end.

(** The child process of a script file that ran as [r]: the exit code is
    the harness's; [stdout] is the text of what was printed. *)
Definition harnessChild (r : Harness.ScriptRun) (stdout stderr message : string)
  : Bridge.ChildExit :=
  Bridge.Exited (Harness.output r).2 stdout stderr message.

(** Older than five minutes at time [now]. *)
Definition expired (now mtime : Z) : bool := (now - mtime >? 300000)%Z.

(** What the clean-up at time [now] leaves of a file that was there. *)
Definition kept (now : Z) (file : string) (mtime : Z) : option Z :=
  if Bridge.isScriptName file && expired now mtime then None else Some mtime.

(** The shape of the trackers the handlers build: every reference held by
    [panes] and [tabs] points into its store, every key of [panes] was made
    from a pane counter value already used, and the tab of every pane object
    is a key of [tabs]. *)
Definition wellFormed (st : Tracker) : Prop :=
  (∀ id r, (id, r) ∈ panes st →
     r < length (paneObjs st) ∧
     ∃ n, id = localId KPane n ∧ (n < paneCounter st)%N) ∧
  (∀ id r, (id, r) ∈ tabs st → r < length (tabObjs st)) ∧
  (∀ i p, paneObjs st !! i = Some p →
     is_Some (JsMap.get (tabs st) (pane_tabId p))).

(** ** Sample runs *)

(** The tracker after one open-terminal: window-0, tab-0, pane-0 on
    session S0. *)
Definition afterOpen : Tracker :=
  final (openTerminal None (Some "echo hi") None
           (Parsed (JObj [("sessionId", JStr "S0")])) initial).

(** A vertical split of the default pane of [afterOpen]. *)
Definition afterSplit : Run :=
  splitTerminal true None None None
    (Parsed (JObj [("newSessionId", JStr "S1")])) afterOpen.

(** A child that exits with code 1. *)
Definition failedChild : Bridge.ChildExit :=
  Bridge.Exited 1 "" "boom" "Command failed".

Definition lsScript : Script := ScriptExecute (Some (JStr "S0")) "ls".

(** open-terminal when the shell of [exec] cannot be spawned. *)
Definition failedOpen : Run :=
  dispatch (OpenTerminal None None None)
    (bridgeOutcome (λ _, inl "Unexpected end of JSON input")
       (Bridge.SpawnFailed "spawn /bin/sh ENOENT") 0
       (ScriptOpen None None None "window-0" "tab-0" "pane-0") ∅)
    initial.

(** A payload with an [error] field. *)
Definition errorPayload : Outcome :=
  Parsed (JObj [("error", JStr "Connection error: refused")]).

(** The script of the first open-terminal of a process. *)
Definition openScript : Script :=
  ScriptOpen None None None "window-0" "tab-0" "pane-0".

(** What that script prints when the window is made on session S0. *)
Definition openedPayload : Json :=
  JObj [("success", JBool true); ("windowId", JStr "window-0");
        ("tabId", JStr "tab-0"); ("paneId", JStr "pane-0");
        ("sessionId", JStr "S0"); ("realWindowId", JStr "W0");
        ("realTabId", JStr "T0")].

Definition openedRun : Harness.ScriptRun :=
  Harness.BodyCompleted openedPayload None.

(** What the handler gets of that run. *)
Definition openedOutcome : Outcome :=
  bridgeOutcome (λ _, inr openedPayload)
    (harnessChild openedRun "payload" "" "") 0 openScript ∅.

(** The same script when no window can be made. *)
Definition raisedRun : Harness.ScriptRun :=
  Harness.BodyRaised "no window" "" "AttributeError".

Definition raisedOutcome : Outcome :=
  bridgeOutcome (λ _, inl "Unexpected token")
    (harnessChild raisedRun "payload" "" "Command failed") 0 openScript ∅.

(** A part of the Unicode database: the no-break space, the Arabic-Indic
    digits, and the Kelvin sign with its lower-case form k. *)
Definition someUnicode : PyScripts.Unicode :=
  PyScripts.mkUnicode
    (λ c, (c =? 160)%N)
    (λ c, if ((1632 <=? c) && (c <=? 1641))%N then Some (c - 1632)%N else None)
    (λ s i, match s !! i with
            | Some c => if (c =? 8490)%N then [107%N] else [c]
            | None => []
            end).

(** An application with one window, one tab and the sessions S0 and S7. *)
Definition twoSessions : PyScripts.App := [[["S0"; "S7"]]].

(** What the broadcast script prints for session S0 when the application
    has no window left. *)
Definition stalePayload : Json :=
  PyScripts.broadcast_payload [] (λ _, None) ["S0"].

(** A scripts directory with one file written at 5 ms and one at 900000 ms. *)
Definition twoScripts : Bridge.Dir :=
  <["iterm_script_5.py" := 5%Z]> (<["iterm_script_900000.py" := 900000%Z]> ∅).

(** The ways a bridge call can end, as the handlers tell them apart. *)
Ltac bridge_cases o :=
  let data := fresh "data" in
  let e := fresh "e" in
  destruct o as [?|?|data];
    [| |destruct (getProp data "error") as [?|e]; [|destruct (truthy e)]].

(** Case analysis on every [match] of the goal. *)
Ltac run_cases :=
  repeat match goal with
    | |- context [match ?x with _ => _ end] => destruct x eqn:?; simpl
    end.

(** ** Vocabulary of the further properties *)

(** The pane identifier a call must resolve before anything else. *)
Definition namedPane (req : Request) : option string :=
  match req with
  | SplitTerminalHorizontal paneId _ _ => if truthyArg paneId then paneId else None
  | SplitTerminalVertical paneId _ _ => if truthyArg paneId then paneId else None
  | ExecuteCommandInPane paneId _ => Some paneId
  | GetSessionInfo paneId => Some paneId
  | SetTabColor paneId _ => Some paneId
  | MonitorSession paneId _ => Some paneId
  | _ => None
  end.

(** The handlers that test [data.error] after parsing. *)
Definition checksError (req : Request) : bool :=
  match req with
  | OpenTerminal _ _ _ => false
  | BroadcastInput _ _ => false
  | ListPanes => false
  | GetTerminalState => false
  | _ => true
  end.

(** The first property a handler reads of its payload. *)
Definition firstField (req : Request) : string :=
  match req with
  | OpenTerminal _ _ _ => "sessionId"
  | BroadcastInput _ _ => "total_panes"
  | _ => "error"
  end.

(** What does not change in a pane object once it is made. *)
Definition identity (p : PaneInfo) : string * JsVal * string * string * (Z * Z) :=
  (pane_id p, sessionId p, pane_windowId p, pane_tabId p, position p).

(** What does not change in a tab object once it is made. *)
Definition tabIdentity (t : TabInfo) : string * string * option string :=
  (tab_id t, tab_windowId t, activePaneId t).

(** The tracker's links: every key of [tabs] is made from a tab counter
    value already used and leads to the tab object of that identifier; every
    entry of a tab's own [panes] map is an entry of the global [panes] map
    and leads to a pane object of that identifier whose tab is this tab. *)
Definition linked (st : Tracker) : Prop :=
  (∀ tid t, (tid, t) ∈ tabs st →
     ∃ n, tid = localId KTab n ∧ (n < tabCounter st)%N) ∧
  (∀ tid t tab, (tid, t) ∈ tabs st → tabObjs st !! t = Some tab →
     tab_id tab = tid ∧
     ∀ pid r, (pid, r) ∈ tab_panes tab →
       (pid, r) ∈ panes st ∧
       ∃ p, paneObjs st !! r = Some p ∧ pane_id p = pid ∧ pane_tabId p = tid).

(** * Properties *)

(** ** Identifier allocation *)

(** The three ways a call uses the counters: not at all, one pane
    identifier (a split), or one identifier of each kind (open-terminal). *)
Lemma dispatch_allocated (req : Request) (o : Outcome) (st : Tracker) :
  let r := dispatch req o st in
  (allocated r = [] ∧ counters (final r) = counters st) ∨
  (allocated r = [(KPane, paneCounter st)] ∧
   counters (final r)
   = (windowCounter st, tabCounter st, (paneCounter st + 1)%N)) ∨
  (allocated r = [(KWindow, windowCounter st); (KTab, tabCounter st);
                  (KPane, paneCounter st)] ∧
   counters (final r)
   = ((windowCounter st + 1)%N, (tabCounter st + 1)%N, (paneCounter st + 1)%N)).
Proof.
  destruct req; simpl;
    unfold openTerminal, splitTerminal, executeCommandInPane, getSessionInfo,
      getSessionDetails, setTabColor, listAllSessions, monitorSession,
      broadcastInput, listPanes, getTerminalState, afterBridge;
    run_cases; auto.
Qed.

(** One call consumes, for each kind, either nothing or exactly the current
    counter value, and then leaves the counter one higher. *)
Lemma dispatch_allocates (req : Request) (o : Outcome) (st : Tracker) (k : Kind) :
  let r := dispatch req o st in
  (suffixes k (allocated r) = [] ∧ counter k (final r) = counter k st) ∨
  (suffixes k (allocated r) = [counter k st] ∧
   counter k (final r) = (counter k st + 1)%N).
Proof.
  cbv zeta.
  destruct (dispatch_allocated req o st) as [[-> H]|[[-> H]|[-> H]]];
    unfold counters in H; inversion H as [[Hw Ht Hp]];
    destruct k; simpl; auto.
Qed.

Lemma suffixes_app (k : Kind) (a b : list (Kind * N)) :
  suffixes k (a ++ b) = suffixes k a ++ suffixes k b.
Proof. unfold suffixes. apply omap_app. Qed.

(** Over a whole run the values handed out are increasing and lie between
    the counter at the start and the counter at the end. *)
Lemma runAll_suffixes (calls : list (Request * Outcome)) (st : Tracker) (k : Kind) :
  (counter k st <= counter k (runAll calls st).1)%N ∧
  StronglySorted N.lt (suffixes k (runAll calls st).2) ∧
  Forall (λ n, (counter k st <= n < counter k (runAll calls st).1)%N)
    (suffixes k (runAll calls st).2).
Proof.
  revert st. induction calls as [|[req o] calls IH]; intros st; simpl.
  - split; [lia|]. split; constructor.
  - destruct (runAll calls (final (dispatch req o st))) as [st' more] eqn:E.
    specialize (IH (final (dispatch req o st))). rewrite E in IH. simpl in *.
    destruct IH as (Hle & Hsorted & Hall).
    rewrite suffixes_app.
    destruct (dispatch_allocates req o st k) as [[-> Hc]|[-> Hc]];
      rewrite Hc in *; simpl.
    + auto.
    + split; [lia|]. split.
      * constructor; [assumption|].
        eapply Forall_impl; [exact Hall|]. simpl. intros; lia.
      * constructor; [lia|].
        eapply Forall_impl; [exact Hall|]. simpl. intros; lia.
Qed.

#[global] Instance localId_inj (k : Kind) : Inj (=) (=) (localId k).
Proof.
  intros n m H. unfold localId in H.
  apply (inj (String.append (kindPrefix k))) in H.
  by apply (inj pretty) in H.
Qed.

Lemma sorted_lt_NoDup (l : list N) : StronglySorted N.lt l → NoDup l.
Proof.
  induction 1 as [|x l Hs IH Hall]; constructor; [|assumption].
  intros Hin. rewrite Forall_forall in Hall. specialize (Hall _ Hin). lia.
Qed.

(** C4. In any sequence of tool calls, whatever the bridge answers to each,
    the numbers put into the identifiers of one kind ([window-N], [tab-N],
    [pane-N]) are strictly increasing, and no identifier is handed out
    twice. *)
Theorem C4_allocated_identifiers_increase
    (calls : list (Request * Outcome)) (st : Tracker) (k : Kind) :
  StronglySorted N.lt (suffixes k (runAll calls st).2) ∧
  NoDup (localId k <$> suffixes k (runAll calls st).2).
Proof.
  destruct (runAll_suffixes calls st k) as (_ & Hs & _).
  split; [exact Hs|].
  apply (NoDup_fmap_2 (localId k)). by apply sorted_lt_NoDup.
Qed.

(** ** Resolving the pane to split *)

Lemma paneValues_spec (st : Tracker) (r : nat) (p : PaneInfo) :
  (r, p) ∈ paneValues st ↔
  (∃ id, (id, r) ∈ panes st) ∧ paneObjs st !! r = Some p.
Proof.
  unfold paneValues, JsMap.values. rewrite list_elem_of_omap. split.
  - intros (r' & Hin & Hr').
    apply list_elem_of_fmap in Hin as ([id r''] & -> & Hin). simpl in *.
    destruct (paneObjs st !! r'') as [p'|] eqn:E; simplify_eq/=. eauto.
  - intros ((id & Hin) & Hp). exists r. split.
    + apply list_elem_of_fmap. by exists (id, r).
    + by rewrite Hp.
Qed.

(** C7. Without a pane identifier (none, or the empty string), resolving
    the pane to split fails with "No active pane found" when the tracker
    holds no pane, and succeeds with a tracked pane whose active flag is set
    whenever there is one; when it fails the handler returns that message,
    calls the bridge not at all and leaves the tracker as it was. *)
Theorem C7_default_pane_resolution (vertical : bool)
    (paneId profile command : option string) (o : Outcome) (st : Tracker) :
  truthyArg paneId = false →
  (panes st = [] → resolveTargetPane st paneId = NoActivePane) ∧
  ((∃ id r p, (id, r) ∈ panes st ∧ paneObjs st !! r = Some p ∧ isActive p = true) →
   ∃ r p, resolveTargetPane st paneId = TargetPane r p ∧ isActive p = true ∧
          (∃ id, (id, r) ∈ panes st) ∧ paneObjs st !! r = Some p) ∧
  (resolveTargetPane st paneId = NoActivePane →
   splitTerminal vertical paneId profile command o st
   = mkRun (Returned [Lit "No active pane found"]) st [] []).
Proof.
  intros Hfalsy. unfold splitTerminal, resolveTargetPane. rewrite Hfalsy.
  split; [|split].
  - intros Hempty. unfold paneValues. by rewrite Hempty.
  - intros (id & r & p & Hin & Hp & Hact).
    assert ((r, p) ∈ filter (λ rp : nat * PaneInfo, isActive rp.2 = true)
                       (paneValues st)) as Hmem.
    { apply list_elem_of_filter. split; [done|].
      apply paneValues_spec. eauto. }
    destruct (filter _ (paneValues st)) as [|[r' p'] rest] eqn:E.
    + by apply elem_of_nil in Hmem.
    + assert ((r', p') ∈ filter (λ rp : nat * PaneInfo, isActive rp.2 = true)
                          (paneValues st)) as Hhd
        by (rewrite E; apply list_elem_of_here).
      apply list_elem_of_filter in Hhd as [Hact' Hin'].
      apply paneValues_spec in Hin' as [Hkey Hobj].
      exists r', p'. eauto.
  - intros Hres. by rewrite Hres.
Qed.

Lemma C7_default_pane_resolution_witness :
  resolveTargetPane initial None = NoActivePane ∧
  (∃ r p, resolveTargetPane afterOpen (Some "") = TargetPane r p ∧ isActive p = true) ∧
  splitTerminal true None None None (BridgeThrew "") initial
  = mkRun (Returned [Lit "No active pane found"]) initial [] [].
Proof.
  destruct (C7_default_pane_resolution true None None None (BridgeThrew "")
              initial eq_refl) as (Hnone & _ & Hsplit).
  destruct (C7_default_pane_resolution true (Some "") None None (BridgeThrew "")
              afterOpen eq_refl) as (_ & Hsome & _).
  assert (∃ id r p, (id, r) ∈ panes afterOpen ∧
                    paneObjs afterOpen !! r = Some p ∧ isActive p = true)
    as Htracked.
  { exists "pane-0", 0%nat. eexists.
    split; [vm_compute; apply list_elem_of_here|]. split; reflexivity. }
  destruct (Hsome Htracked) as (r & p & Hres & Hact & _).
  split; [exact (Hnone eq_refl)|]. split.
  - eauto.
  - exact (Hsplit (Hnone eq_refl)).
Defined.

(** ** Splitting *)

Lemma JsMap_get_set_eq {V} (m : JsMap.t V) (k : string) (v : V) :
  JsMap.get (JsMap.set m k v) k = Some v.
Proof.
  unfold JsMap.get. induction m as [|[k' v'] m IH]; simpl.
  - by rewrite String.eqb_refl.
  - destruct (String.eqb k k') eqn:E; simpl; rewrite E; [done|exact IH].
Qed.

Lemma resolveTargetPane_object (st : Tracker) (paneId : option string)
    (r : nat) (P : PaneInfo) :
  resolveTargetPane st paneId = TargetPane r P → paneObjs st !! r = Some P.
Proof.
  unfold resolveTargetPane. destruct (truthyArg paneId).
  - unfold lookupPane.
    destruct (JsMap.get (panes st) (default "" paneId)) as [r'|]; simpl; [|done].
    destruct (paneObjs st !! r') as [p'|] eqn:E; simpl; [|done].
    intros [= <- <-]. exact E.
  - destruct (filter _ (paneValues st)) as [|[r' p'] rest] eqn:E; [done|].
    intros [= <- <-].
    assert ((r', p') ∈ filter (λ rp : nat * PaneInfo, isActive rp.2 = true)
                        (paneValues st)) as Hhd
      by (rewrite E; apply list_elem_of_here).
    apply list_elem_of_filter in Hhd as [_ Hin].
    by apply paneValues_spec in Hin as [_ Hobj].
Qed.

(** C2. When a split (horizontal or vertical, of the pane named or of the
    default active pane) succeeds on target pane [P]: afterwards the active
    flag of [P] is false; the new pane is stored under the new identifier,
    is another object than [P], has its active flag set, the tab and window
    identifiers of [P], and the position of [P] moved by one along the split
    axis (y+1 for horizontal, x+1 for vertical), the other coordinate
    unchanged. *)
Theorem C2_split_marks_panes (vertical : bool)
    (paneId profile command : option string) (o : Outcome) (st : Tracker)
    (r : nat) (P : PaneInfo) (sid : JsVal) :
  resolveTargetPane st paneId = TargetPane r P →
  result (splitTerminal vertical paneId profile command o st)
  = Returned (splitText vertical (localId KPane (paneCounter st)) sid) →
  paneObjs (final (splitTerminal vertical paneId profile command o st)) !! r
  = Some (setActive P false) ∧
  ∃ r' newPane,
    lookupPane (final (splitTerminal vertical paneId profile command o st))
      (localId KPane (paneCounter st)) = Some (r', newPane) ∧ r' ≠ r ∧
    isActive newPane = true ∧
    pane_tabId newPane = pane_tabId P ∧
    pane_windowId newPane = pane_windowId P ∧
    position newPane
    = (if vertical then ((position P).1 + 1, (position P).2)
       else ((position P).1, (position P).2 + 1))%Z.
Proof.
  intros Hres Hok.
  pose proof (resolveTargetPane_object _ _ _ _ Hres) as Hobj.
  pose proof (lookup_lt_Some _ _ _ Hobj) as Hlt.
  unfold splitTerminal in *. rewrite Hres in *.
  destruct o as [m|m|data]; simpl in Hok; try discriminate.
  destruct (getProp data "error") as [m|e]; simpl in Hok; try discriminate.
  destruct (truthy e); simpl in Hok.
  { destruct vertical; discriminate. }
  destruct (lookupTab _ (pane_tabId P)) as [[t tab]|]; simpl in Hok;
    try discriminate.
  simpl. split.
  - rewrite list_lookup_insert_eq; [done|].
    rewrite length_app. simpl. lia.
  - eexists (length (paneObjs st)), _. split; [|split; [lia|]].
    + unfold lookupPane. simpl. rewrite JsMap_get_set_eq. simpl.
      rewrite list_lookup_insert_ne by lia.
      rewrite lookup_app_r by lia. rewrite Nat.sub_diag. simpl. reflexivity.
    + simpl. unfold splitPosition. by destruct vertical.
Qed.

Lemma C2_split_marks_panes_witness :
  (isActive <$> paneObjs (final afterSplit) !! 0%nat) = Some false ∧
  ∃ r' newPane,
    lookupPane (final afterSplit) "pane-1" = Some (r', newPane) ∧ r' ≠ 0%nat ∧
    isActive newPane = true ∧
    pane_tabId newPane = "tab-0" ∧ pane_windowId newPane = "window-0" ∧
    position newPane = (1, 0)%Z.
Proof.
  destruct (C2_split_marks_panes true None None None
              (Parsed (JObj [("newSessionId", JStr "S1")])) afterOpen 0
              (mkPane "pane-0" (Some (JStr "S0")) "window-0" "tab-0" (0, 0)%Z
                 true None None None)
              (Some (JStr "S1")) eq_refl eq_refl)
    as (Hold & r' & newPane & Hnew & Hne & Hact & Htab & Hwin & Hpos).
  split.
  - unfold afterSplit. by rewrite Hold.
  - exists r', newPane. by repeat split.
Defined.

(** ** Failures of the bridge *)

Lemma bridgeFailure_outcome (parse : string → string + Json)
    (child : Bridge.ChildExit) (now : Z) (script : Script) (dir : Bridge.Dir)
    (m : string) :
  bridgeFailure parse child = Some m →
  bridgeOutcome parse child now script dir = BridgeThrew m ∨
  bridgeOutcome parse child now script dir = ParseThrew m.
Proof.
  unfold bridgeOutcome, bridgeFailure, Bridge.executeITermPythonScript,
    Bridge.outcomeOf.
  destruct (Bridge.execPromise child) as [[stdout stderr]|m'];
    destruct (Bridge.unlinkSync _ _); simpl;
    try destruct (parse (Bridge.trim stdout)); intros [= <-]; auto.
Qed.

Lemma append_assoc (a b c : string) : (a +:+ b) +:+ c = a +:+ b +:+ c.
Proof.
  induction a as [|ch a IH]; [done|].
  change (String ch ((a +:+ b) +:+ c) = String ch (a +:+ b +:+ c)).
  by f_equal.
Qed.

Lemma dispatch_caught (req : Request) (o : Outcome) (st : Tracker) (m : string) :
  o = BridgeThrew m ∨ o = ParseThrew m →
  bridgeCalls (dispatch req o st) ≠ [] →
  result (dispatch req o st)
  = if rethrows req then Thrown (failurePrefix req +:+ m)
    else Returned [Lit (failurePrefix req +:+ m)].
Proof.
  intros [-> | ->]; destruct req; simpl;
    unfold openTerminal, splitTerminal, executeCommandInPane, getSessionInfo,
      getSessionDetails, setTabColor, listAllSessions, monitorSession,
      broadcastInput, listPanes, getTerminalState, afterBridge;
    try done;
    try (destruct (resolveTargetPane st paneId); simpl; by rewrite ?append_assoc);
    try (destruct (lookupPane st paneId) as [[? ?]|]; simpl; by rewrite ?append_assoc);
    try (destruct (validPanes st paneIds); simpl; done).
Qed.

(** C1 (amended). When the bridge call of an operation fails (the child
    cannot be spawned, is killed on the timeout, exits with a non-zero code,
    or prints what does not parse), execute-command-in-pane,
    get-session-info, get-session-details, set-tab-color, list-all-sessions,
    monitor-session and broadcast-input return a text made of their prefix
    and the message; open-terminal and the two splits throw a new error
    made of their prefix and the message. *)
Theorem C1_bridge_failure_by_handler (req : Request) (st : Tracker)
    (parse : string → string + Json) (child : Bridge.ChildExit)
    (now : Z) (dir : Bridge.Dir) (script : Script) (m : string) :
  bridgeFailure parse child = Some m →
  bridgeCalls (dispatch req (bridgeOutcome parse child now script dir) st)
  = [script] →
  result (dispatch req (bridgeOutcome parse child now script dir) st)
  = if rethrows req then Thrown (failurePrefix req +:+ m)
    else Returned [Lit (failurePrefix req +:+ m)].
Proof.
  intros Hfail Hcall. apply dispatch_caught.
  - by apply bridgeFailure_outcome.
  - by rewrite Hcall.
Qed.

Lemma C1_bridge_failure_by_handler_witness :
  result (dispatch (ExecuteCommandInPane "pane-0" "ls")
            (bridgeOutcome (λ _, inl "Unexpected end of JSON input") failedChild 0
               lsScript ∅)
            afterOpen)
  = Returned [Lit "Failed to execute command in pane pane-0: Python execution failed: Command failed"].
Proof.
  exact (C1_bridge_failure_by_handler (ExecuteCommandInPane "pane-0" "ls")
           afterOpen (λ _, inl "Unexpected end of JSON input") failedChild 0 ∅
           lsScript "Python execution failed: Command failed"
           eq_refl eq_refl).
Defined.

(** C1 as stated fails: when the child of open-terminal cannot be spawned,
    the handler hands its script to the bridge and then throws; it returns
    no response. *)
Lemma C1_counterexample :
  bridgeCalls failedOpen
  = [ScriptOpen None None None "window-0" "tab-0" "pane-0"] ∧
  result failedOpen
  = Thrown "Failed to create terminal: Python execution failed: spawn /bin/sh ENOENT" ∧
  ¬ ∃ text, result failedOpen = Returned text.
Proof.
  split; [reflexivity|]. split; [reflexivity|].
  intros [text H]. discriminate H.
Qed.

(** ** When the tracker is written *)

(** With any outcome, the windows, tabs and panes maps and the records in
    them are left as they were when the handler makes no bridge call, when
    its bridge call fails, and, in the handlers that test [data.error], when
    the payload carries a truthy [error]. *)
Lemma records_kept (req : Request) (o : Outcome) (st : Tracker) :
  bridgeCalls (dispatch req o st) = [] ∨
  bridgeFailed o = true ∨
  (reportsError o = true ∧ isOpenTerminal req = false) →
  records (final (dispatch req o st)) = records st.
Proof.
  intros [Hnone | [Hfail | [Herr Hopen]]].
  - destruct req; simpl in *;
      unfold openTerminal, splitTerminal, executeCommandInPane, getSessionInfo,
        getSessionDetails, setTabColor, listAllSessions, monitorSession,
        broadcastInput, listPanes, getTerminalState, afterBridge in *;
      try done;
      try (destruct (resolveTargetPane st paneId); [done|done|]);
      try (destruct (lookupPane st paneId) as [[? ?]|]; [|done]);
      try (destruct (validPanes st paneIds); [done|]);
      bridge_cases o; try done;
      try (by destruct (lookupTab _ _) as [[? ?]|]);
      try (by destruct (getProp _ "sessionId"));
      try (by destruct (getProp _ "total_panes")).
  - destruct o as [m|m|data]; try discriminate; destruct req; simpl;
      unfold openTerminal, splitTerminal, executeCommandInPane, getSessionInfo,
        getSessionDetails, setTabColor, listAllSessions, monitorSession,
        broadcastInput, listPanes, getTerminalState, afterBridge;
      try done;
      try (by destruct (resolveTargetPane st paneId));
      try (by destruct (lookupPane st paneId) as [[? ?]|]);
      try (by destruct (validPanes st paneIds)).
  - destruct o as [m|m|data]; try discriminate. simpl in Herr.
    destruct (getProp data "error") as [m|e] eqn:E; try discriminate.
    destruct req; try discriminate; simpl;
      unfold splitTerminal, executeCommandInPane, getSessionInfo,
        getSessionDetails, setTabColor, listAllSessions, monitorSession,
        broadcastInput, listPanes, getTerminalState, afterBridge;
      rewrite ?E, ?Herr;
      try done;
      try (by destruct (resolveTargetPane st paneId); simpl; rewrite ?E, ?Herr);
      try (by destruct (lookupPane st paneId) as [[? ?]|]; simpl;
           rewrite ?E, ?Herr);
      try (destruct (validPanes st paneIds); simpl; [done|];
           by destruct (getProp data "total_panes")).
Qed.

Lemma bridgeOutcome_exited (parse : string → string + Json) (code : Z)
    (stdout stderr message : string) (now : Z) (script : Script)
    (dir : Bridge.Dir) :
  bridgeOutcome parse (Bridge.Exited code stdout stderr message) now script dir
  = if (code =? 0)%Z && Bridge.fits stdout && Bridge.fits stderr
    then Bridge.outcomeOf parse (inl (Bridge.trim stdout))
    else BridgeThrew ("Python execution failed: " +:+ message).
Proof.
  unfold bridgeOutcome, Bridge.executeITermPythonScript, Bridge.unlinkSync,
    Bridge.writeFileSync, Bridge.execPromise.
  rewrite lookup_insert_eq.
  by destruct ((code =? 0)%Z && Bridge.fits stdout && Bridge.fits stderr).
Qed.

Lemma assoc_Some_key {V} (k : string) (l : list (string * V)) (v : V) :
  assoc k l = Some v → k ∈ l.*1.
Proof.
  induction l as [|[k' v'] l IH]; [done|]. simpl.
  destruct (String.eqb_spec k k') as [->|_].
  - intros _. apply list_elem_of_here.
  - intros H. apply list_elem_of_further. by apply IH.
Qed.

(** No script has [error] among the keys of its result, and the error
    objects the scripts print carry a text that is not empty. *)
Lemma prints_error_field (script : Script) (printed : Json) :
  Harness.prints script printed = true →
  hasErrorField printed = true →
  ∃ e, printed = JObj [("error", JStr e)] ∧
       Harness.printsError script e = true ∧ e ≠ "".
Proof.
  unfold Harness.prints, hasErrorField.
  destruct printed as [| | | |?|fields]; try done. simpl.
  intros Hprints Hfield.
  destruct (assoc "error" fields) as [v|] eqn:Hassoc; [|done].
  apply orb_true_iff in Hprints as [Hresult|Herror].
  - apply bool_decide_eq_true in Hresult.
    apply assoc_Some_key in Hassoc. rewrite Hresult in Hassoc.
    exfalso. destruct script; simpl in Hassoc;
      repeat (apply elem_of_cons in Hassoc as [Hassoc|Hassoc];
              [discriminate Hassoc|]);
      by apply elem_of_nil in Hassoc.
  - destruct fields as [|[k [| | |e| |]] [|? ?]]; try done.
    apply andb_true_iff in Herror as [Hk He].
    apply String.eqb_eq in Hk as ->.
    exists e. split; [done|]. split; [done|].
    intros ->. by destruct script.
Qed.

(** The script of open-terminal has no error object of its own. *)
Lemma open_script_prints_no_error (req : Request) (o : Outcome) (st : Tracker)
    (script : Script) (e : string) :
  bridgeCalls (dispatch req o st) = [script] →
  isOpenTerminal req = true →
  Harness.printsError script e = false.
Proof.
  destruct req; try done. simpl. unfold openTerminal. intros Hcall _.
  destruct o as [?|?|data]; [| |destruct (getProp data "sessionId")];
    by injection Hcall as <-.
Qed.

(** What the handler gets from a run of a script file: a failure, or the
    object the script printed at its end, when the process exited with code
    zero. *)
Lemma harness_outcome (parse : string → string + Json) (r : Harness.ScriptRun)
    (stdout stderr message : string) (now : Z) (script : Script)
    (dir : Bridge.Dir) :
  (∀ data, parse (Bridge.trim stdout) = inr data →
           (Harness.output r).1 = [data]) →
  bridgeFailed
    (bridgeOutcome parse (harnessChild r stdout stderr message) now script dir)
  = true ∨
  ∃ data, r = Harness.BodyCompleted data None ∧
          bridgeOutcome parse (harnessChild r stdout stderr message) now
            script dir
          = Parsed data.
Proof.
  intros Hparse. unfold harnessChild. rewrite bridgeOutcome_exited.
  destruct r as [?|? ? ?|printed [?|]]; simpl; try by left.
  destruct (Bridge.fits stdout && Bridge.fits stderr); [|by left].
  simpl in *. destruct (parse (Bridge.trim stdout)) as [?|data] eqn:E;
    [by left|].
  right. exists printed. split; [done|].
  specialize (Hparse data eq_refl). by injection Hparse as ->.
Qed.

(** C3. For every operation, the records of the tracker (the windows, tabs
    and panes maps and the objects in them) are written only after the
    bridge call has returned and its payload carries no [error] field.
    With any outcome they are left as they were when the handler makes no
    bridge call, when its bridge call fails, and, in every handler but
    open-terminal, when the payload has a truthy [error].  With the outcome
    of a run of the handler's own script file, every handler, open-terminal
    too, writes only when the script ran to its end, the process exited
    with code zero and the object it printed has no [error] field; whenever
    the process printed an object with an [error] field, the records are
    left as they were. *)
Theorem C3_records_written_only_after_success
    (req : Request) (st : Tracker) (o : Outcome)
    (parse : string → string + Json) (r : Harness.ScriptRun)
    (stdout stderr message : string) (now : Z) (dir : Bridge.Dir)
    (script : Script) :
  (bridgeCalls (dispatch req o st) = [] ∨ bridgeFailed o = true ∨
   (reportsError o = true ∧ isOpenTerminal req = false) →
   records (final (dispatch req o st)) = records st) ∧
  (o = bridgeOutcome parse (harnessChild r stdout stderr message) now script dir →
   bridgeCalls (dispatch req o st) = [script] →
   (∀ printed conn_error,
      r = Harness.BodyCompleted printed conn_error →
      Harness.prints script printed = true) →
   (∀ data, parse (Bridge.trim stdout) = inr data →
            (Harness.output r).1 = [data]) →
   (records (final (dispatch req o st)) ≠ records st →
    ∃ data, r = Harness.BodyCompleted data None ∧ o = Parsed data ∧
            hasErrorField data = false) ∧
   (∀ data, data ∈ (Harness.output r).1 → hasErrorField data = true →
            records (final (dispatch req o st)) = records st)).
Proof.
  split; [apply records_kept|].
  intros Ho Hcall Hprints Hparse.
  assert (∀ data, data ∈ (Harness.output r).1 → hasErrorField data = true →
                  records (final (dispatch req o st)) = records st) as Herror.
  { intros data Hin Hfield.
    destruct (harness_outcome parse r stdout stderr message now script dir Hparse)
      as [Hfailed | (printed & -> & Hparsed)].
    - apply records_kept. right. left. by rewrite Ho.
    - simpl in Hin. apply list_elem_of_singleton in Hin as ->.
      destruct (prints_error_field script printed (Hprints _ _ eq_refl) Hfield)
        as (e & -> & He & Hne).
      apply records_kept. right. right. split.
      + rewrite Ho, Hparsed. simpl.
        by destruct (String.eqb_spec e "").
      + destruct (isOpenTerminal req) eqn:Hopen; [|done].
        by rewrite (open_script_prints_no_error req o st script e Hcall Hopen)
          in He. }
  split; [|exact Herror].
  intros Hchanged.
  destruct (harness_outcome parse r stdout stderr message now script dir Hparse)
    as [Hfailed | (printed & -> & Hparsed)].
  - exfalso. apply Hchanged, records_kept. right. left. by rewrite Ho.
  - exists printed. split; [done|]. split; [by rewrite Ho|].
    destruct (hasErrorField printed) eqn:Hfield; [|done].
    exfalso. apply Hchanged, (Herror printed); [|done].
    simpl. apply list_elem_of_here.
Qed.

Lemma C3_records_written_only_after_success_witness :
  (∃ data, openedRun = Harness.BodyCompleted data None ∧
           openedOutcome = Parsed data ∧ hasErrorField data = false) ∧
  records (final (dispatch (OpenTerminal None None None) raisedOutcome initial))
  = records initial ∧
  records (final (dispatch (SplitTerminalVertical None None None)
                    (Parsed (JObj [("error", JStr "Target session not found")]))
                    afterOpen))
  = records afterOpen.
Proof.
  split; [|split].
  - apply (C3_records_written_only_after_success (OpenTerminal None None None)
             initial openedOutcome (λ _, inr openedPayload) openedRun
             "payload" "" "" 0 ∅ openScript).
    + reflexivity.
    + reflexivity.
    + intros printed conn_error [= <- <-]. reflexivity.
    + intros data [= <-]. reflexivity.
    + intros H. discriminate H.
  - apply (C3_records_written_only_after_success (OpenTerminal None None None)
             initial raisedOutcome (λ _, inl "Unexpected token") raisedRun
             "payload" "" "Command failed" 0 ∅ openScript)
      with (data := Harness.error_details "no window" "" "AttributeError").
    + reflexivity.
    + reflexivity.
    + intros printed conn_error H. discriminate H.
    + intros data H. discriminate H.
    + apply list_elem_of_here.
    + reflexivity.
  - apply (C3_records_written_only_after_success
             (SplitTerminalVertical None None None) afterOpen
             (Parsed (JObj [("error", JStr "Target session not found")]))
             (λ _, inl "") raisedRun "" "" "" 0 ∅ openScript).
    right. right. split; reflexivity.
Defined.

(** What open-terminal itself does with a payload: it reads [sessionId] and
    does not look at [error].  Its script prints no such payload (see
    above); handed one all the same, the handler inserts a window, a tab and
    a pane. *)
Example open_terminal_reads_no_error_field :
  reportsError errorPayload = true ∧
  JsMap.keys
    (panes (final (dispatch (OpenTerminal None None None) errorPayload initial)))
  = ["pane-0"].
Proof. split; reflexivity. Qed.

(** ** Broadcast *)

#[global] Instance jsString_inj : Inj (=) (=) jsString.
Proof. by intros s1 s2 [= ->]. Qed.

Lemma validPanes_spec (st : Tracker) (paneIds : list string) (id : string) :
  id ∈ validPanes st paneIds ↔ id ∈ paneIds ∧ hasPane st id = true.
Proof. unfold validPanes. rewrite list_elem_of_filter. tauto. Qed.

Lemma hasPane_spec (st : Tracker) (id : string) :
  hasPane st id = true ↔ ∃ r p, lookupPane st id = Some (r, p).
Proof.
  unfold hasPane. rewrite bool_decide_eq_true. split.
  - intros [[r p] H]. eauto.
  - intros (r & p & H). eauto.
Qed.

(** The identifiers handed to the script are those of the known panes. *)
Lemma sessionIdsOf_spec (st : Tracker) (paneIds : list string) (v : JsVal) :
  v ∈ sessionIdsOf st (validPanes st paneIds) ↔
  ∃ id r p, id ∈ paneIds ∧ lookupPane st id = Some (r, p) ∧ sessionId p = v.
Proof.
  unfold sessionIdsOf. rewrite list_elem_of_omap. split.
  - intros (id & Hin & Hv). apply validPanes_spec in Hin as [Hin _].
    destruct (lookupPane st id) as [[r p]|] eqn:E; simplify_eq/=. eauto 6.
  - intros (id & r & p & Hin & Hl & Hv). exists id. split.
    + apply validPanes_spec. split; [done|]. apply hasPane_spec. eauto.
    + rewrite Hl. simpl. by rewrite Hv.
Qed.

(** The breakdown of the script lists the open sessions among those it was
    given. *)
Lemma breakdownIds_payload (app : PyScripts.App) (send : string → option string)
    (session_ids : list string) :
  PyScripts.breakdownIds (PyScripts.broadcast_payload app send session_ids)
  = jsString <$> PyScripts.target_sessions app session_ids.
Proof.
  unfold PyScripts.breakdownIds, PyScripts.broadcast_payload. simpl.
  rewrite <- list_fmap_compose. apply list_fmap_ext. intros _ s _. simpl.
  unfold PyScripts.sendResult. by destruct (send s).
Qed.

(** C5 (amended). broadcast-input: when every identifier of the list is
    unknown to the tracker the handler returns "No valid panes found", makes
    no bridge call and leaves the tracker alone; when some identifier is
    known it makes one bridge call, whose script gets exactly the session
    identifiers of the known panes of the list.  The script sends to, and
    its breakdown lists, exactly the sessions that are open in the terminal
    application and whose identifier it was given: a known pane whose
    session is no longer open receives nothing and is absent from the
    breakdown. *)
Theorem C5_broadcast_known_panes (st : Tracker) (paneIds : list string)
    (command : string) (o : Outcome) (app : PyScripts.App)
    (send : string → option string) (session_ids : list string) :
  ((∀ id, id ∈ paneIds → hasPane st id = false) →
   broadcastInput paneIds command o st
   = mkRun (Returned [Lit "No valid panes found"]) st [] []) ∧
  ((∃ id, id ∈ paneIds ∧ hasPane st id = true) →
   bridgeCalls (broadcastInput paneIds command o st)
   = [ScriptBroadcast (sessionIdsOf st (validPanes st paneIds)) command] ∧
   (∀ v, v ∈ sessionIdsOf st (validPanes st paneIds) ↔
         ∃ id r p, id ∈ paneIds ∧ lookupPane st id = Some (r, p) ∧
                   sessionId p = v) ∧
   (sessionIdsOf st (validPanes st paneIds)
    = jsString <$> session_ids →
    result (broadcastInput paneIds command
              (Parsed (PyScripts.broadcast_payload app send session_ids)) st)
    = Returned (broadcastText command
                  (PyScripts.broadcast_payload app send session_ids)) ∧
    ∀ s, jsString s
         ∈ PyScripts.breakdownIds
             (PyScripts.broadcast_payload app send session_ids) ↔
         (∃ id r p, id ∈ paneIds ∧ lookupPane st id = Some (r, p) ∧
                    sessionId p = jsString s) ∧
         s ∈ PyScripts.appSessions app)).
Proof.
  split.
  - intros Hnone. unfold broadcastInput.
    destruct (validPanes st paneIds) as [|id rest] eqn:E; [done|].
    assert (id ∈ validPanes st paneIds) as Hin
      by (rewrite E; apply list_elem_of_here).
    apply validPanes_spec in Hin as [Hin Hhas].
    rewrite (Hnone _ Hin) in Hhas. discriminate.
  - intros (id & Hin & Hhas).
    assert (id ∈ validPanes st paneIds) as Hvalid by by apply validPanes_spec.
    split; [|split].
    + unfold broadcastInput.
      destruct (validPanes st paneIds) as [|id' rest] eqn:E.
      * by apply elem_of_nil in Hvalid.
      * destruct o as [m|m|data]; try done.
        by destruct (getProp data "total_panes").
    + apply sessionIdsOf_spec.
    + intros Hids. split.
      * unfold broadcastInput.
        destruct (validPanes st paneIds) as [|id' rest] eqn:E.
        -- by apply elem_of_nil in Hvalid.
        -- done.
      * intros s. rewrite breakdownIds_payload.
        rewrite (list_elem_of_fmap_inj jsString).
        unfold PyScripts.target_sessions. rewrite list_elem_of_filter.
        rewrite <- (sessionIdsOf_spec st paneIds (jsString s)), Hids.
        rewrite (list_elem_of_fmap_inj jsString). tauto.
Qed.

Lemma C5_broadcast_known_panes_witness :
  broadcastInput ["pane-8"; "pane-9"] "ls" (BridgeThrew "") afterOpen
  = mkRun (Returned [Lit "No valid panes found"]) afterOpen [] [] ∧
  bridgeCalls (broadcastInput ["pane-0"; "pane-9"] "ls" (BridgeThrew "") afterOpen)
  = [ScriptBroadcast [jsString "S0"] "ls"] ∧
  (jsString "S0"
   ∈ PyScripts.breakdownIds (PyScripts.broadcast_payload twoSessions (λ _, None) ["S0"])).
Proof.
  destruct (C5_broadcast_known_panes afterOpen ["pane-8"; "pane-9"] "ls"
              (BridgeThrew "") twoSessions (λ _, None) ["S0"]) as [Hnone _].
  destruct (C5_broadcast_known_panes afterOpen ["pane-0"; "pane-9"] "ls"
              (BridgeThrew "") twoSessions (λ _, None) ["S0"]) as [_ Hsome].
  split.
  - apply Hnone. intros id Hin.
    apply elem_of_cons in Hin as [->|Hin]; [reflexivity|].
    apply elem_of_cons in Hin as [->|Hin]; [reflexivity|].
    by apply elem_of_nil in Hin.
  - destruct Hsome as (Hcall & _ & Hbreak).
    { exists "pane-0". split; [apply list_elem_of_here|reflexivity]. }
    split; [exact Hcall|].
    destruct (Hbreak eq_refl) as [_ Hiff]. apply Hiff. split.
    + exists "pane-0", 0%nat. eexists.
      split; [apply list_elem_of_here|]. split; reflexivity.
    + apply list_elem_of_here.
Defined.

(** C5 as stated fails for a known pane whose session is no longer open in
    the terminal application: its session identifier is handed to the script,
    the script finds no such session, and the breakdown that comes back and
    is returned to the caller is empty. *)
Lemma C5_counterexample :
  hasPane afterOpen "pane-0" = true ∧
  bridgeCalls (broadcastInput ["pane-0"; "pane-9"] "ls" (Parsed stalePayload)
                 afterOpen)
  = [ScriptBroadcast [jsString "S0"] "ls"] ∧
  result (broadcastInput ["pane-0"; "pane-9"] "ls" (Parsed stalePayload)
            afterOpen)
  = Returned (broadcastText "ls" stalePayload) ∧
  jsString "S0" ∉ PyScripts.breakdownIds stalePayload.
Proof.
  split; [reflexivity|]. split; [reflexivity|]. split; [reflexivity|].
  apply not_elem_of_nil.
Qed.

(** ** The duration of monitor-session *)

(** C10. monitor-session puts into its script the supplied duration when
    that is truthy and 10 otherwise; so 10 for a supplied 0, as for no
    duration at all. *)
Theorem C10_monitor_duration_falls_back (paneId : string)
    (duration : option JsNumber) (o : Outcome) (st : Tracker)
    (r : nat) (pane : PaneInfo) :
  lookupPane st paneId = Some (r, pane) →
  bridgeCalls (monitorSession paneId duration o st)
  = [ScriptMonitor (sessionId pane)
       match duration with
       | Some d => if numTruthy d then d else NumQ 10
       | None => NumQ 10
       end].
Proof.
  intros Hpane. unfold monitorSession. rewrite Hpane.
  assert (effectiveDuration (schemaDuration duration)
          = match duration with
            | Some d => if numTruthy d then d else NumQ 10
            | None => NumQ 10
            end) as -> by (by destruct duration).
  unfold afterBridge. destruct o as [m|m|data]; try done.
  destruct (getProp data "error") as [m|e]; [done|]. by destruct (truthy e).
Qed.

Lemma C10_monitor_duration_falls_back_witness :
  bridgeCalls (monitorSession "pane-0" (Some (NumQ 0)) (BridgeThrew "") afterOpen)
  = [ScriptMonitor (jsString "S0") (NumQ 10)] ∧
  bridgeCalls (monitorSession "pane-0" (Some (NumQ 3)) (BridgeThrew "") afterOpen)
  = [ScriptMonitor (jsString "S0") (NumQ 3)].
Proof.
  split.
  - exact (C10_monitor_duration_falls_back "pane-0" (Some (NumQ 0))
             (BridgeThrew "") afterOpen 0 _ eq_refl).
  - exact (C10_monitor_duration_falls_back "pane-0" (Some (NumQ 3))
             (BridgeThrew "") afterOpen 0 _ eq_refl).
Defined.

(** ** The script file of a bridge call and the start-up clean-up *)

Section BridgeFacts.

Import Bridge.

Variable now : Z.

Lemma cleanupLoop_spec (files : list string) (dir : Dir) (g : string) :
  NoDup files →
  (∀ f, f ∈ files → is_Some (dir !! f)) →
  cleanupLoop now files dir !! g
  = if decide (g ∈ files) then dir !! g ≫= kept now g else dir !! g.
Proof.
  revert dir. induction files as [|file rest IH]; intros dir Hnd Hpresent.
  { destruct (decide (g ∈ [])) as [Hin|]; [|done]. by apply elem_of_nil in Hin. }
  apply NoDup_cons in Hnd as [Hfresh Hnd].
  destruct (Hpresent file) as [mtime Hfile]; [apply list_elem_of_here|].
  assert (∀ f, f ∈ rest → is_Some (dir !! f)) as Hrest
    by (intros f Hf; apply Hpresent; by apply list_elem_of_further).
  assert (cleanupLoop now rest dir !! g
          = if decide (g ∈ file :: rest)
            then dir !! g ≫= (λ m, if decide (g = file) then Some m else kept now g m)
            else dir !! g) as Hskip.
  { rewrite IH by done.
    destruct (decide (g = file)) as [->|Hne].
    - rewrite decide_False by done.
      rewrite decide_True by apply list_elem_of_here.
      by rewrite Hfile.
    - destruct (decide (g ∈ rest)) as [Hin|Hout].
      + rewrite decide_True by by apply list_elem_of_further.
        by destruct (dir !! g).
      + rewrite decide_False; [done|].
        rewrite elem_of_cons. tauto. }
  simpl. unfold statSync, unlinkSync. rewrite Hfile.
  destruct (isScriptName file) eqn:Hname;
    [destruct (now - mtime >? 300000)%Z eqn:Hold|].
  - rewrite IH; [|done|].
    + destruct (decide (g = file)) as [->|Hne].
      * rewrite decide_False by done.
        rewrite decide_True by apply list_elem_of_here.
        rewrite lookup_delete_eq, Hfile. simpl. unfold kept, expired.
        by rewrite Hname, Hold.
      * rewrite lookup_delete_ne by done.
        destruct (decide (g ∈ rest)) as [Hin|Hout].
        -- by rewrite decide_True by by apply list_elem_of_further.
        -- rewrite decide_False; [done|]. rewrite elem_of_cons. tauto.
    + intros f Hf. rewrite lookup_delete_ne; [by apply Hrest|].
      intros ->. done.
  - rewrite Hskip. destruct (decide (g ∈ file :: rest)); [|done].
    destruct (dir !! g) as [m|] eqn:Hg; simpl; [|done].
    destruct (decide (g = file)) as [->|]; [|done].
    unfold kept, expired. rewrite Hname. simplify_eq. by rewrite Hold.
  - rewrite Hskip. destruct (decide (g ∈ file :: rest)); [|done].
    destruct (dir !! g) as [m|] eqn:Hg; simpl; [|done].
    destruct (decide (g = file)) as [->|]; [|done].
    unfold kept. by rewrite Hname.
Qed.

(** The clean-up removes the script files older than five minutes and
    nothing else. *)
Lemma cleanupOldScripts_lookup (dir : Dir) (g : string) :
  cleanupOldScripts now dir !! g = dir !! g ≫= kept now g.
Proof.
  unfold cleanupOldScripts, readdirSync.
  rewrite cleanupLoop_spec.
  - destruct (decide (g ∈ (map_to_list dir).*1)) as [|Hout]; [done|].
    destruct (dir !! g) as [m|] eqn:Hg; [|done].
    exfalso. apply Hout. apply list_elem_of_fmap. exists (g, m).
    split; [done|]. by apply elem_of_map_to_list.
  - apply NoDup_fst_map_to_list.
  - intros f Hf. apply list_elem_of_fmap in Hf as ([f' m] & -> & Hf).
    apply elem_of_map_to_list in Hf. simpl. eauto.
Qed.

End BridgeFacts.

Lemma prefix_append (p s : string) : String.prefix p (p +:+ s) = true.
Proof.
  induction p as [|c p IH]; [by destruct s|].
  change (String.prefix (String c p) (String c (p +:+ s)) = true).
  simpl. by destruct (ascii_dec c c).
Qed.

Lemma rev_app_append (s acc : string) :
  String.rev_app s acc = String.rev s +:+ acc.
Proof.
  unfold String.rev. revert acc. induction s as [|c s IH]; intros acc; [done|].
  simpl. rewrite (IH (String c acc)), (IH (String c "")).
  by rewrite append_assoc.
Qed.

Lemma rev_append (a b : string) :
  String.rev (a +:+ b) = String.rev b +:+ String.rev a.
Proof.
  induction a as [|c a IH].
  - change (String.rev b = String.rev b +:+ "").
    induction (String.rev b) as [|c' s IHs]; [done|].
    change (String c' s = String c' (s +:+ "")). by f_equal.
  - change (String.rev_app (a +:+ b) (String c "")
            = String.rev b +:+ String.rev_app a (String c "")).
    rewrite !rev_app_append, IH. by rewrite append_assoc.
Qed.

(** The file of a bridge call bears a name the clean-up looks for. *)
Lemma scriptName_isScriptName (now : Z) :
  Bridge.isScriptName (Bridge.scriptName now) = true.
Proof.
  unfold Bridge.isScriptName, Bridge.scriptName, Bridge.startsWith,
    Bridge.endsWith.
  rewrite prefix_append. rewrite !rev_append, append_assoc.
  by rewrite prefix_append.
Qed.

(** C8. Every bridge call, however its child process ends (also by the
    timeout), writes its one script file, runs it, and deletes it: the file
    is not there afterwards and the rest of the directory is as before.  The
    clean-up at start-up deletes every script file older than five
    minutes. *)
Theorem C8_script_file_written_then_deleted (now : Z) (script : Script)
    (child : Bridge.ChildExit) (dir : Bridge.Dir)
    (start : Z) (file : string) (mtime : Z) :
  Bridge.effects (Bridge.executeITermPythonScript now script child dir)
  = [Bridge.Wrote (Bridge.scriptName now) script;
     Bridge.Executed (Bridge.scriptName now);
     Bridge.Unlinked (Bridge.scriptName now)] ∧
  Bridge.dirAfter (Bridge.executeITermPythonScript now script child dir)
  = delete (Bridge.scriptName now) dir ∧
  Bridge.dirAfter (Bridge.executeITermPythonScript now script child dir)
    !! Bridge.scriptName now = None ∧
  (dir !! file = Some mtime →
   Bridge.isScriptName file = true →
   (start - mtime > 300000)%Z →
   Bridge.cleanupOldScripts start dir !! file = None).
Proof.
  assert (Bridge.effects (Bridge.executeITermPythonScript now script child dir)
          = [Bridge.Wrote (Bridge.scriptName now) script;
             Bridge.Executed (Bridge.scriptName now);
             Bridge.Unlinked (Bridge.scriptName now)] ∧
          Bridge.dirAfter (Bridge.executeITermPythonScript now script child dir)
          = delete (Bridge.scriptName now) dir) as [Heff Hdir].
  { unfold Bridge.executeITermPythonScript, Bridge.unlinkSync,
      Bridge.writeFileSync.
    rewrite lookup_insert_eq.
    destruct (Bridge.execPromise child) as [[stdout stderr]|m]; simpl;
      by rewrite delete_insert_eq. }
  split; [exact Heff|]. split; [exact Hdir|]. split.
  - rewrite Hdir. apply lookup_delete_eq.
  - intros Hfile Hname Hold. rewrite cleanupOldScripts_lookup, Hfile. simpl.
    unfold kept, expired. rewrite Hname.
    by rewrite (proj2 (Z.gtb_gt _ _) Hold).
Qed.

Lemma C8_script_file_written_then_deleted_witness :
  Bridge.effects
    (Bridge.executeITermPythonScript 1000000 ScriptList
       (Bridge.TimedOut "Command failed") twoScripts)
  = [Bridge.Wrote "iterm_script_1000000.py" ScriptList;
     Bridge.Executed "iterm_script_1000000.py";
     Bridge.Unlinked "iterm_script_1000000.py"] ∧
  Bridge.cleanupOldScripts 1000000 twoScripts !! "iterm_script_5.py" = None.
Proof.
  destruct (C8_script_file_written_then_deleted 1000000 ScriptList
              (Bridge.TimedOut "Command failed") twoScripts 1000000
              "iterm_script_5.py" 5) as (Heff & _ & _ & Hclean).
  split; [exact Heff|].
  apply Hclean; [reflexivity|reflexivity|reflexivity].
Defined.

(** ** Standard error of the child *)

Lemma logged_stderr (stderr s : string) :
  Bridge.LogStderr s
  ∈ (if negb (String.eqb stderr "") && negb (Bridge.includes stderr "Warning")
     then [Bridge.LogStderr stderr] else [])
  ↔ s = stderr ∧ stderr ≠ "" ∧ Bridge.includes stderr "Warning" = false.
Proof.
  destruct (String.eqb_spec stderr "") as [->|Hne]; simpl.
  - split; [intros H; by apply elem_of_nil in H|]. by intros (_ & ? & _).
  - destruct (Bridge.includes stderr "Warning"); simpl.
    + split; [intros H; by apply elem_of_nil in H|]. by intros (_ & _ & ?).
    + rewrite list_elem_of_singleton. split.
      * by intros [= ->].
      * by intros (-> & _).
Qed.

(** C9 (amended). For every bridge invocation: [exec] resolves exactly when
    the child exits with code zero and neither of its outputs is longer than
    the buffer limit of [exec] (1 MiB), so that more standard-error output
    than that makes the invocation fail by itself.  When [exec] resolves, the
    bridge returns the trimmed standard output, logs no error, and logs the
    standard-error output, on a line of its own, exactly when it is not empty
    and does not contain the text "Warning" anywhere.  When [exec] rejects,
    the bridge logs the error object and nothing else, whatever the child
    wrote to standard error, and throws. *)
Theorem C9_stderr_logged_unless_it_mentions_Warning (now : Z) (script : Script)
    (dir : Bridge.Dir) (child : Bridge.ChildExit)
    (stdout stderr message : string) :
  (Bridge.execPromise child = inl (stdout, stderr)
   ↔ (∃ m, child = Bridge.Exited 0 stdout stderr m) ∧
     Bridge.fits stdout = true ∧ Bridge.fits stderr = true) ∧
  (Bridge.fits stderr = false →
   Bridge.returned
     (Bridge.executeITermPythonScript now script
        (Bridge.Exited 0 stdout stderr message) dir)
   = inr ("Python execution failed: " +:+ message)) ∧
  (Bridge.execPromise child = inl (stdout, stderr) →
   Bridge.returned (Bridge.executeITermPythonScript now script child dir)
   = inl (Bridge.trim stdout) ∧
   (Bridge.LogStderr stderr
    ∈ Bridge.logged (Bridge.executeITermPythonScript now script child dir)
    ↔ stderr ≠ "" ∧ Bridge.includes stderr "Warning" = false) ∧
   ∀ m, Bridge.LogError m
        ∉ Bridge.logged (Bridge.executeITermPythonScript now script child dir)) ∧
  (Bridge.execPromise child = inr message →
   Bridge.returned (Bridge.executeITermPythonScript now script child dir)
   = inr ("Python execution failed: " +:+ message) ∧
   Bridge.logged (Bridge.executeITermPythonScript now script child dir)
   = [Bridge.LogError message]) ∧
  (∀ s, Bridge.LogStderr s
        ∈ Bridge.logged (Bridge.executeITermPythonScript now script child dir)
        ↔ ∃ out, Bridge.execPromise child = inl (out, s) ∧ s ≠ "" ∧
                 Bridge.includes s "Warning" = false).
Proof.
  unfold Bridge.executeITermPythonScript, Bridge.unlinkSync,
    Bridge.writeFileSync.
  rewrite !lookup_insert_eq.
  split; [|split; [|split; [|split]]].
  - unfold Bridge.execPromise. destruct child as [m|m|code out err m].
    + split; [done|]. by intros ([? ?] & _).
    + split; [done|]. by intros ([? ?] & _).
    + split.
      * intros H. destruct (Z.eqb_spec code 0) as [->|Hne]; [|done].
        destruct (Bridge.fits out) eqn:Hout; [|done].
        destruct (Bridge.fits err) eqn:Herr; [|done].
        simpl in H. injection H as -> ->. eauto.
      * intros ([m' Heq] & Hfo & Hfe). injection Heq as -> -> -> _.
        simpl. by rewrite Hfo, Hfe.
  - intros Hbig. unfold Bridge.execPromise. rewrite Hbig. simpl.
    by rewrite andb_false_r.
  - intros ->. simpl. split; [done|]. split.
    + rewrite logged_stderr. tauto.
    + intros m Hin.
      destruct (negb (String.eqb stderr "")
                && negb (Bridge.includes stderr "Warning"));
        [apply list_elem_of_singleton in Hin; discriminate Hin
        |by apply elem_of_nil in Hin].
  - by intros ->.
  - intros s. destruct (Bridge.execPromise child) as [[out err]|m]; simpl.
    + rewrite logged_stderr. split.
      * intros (-> & ? & ?). by exists out.
      * intros (out' & [= -> ->] & ? & ?). done.
    + split.
      * intros Hin. apply list_elem_of_singleton in Hin. discriminate Hin.
      * intros (out & H & _). discriminate H.
Qed.

Lemma C9_stderr_logged_unless_it_mentions_Warning_witness :
  Bridge.returned
    (Bridge.executeITermPythonScript 0 ScriptList
       (Bridge.Exited 0 " ok " "boom" "") ∅)
  = inl "ok" ∧
  Bridge.LogStderr "boom"
  ∈ Bridge.logged
      (Bridge.executeITermPythonScript 0 ScriptList
         (Bridge.Exited 0 " ok " "boom" "") ∅) ∧
  Bridge.logged (Bridge.executeITermPythonScript 0 lsScript failedChild ∅)
  = [Bridge.LogError "Command failed"].
Proof.
  destruct (C9_stderr_logged_unless_it_mentions_Warning 0 ScriptList ∅
              (Bridge.Exited 0 " ok " "boom" "") " ok " "boom" "")
    as (_ & _ & Hresolved & _).
  destruct (Hresolved eq_refl) as (Hreturned & Hlogged & _).
  destruct (C9_stderr_logged_unless_it_mentions_Warning 0 lsScript ∅
              failedChild "" "boom" "Command failed")
    as (_ & _ & _ & Hrejected & _).
  split; [exact Hreturned|]. split.
  - apply Hlogged. split; [discriminate|reflexivity].
  - exact (proj2 (Hrejected eq_refl)).
Defined.

(** C9 as stated fails: standard-error output that is not empty and does
    not start with "Warning", but contains it, is not logged. *)
Lemma C9_counterexample :
  Bridge.startsWith "DeprecationWarning: invalid escape" "Warning" = false ∧
  Bridge.logged
    (Bridge.executeITermPythonScript 0 ScriptList
       (Bridge.Exited 0 "{}" "DeprecationWarning: invalid escape" "") ∅)
  = [].
Proof. split; reflexivity. Qed.

(** ** The colour rule *)

Section ColorFacts.

Import PyScripts.

Variable U : Unicode.

Lemma hexDigit_plain (c : N) (h : Z) :
  hexDigit c = Some h →
  ((c <? 128) = true ∧ pySpace c = false ∧ (c =? 43) = false ∧
   (c =? 45) = false ∧ (c =? 95) = false ∧ (c =? 120) = false ∧
   (c =? 88) = false)%N ∧
  (0 <= h < 16)%Z.
Proof.
  unfold hexDigit, pySpace. intros H.
  assert (((48 <= c <= 57)%N ∨ (97 <= c <= 102)%N ∨ (65 <= c <= 70)%N) ∧
          (0 <= h < 16)%Z) as [Hc Hh].
  { destruct (N.leb_spec 48 c), (N.leb_spec c 57); simpl in H;
      try (injection H as <-; split; [left|]; lia);
      destruct (N.leb_spec 97 c), (N.leb_spec c 102); simpl in H;
      try (injection H as <-; split; [right; left|]; lia);
      destruct (N.leb_spec 65 c), (N.leb_spec c 70); simpl in H;
      try (injection H as <-; split; [right; right|]; lia);
      discriminate H. }
  split; [|exact Hh].
  repeat split;
    try (apply N.ltb_lt; lia); try (apply N.eqb_neq; lia).
  apply orb_false_iff. split; [|apply N.eqb_neq; lia].
  apply andb_false_iff.
  destruct (N.leb_spec c 13); [left; apply N.leb_gt; lia|by right].
Qed.

(** A pair of hexadecimal digits is read as the byte it spells. *)
Lemma int16_pair (c1 c2 : N) (h1 h2 : Z) :
  hexDigit c1 = Some h1 → hexDigit c2 = Some h2 →
  int16 U [c1; c2] = Some (16 * h1 + h2)%Z.
Proof.
  intros H1 H2.
  destruct (hexDigit_plain _ _ H1)
    as ((Ha1 & Hs1 & Hp1 & Hm1 & Hu1 & _ & _) & _).
  destruct (hexDigit_plain _ _ H2) as ((Ha2 & _ & _ & _ & Hu2 & Hx & HX) & _).
  unfold int16, isAscii. simpl. rewrite Ha1, Ha2. simpl.
  rewrite Hs1, Hp1, Hm1. unfold unsigned16. rewrite Hx, HX, andb_false_r.
  simpl. rewrite Hu1, H1. simpl. rewrite Hu2, H2. simpl.
  f_equal; lia.
Qed.

Lemma lower_ascii_with (f : nat → list N) (s : str) :
  isAscii s = true →
  concat (imap (λ i c, if (c <? 128)%N then [asciiLower c] else f i) s)
  = asciiLower <$> s.
Proof.
  revert f. induction s as [|c s IH]; intros f; [done|].
  unfold isAscii. simpl. intros [Hc Hs]%andb_true_iff.
  rewrite Hc. simpl. f_equal. apply (IH (f ∘ S)). exact Hs.
Qed.

(** On ASCII text, [lower] changes the letters A to Z and nothing else,
    whatever the Unicode database. *)
Lemma lower_ascii (s : str) :
  isAscii s = true → lower U s = asciiLower <$> s.
Proof. apply lower_ascii_with. Qed.

Lemma eqb_eq (a b : str) : eqb a b = true ↔ a = b.
Proof.
  revert b. induction a as [|x a IH]; intros [|y b]; simpl; try done.
  rewrite andb_true_iff, N.eqb_eq, IH. split.
  - by intros [-> ->].
  - by intros [= -> ->].
Qed.

Lemma dict_get_None {V} (d : list (str * V)) (key : str) :
  key ∉ d.*1 → dict_get d key = None.
Proof.
  induction d as [|[k v] d IH]; [done|]. rewrite fmap_cons, not_elem_of_cons.
  intros [Hne Hout]. simpl. destruct (eqb key k) eqn:E; [|by apply IH].
  by apply eqb_eq in E.
Qed.

Lemma channel_spec (n : Z) : (channel n == inject_Z n / 255)%Q.
Proof. unfold channel. rewrite Qred_correct. apply Qmake_Qdiv. Qed.

(** C6. The colour rule of set-tab-color: "#FF0000" gives (1, 0, 0), and
    so does "red"; each of red, green, blue, yellow, purple, cyan, orange,
    pink gives its tuple of the table; a name that does not start with "#"
    and whose lower-case form is not in the table, such as "chartreuse",
    gives (0.5, 0.5, 0.5), where the lower-case form of an ASCII name is the
    name with a to z for A to Z (so an ASCII name gives gray when that form
    is none of the eight); after "#" the three pairs of hexadecimal digits
    are read as bytes and divided by 255.  All of it holds whatever the
    Unicode database says of the characters beyond ASCII. *)
Theorem C6_color_parsing (name : str) (t : Color)
    (c1 c2 c3 c4 c5 c6 : N) (h1 h2 h3 h4 h5 h6 : Z) (tail : str) :
  parse_color U (text "#FF0000") = Some (rgb 1 0 0) ∧
  parse_color U (text "red") = Some (rgb 1 0 0) ∧
  color_map.*1
  = text <$> ["red"; "green"; "blue"; "yellow"; "purple"; "cyan"; "orange";
              "pink"] ∧
  ((name, t) ∈ color_map → parse_color U name = Some t) ∧
  parse_color U (text "chartreuse") = Some (rgb (1 # 2) (1 # 2) (1 # 2)) ∧
  (startswith name (text "#") = false →
   dict_get color_map (lower U name) = None →
   parse_color U name = Some (rgb (1 # 2) (1 # 2) (1 # 2))) ∧
  (isAscii name = true → lower U name = asciiLower <$> name) ∧
  (isAscii name = true →
   startswith name (text "#") = false →
   asciiLower <$> name ∉ color_map.*1 →
   parse_color U name = Some (rgb (1 # 2) (1 # 2) (1 # 2))) ∧
  (hexDigit c1 = Some h1 → hexDigit c2 = Some h2 → hexDigit c3 = Some h3 →
   hexDigit c4 = Some h4 → hexDigit c5 = Some h5 → hexDigit c6 = Some h6 →
   parse_color U (text "#" ++ c1 :: c2 :: c3 :: c4 :: c5 :: c6 :: tail)
   = Some (rgb (channel (16 * h1 + h2)) (channel (16 * h3 + h4))
             (channel (16 * h5 + h6)))) ∧
  (∀ n, channel n == inject_Z n / 255)%Q.
Proof.
  split; [reflexivity|]. split; [reflexivity|]. split; [reflexivity|].
  split; [|split; [reflexivity|split; [|split; [|split; [|split]]]]].
  - unfold color_map. intros Hin.
    repeat (apply elem_of_cons in Hin as [[= -> ->]|Hin]; [reflexivity|]).
    by apply elem_of_nil in Hin.
  - intros Hhash Hnone. unfold parse_color. by rewrite Hhash, Hnone.
  - apply lower_ascii.
  - intros Hascii Hhash Hout. unfold parse_color.
    by rewrite Hhash, lower_ascii, dict_get_None.
  - intros H1 H2 H3 H4 H5 H6. unfold parse_color.
    change (startswith (text "#" ++ ?s) (text "#")) with true. cbv iota.
    change (drop 1 (text "#" ++ ?s)) with s. cbv zeta.
    change (slice 0 2 (c1 :: c2 :: ?s)) with [c1; c2].
    change (slice 2 4 (c1 :: c2 :: c3 :: c4 :: ?s)) with [c3; c4].
    change (slice 4 6 (c1 :: c2 :: c3 :: c4 :: c5 :: c6 :: ?s)) with [c5; c6].
    by rewrite (int16_pair _ _ _ _ H1 H2), (int16_pair _ _ _ _ H3 H4),
         (int16_pair _ _ _ _ H5 H6).
  - apply channel_spec.
Qed.

End ColorFacts.

Lemma C6_color_parsing_witness :
  PyScripts.parse_color someUnicode (PyScripts.text "pink")
  = Some (PyScripts.rgb 1 (7 # 10) (4 # 5)) ∧
  PyScripts.parse_color someUnicode (PyScripts.text "Teal")
  = Some (PyScripts.rgb (1 # 2) (1 # 2) (1 # 2)) ∧
  PyScripts.parse_color someUnicode (PyScripts.text "#00ff80")
  = Some (PyScripts.rgb 0 1 (128 # 255)).
Proof.
  destruct (C6_color_parsing someUnicode (PyScripts.text "pink")
              (PyScripts.rgb 1 (7 # 10) (4 # 5))
              48 48 102 102 56 48 0 0 15 15 8 0 [])
    as (_ & _ & _ & Hpink & _ & _ & _ & _ & Hhex & _).
  destruct (C6_color_parsing someUnicode (PyScripts.text "Teal")
              PyScripts.gray 48 48 102 102 56 48 0 0 15 15 8 0 [])
    as (_ & _ & _ & _ & _ & _ & _ & Hteal & _ & _).
  split; [|split].
  - apply Hpink. unfold PyScripts.color_map. do 7 apply list_elem_of_further.
    apply list_elem_of_here.
  - apply Hteal; [reflexivity|reflexivity|]. intros Hin.
    repeat (apply elem_of_cons in Hin as [Hin|Hin]; [by vm_compute in Hin|]).
    by apply elem_of_nil in Hin.
  - exact (Hhex eq_refl eq_refl eq_refl eq_refl eq_refl eq_refl).
Defined.

(** The Kelvin sign is a capital letter beyond ASCII whose lower-case form
    is the ASCII letter k: with a database that says so, "PIN" followed by
    it is the name pink. *)
Example kelvin_pink :
  PyScripts.parse_color someUnicode (PyScripts.text "PIN" ++ [8490%N])
  = Some (PyScripts.rgb 1 (7 # 10) (4 # 5)).
Proof. reflexivity. Qed.

(** ** The trackers the handlers build *)

Lemma JsMap_elem_set {V} (m : JsMap.t V) (k k' : string) (v v' : V) :
  (k', v') ∈ JsMap.set m k v → (k', v') ∈ m ∨ (k' = k ∧ v' = v).
Proof.
  induction m as [|[k0 v0] m IH]; simpl.
  - intros Hin. apply list_elem_of_singleton in Hin as [= -> ->]. by right.
  - destruct (String.eqb_spec k k0) as [->|Hne]; intros Hin.
    + apply elem_of_cons in Hin as [[= -> ->]|Hin]; [by right|].
      left. by apply list_elem_of_further.
    + apply elem_of_cons in Hin as [[= -> ->]|Hin].
      * left. apply list_elem_of_here.
      * destruct (IH Hin) as [Hold|Hnew]; [|by right].
        left. by apply list_elem_of_further.
Qed.

Lemma JsMap_get_elem {V} (m : JsMap.t V) (k : string) (v : V) :
  JsMap.get m k = Some v → (k, v) ∈ m.
Proof.
  unfold JsMap.get. induction m as [|[k0 v0] m IH]; simpl; [done|].
  destruct (String.eqb_spec k k0) as [->|Hne].
  - intros [= ->]. apply list_elem_of_here.
  - intros Hget. apply list_elem_of_further. by apply IH.
Qed.

Lemma JsMap_get_set_ne {V} (m : JsMap.t V) (k k' : string) (v : V) :
  k ≠ k' → JsMap.get (JsMap.set m k v) k' = JsMap.get m k'.
Proof.
  intros Hne. unfold JsMap.get. induction m as [|[k0 v0] m IH]; simpl.
  - destruct (String.eqb_spec k' k) as [->|]; [done|done].
  - destruct (String.eqb_spec k k0) as [->|Hne0]; simpl.
    + destruct (String.eqb_spec k' k0) as [->|]; [done|done].
    + by rewrite IH.
Qed.

Lemma JsMap_get_set_is_Some {V} (m : JsMap.t V) (k k' : string) (v : V) :
  is_Some (JsMap.get m k') → is_Some (JsMap.get (JsMap.set m k v) k').
Proof.
  destruct (decide (k = k')) as [->|Hne].
  - rewrite JsMap_get_set_eq. eauto.
  - by rewrite JsMap_get_set_ne.
Qed.

Lemma wellFormed_initial : wellFormed initial.
Proof.
  split; [|split]; simpl.
  - intros id r Hin. by apply elem_of_nil in Hin.
  - intros id r Hin. by apply elem_of_nil in Hin.
  - intros i p Hp. by rewrite lookup_nil in Hp.
Qed.

(** Using up counter values keeps a tracker well formed. *)
Lemma wellFormed_counters (st : Tracker) (w t p : N) :
  (paneCounter st <= p)%N → wellFormed st → wellFormed (withCounters st w t p).
Proof.
  intros Hle (Hp & Ht & Ho). split; [|split]; simpl; [|done|done].
  intros id r Hin. destruct (Hp id r Hin) as (Hlt & n & -> & Hn).
  split; [done|]. exists n. split; [done|lia].
Qed.

Lemma lookupPane_Some (st : Tracker) (id : string) (r : nat) (p : PaneInfo) :
  lookupPane st id = Some (r, p) →
  JsMap.get (panes st) id = Some r ∧ paneObjs st !! r = Some p.
Proof.
  unfold lookupPane. destruct (JsMap.get (panes st) id) as [r'|] eqn:E; [|done].
  simpl. destruct (paneObjs st !! r') as [p'|] eqn:E'; [|done].
  by intros [= <- <-].
Qed.

Lemma lookupTab_Some (st : Tracker) (id : string) (t : nat) (tab : TabInfo) :
  lookupTab st id = Some (t, tab) →
  (id, t) ∈ tabs st ∧ tabObjs st !! t = Some tab.
Proof.
  unfold lookupTab. destruct (JsMap.get (tabs st) id) as [r'|] eqn:E; [|done].
  simpl. destruct (tabObjs st !! r') as [p'|] eqn:E'; [|done].
  intros [= <- <-]. split; [by apply JsMap_get_elem|done].
Qed.

Lemma wellFormed_open (profile command wd : option string) (o : Outcome)
    (st : Tracker) :
  wellFormed st → wellFormed (final (openTerminal profile command wd o st)).
Proof.
  intros Hwf.
  assert (wellFormed (withCounters st (windowCounter st + 1) (tabCounter st + 1)
                        (paneCounter st + 1))) as Hwf1
    by (apply wellFormed_counters; [lia|done]).
  unfold openTerminal. destruct o as [m|m|data]; try exact Hwf1.
  destruct (getProp data "sessionId") as [m|sid]; [exact Hwf1|].
  destruct Hwf as (Hp & Ht & Ho). split; [|split]; simpl.
  - intros id r Hin. rewrite length_app. simpl.
    apply JsMap_elem_set in Hin as [Hin|[-> ->]].
    + destruct (Hp id r Hin) as (Hlt & n & -> & Hn).
      split; [lia|]. exists n. split; [done|lia].
    + split; [lia|]. exists (paneCounter st). split; [done|lia].
  - intros id r Hin. rewrite length_app. simpl.
    apply JsMap_elem_set in Hin as [Hin|[-> ->]]; [|lia].
    specialize (Ht id r Hin). lia.
  - intros i p Hlook.
    apply lookup_snoc_Some in Hlook as [[_ Hold]|[_ <-]].
    + apply JsMap_get_set_is_Some. by eapply Ho.
    + simpl. rewrite JsMap_get_set_eq. eauto.
Qed.

Lemma wellFormed_split (vertical : bool) (paneId profile command : option string)
    (o : Outcome) (st : Tracker) :
  wellFormed st →
  wellFormed (final (splitTerminal vertical paneId profile command o st)).
Proof.
  intros Hwf.
  assert (wellFormed (withCounters st (windowCounter st) (tabCounter st)
                        (paneCounter st + 1))) as Hwf1
    by (apply wellFormed_counters; [lia|done]).
  unfold splitTerminal.
  destruct (resolveTargetPane st paneId) as [id| |r P] eqn:Hres; try exact Hwf.
  pose proof (resolveTargetPane_object _ _ _ _ Hres) as Hobj.
  destruct o as [m|m|data]; try exact Hwf1.
  destruct (getProp data "error") as [m|e]; [exact Hwf1|].
  destruct (truthy e); [exact Hwf1|].
  destruct (lookupTab _ (pane_tabId P)) as [[t tab]|] eqn:Htab; [|exact Hwf1].
  destruct Hwf as (Hp & Ht & Ho). split; [|split]; simpl.
  - intros id r' Hin. rewrite length_insert, length_app. simpl.
    apply JsMap_elem_set in Hin as [Hin|[-> ->]].
    + destruct (Hp id r' Hin) as (Hlt & n & -> & Hn).
      split; [lia|]. exists n. split; [done|lia].
    + split; [lia|]. exists (paneCounter st). split; [done|lia].
  - intros id r' Hin. rewrite length_insert. by eapply Ht.
  - intros i p Hlook.
    apply list_lookup_insert_Some in Hlook as [(_ & <- & _)|[_ Hlook]].
    + simpl. by eapply Ho.
    + apply lookup_snoc_Some in Hlook as [[_ Hold]|[_ <-]].
      * by eapply Ho.
      * simpl. by eapply Ho.
Qed.

Lemma wellFormed_info (paneId : string) (o : Outcome) (st : Tracker) :
  wellFormed st → wellFormed (final (getSessionInfo paneId o st)).
Proof.
  intros Hwf. unfold getSessionInfo, afterBridge.
  destruct (lookupPane st paneId) as [[r pane]|] eqn:Hpane; [|exact Hwf].
  apply lookupPane_Some in Hpane as [_ Hobj].
  destruct o as [m|m|data]; try exact Hwf.
  destruct (getProp data "error") as [m|e]; [exact Hwf|].
  destruct (truthy e); [exact Hwf|].
  destruct Hwf as (Hp & Ht & Ho). split; [|split]; simpl; [|done|].
  - intros id r' Hin. rewrite length_insert. by apply Hp.
  - intros i p Hlook.
    apply list_lookup_insert_Some in Hlook as [(_ & <- & _)|[_ Hlook]].
    + simpl. by eapply Ho.
    + by eapply Ho.
Qed.

Lemma wellFormed_color (paneId color : string) (o : Outcome) (st : Tracker) :
  wellFormed st → wellFormed (final (setTabColor paneId color o st)).
Proof.
  intros Hwf. unfold setTabColor, afterBridge.
  destruct (lookupPane st paneId) as [[r pane]|]; [|exact Hwf].
  destruct o as [m|m|data]; try exact Hwf.
  destruct (getProp data "error") as [m|e]; [exact Hwf|].
  destruct (truthy e); [exact Hwf|].
  destruct (lookupTab st (pane_tabId pane)) as [[t tab]|]; [|exact Hwf].
  destruct Hwf as (Hp & Ht & Ho). split; [|split]; simpl; [done| |done].
  intros id r' Hin. rewrite length_insert. by eapply Ht.
Qed.

(** Every handler keeps the tracker well formed. *)
Lemma wellFormed_dispatch (req : Request) (o : Outcome) (st : Tracker) :
  wellFormed st → wellFormed (final (dispatch req o st)).
Proof.
  intros Hwf. destruct req; simpl.
  - by apply wellFormed_open.
  - by apply wellFormed_split.
  - by apply wellFormed_split.
  - unfold executeCommandInPane, afterBridge.
    destruct (lookupPane st paneId) as [[r pane]|]; [|done].
    destruct o as [m|m|data]; try done.
    destruct (getProp data "error") as [m|e]; [done|]. by destruct (truthy e).
  - by apply wellFormed_info.
  - unfold getSessionDetails, afterBridge.
    destruct o as [m|m|data]; try done.
    destruct (getProp data "error") as [m|e]; [done|]. by destruct (truthy e).
  - by apply wellFormed_color.
  - unfold listAllSessions, afterBridge.
    destruct o as [m|m|data]; try done.
    destruct (getProp data "error") as [m|e]; [done|]. by destruct (truthy e).
  - unfold monitorSession, afterBridge.
    destruct (lookupPane st paneId) as [[r pane]|]; [|done].
    destruct o as [m|m|data]; try done.
    destruct (getProp data "error") as [m|e]; [done|]. by destruct (truthy e).
  - unfold broadcastInput.
    destruct (validPanes st paneIds); [done|].
    destruct o as [m|m|data]; try done.
    by destruct (getProp data "total_panes").
  - done.
  - done.
Qed.

(** So is every tracker of a process lifetime. *)
Lemma wellFormed_runAll (calls : list (Request * Outcome)) (st : Tracker) :
  wellFormed st → wellFormed (runAll calls st).1.
Proof.
  revert st. induction calls as [|[req o] calls IH]; intros st Hwf; [done|].
  simpl. specialize (IH _ (wellFormed_dispatch req o st Hwf)).
  by destruct (runAll calls (final (dispatch req o st))).
Qed.

(** In a well-formed tracker a split whose bridge call reports no error
    succeeds: the tab of the target is always found. *)
Lemma split_succeeds (vertical : bool) (paneId profile command : option string)
    (data : Json) (e : JsVal) (st : Tracker) (r : nat) (P : PaneInfo) :
  wellFormed st →
  resolveTargetPane st paneId = TargetPane r P →
  getProp data "error" = inr e → truthy e = false →
  result (splitTerminal vertical paneId profile command (Parsed data) st)
  = Returned (splitText vertical (localId KPane (paneCounter st))
                (prop data "newSessionId")).
Proof.
  intros (Hp & Ht & Ho) Hres Herr Hfalsy.
  pose proof (resolveTargetPane_object _ _ _ _ Hres) as Hobj.
  unfold splitTerminal. rewrite Hres, Herr, Hfalsy.
  destruct (Ho _ _ Hobj) as [t Hget].
  pose proof (Ht _ _ (JsMap_get_elem _ _ _ Hget)) as Hlt.
  apply lookup_lt_is_Some in Hlt as [tab Htab].
  unfold lookupTab. simpl. rewrite Hget. simpl. rewrite Htab. simpl.
  reflexivity.
Qed.

(** After a successful split of the pane named [id] that pane is still
    found under [id], with its active flag cleared: the new identifier is
    not an old key. *)
Lemma split_target_by_id (vertical : bool) (id : string)
    (profile command : option string) (o : Outcome) (st : Tracker)
    (r : nat) (P : PaneInfo) (sid : JsVal) :
  wellFormed st →
  id ≠ "" →
  lookupPane st id = Some (r, P) →
  result (splitTerminal vertical (Some id) profile command o st)
  = Returned (splitText vertical (localId KPane (paneCounter st)) sid) →
  lookupPane (final (splitTerminal vertical (Some id) profile command o st)) id
  = Some (r, setActive P false).
Proof.
  intros (Hp & _ & _) Hid Hpane Hok.
  assert (resolveTargetPane st (Some id) = TargetPane r P) as Hres.
  { unfold resolveTargetPane. simpl.
    destruct (String.eqb_spec id "") as [->|_]; [done|]. simpl. by rewrite Hpane. }
  apply lookupPane_Some in Hpane as [Hkey Hobj].
  pose proof (lookup_lt_Some _ _ _ Hobj) as Hlt.
  destruct (Hp _ _ (JsMap_get_elem _ _ _ Hkey)) as (_ & n & -> & Hn).
  unfold splitTerminal in *. rewrite Hres in *.
  destruct o as [m|m|data]; simpl in Hok; try discriminate.
  destruct (getProp data "error") as [m|e]; simpl in Hok; try discriminate.
  destruct (truthy e); simpl in Hok.
  { destruct vertical; discriminate. }
  destruct (lookupTab _ (pane_tabId P)) as [[t tab]|]; simpl in Hok;
    try discriminate.
  unfold lookupPane. simpl.
  rewrite JsMap_get_set_ne.
  - rewrite Hkey. simpl.
    rewrite list_lookup_insert_eq; [done|].
    rewrite length_app. simpl. lia.
  - intros Heq. apply (inj (localId KPane)) in Heq. lia.
Qed.

(** ** A session from start to end *)

(** open-terminal, then a vertical split without a pane identifier: two
    panes in one tab, the first at (0,0) and no longer active, the second at
    (1,0) and active; a later failing split still uses up pane-2. *)
Example open_then_split :
  wellFormed (final afterSplit) ∧
  JsMap.keys (panes (final afterSplit)) = ["pane-0"; "pane-1"] ∧
  position <$> paneObjs (final afterSplit) = [(0, 0)%Z; (1, 0)%Z] ∧
  isActive <$> paneObjs (final afterSplit) = [false; true] ∧
  JsMap.keys <$> (tab_panes <$> tabObjs (final afterSplit))
  = [["pane-0"; "pane-1"]] ∧
  (runAll [(SplitTerminalHorizontal None None None, BridgeThrew "timeout");
           (SplitTerminalHorizontal None None None,
            Parsed (JObj [("newSessionId", JStr "S3")]))]
     (final afterSplit)).2
  = [(KPane, 2%N); (KPane, 3%N)].
Proof.
  split; [|by repeat split].
  apply wellFormed_split, wellFormed_open, wellFormed_initial.
Qed.

(** * Further properties *)

(** ** The tracker over a process lifetime *)

(** X1. Whatever calls are handled from the start of the process, and
    whatever the bridge answers, the tracker stays well formed: the [panes]
    and [tabs] maps hold no dangling reference, every pane key is a
    [pane-N] with [N] below the pane counter, and the tab of every pane
    object is a key of [tabs]. *)
Theorem X1_tracker_stays_well_formed (calls : list (Request * Outcome)) :
  wellFormed (runAll calls initial).1.
Proof. apply wellFormed_runAll, wellFormed_initial. Qed.

Lemma JsMap_keys_set {V} (m : JsMap.t V) (k : string) (v : V) :
  JsMap.keys (JsMap.set m k v) = JsMap.keys m ∨
  JsMap.keys (JsMap.set m k v) = JsMap.keys m ++ [k].
Proof.
  unfold JsMap.keys. induction m as [|[k0 v0] m IH]; [by right|].
  cbn [JsMap.set]. destruct (String.eqb_spec k k0) as [->|Hne]; [by left|].
  rewrite !fmap_cons. destruct IH as [IH|IH]; rewrite IH; auto.
Qed.

Lemma JsMap_keys_set_prefix {V} (m : JsMap.t V) (k : string) (v : V) :
  JsMap.keys m `prefix_of` JsMap.keys (JsMap.set m k v).
Proof.
  destruct (JsMap_keys_set m k v) as [->| ->]; [done|].
  by apply prefix_app_r.
Qed.

(** A call leaves each map as it was or sets one key in it; the stores only
    grow. *)
Lemma dispatch_maps (req : Request) (o : Outcome) (st : Tracker) :
  (panes (final (dispatch req o st)) = panes st ∨
   ∃ k v, panes (final (dispatch req o st)) = JsMap.set (panes st) k v) ∧
  (tabs (final (dispatch req o st)) = tabs st ∨
   ∃ k v, tabs (final (dispatch req o st)) = JsMap.set (tabs st) k v) ∧
  (windows (final (dispatch req o st)) = windows st ∨
   ∃ k v, windows (final (dispatch req o st)) = JsMap.set (windows st) k v).
Proof.
  destruct req; simpl;
    unfold openTerminal, splitTerminal, executeCommandInPane, getSessionInfo,
      getSessionDetails, setTabColor, listAllSessions, monitorSession,
      broadcastInput, listPanes, getTerminalState, afterBridge;
    try (by auto);
    try (destruct (resolveTargetPane st paneId); [by auto|by auto|]);
    try (destruct (lookupPane st paneId) as [[? ?]|]; [|by auto]);
    try (destruct (validPanes st paneIds); [by auto|]);
    bridge_cases o; simpl; try (by auto);
    try (destruct (lookupTab _ _) as [[? ?]|]; simpl);
    try (destruct (getProp _ "sessionId"); simpl);
    try (destruct (getProp _ "total_panes"); simpl);
    repeat split; first [by left | right; by eauto].
Qed.

Lemma dispatch_keys_prefix (req : Request) (o : Outcome) (st : Tracker) :
  JsMap.keys (panes st) `prefix_of` JsMap.keys (panes (final (dispatch req o st))) ∧
  JsMap.keys (tabs st) `prefix_of` JsMap.keys (tabs (final (dispatch req o st))) ∧
  JsMap.keys (windows st)
    `prefix_of` JsMap.keys (windows (final (dispatch req o st))).
Proof.
  destruct (dispatch_maps req o st) as ([->|(k1 & v1 & ->)] & [->|(k2 & v2 & ->)]
                                        & [->|(k3 & v3 & ->)]);
    repeat split; try done; apply JsMap_keys_set_prefix.
Qed.

(** X2. No call ever removes or reorders an entry of the [windows], [tabs]
    or [panes] map: over any sequence of calls the keys at the start are a
    prefix, in insertion order, of the keys at the end. *)
Theorem X2_entries_are_never_removed (calls : list (Request * Outcome))
    (st : Tracker) :
  JsMap.keys (panes st) `prefix_of` JsMap.keys (panes (runAll calls st).1) ∧
  JsMap.keys (tabs st) `prefix_of` JsMap.keys (tabs (runAll calls st).1) ∧
  JsMap.keys (windows st) `prefix_of` JsMap.keys (windows (runAll calls st).1).
Proof.
  revert st. induction calls as [|[req o] calls IH]; intros st; [done|].
  simpl. specialize (IH (final (dispatch req o st))).
  destruct (runAll calls (final (dispatch req o st))) as [st' more]. simpl in *.
  destruct (dispatch_keys_prefix req o st) as (Hp & Ht & Hw).
  destruct IH as (IHp & IHt & IHw).
  repeat split; etrans; eauto.
Qed.

(** One call keeps every pane object in its place and changes none of its
    identifier, session identifier, window, tab and position. *)
Lemma dispatch_identity (req : Request) (o : Outcome) (st : Tracker)
    (r : nat) (p : PaneInfo) :
  paneObjs st !! r = Some p →
  ∃ p', paneObjs (final (dispatch req o st)) !! r = Some p' ∧
        identity p' = identity p.
Proof.
  intros Hobj. pose proof (lookup_lt_Some _ _ _ Hobj) as Hlt.
  destruct req; simpl;
    unfold openTerminal, executeCommandInPane,
      getSessionDetails, setTabColor, listAllSessions, monitorSession,
      broadcastInput, listPanes, getTerminalState, afterBridge;
    try (by eauto).
  - destruct o as [m|m|data]; simpl; try (by eauto).
    destruct (getProp data "sessionId"); simpl; [by eauto|].
    exists p. by rewrite lookup_app_l.
  - unfold splitTerminal.
    destruct (resolveTargetPane st paneId) as [| |r0 P] eqn:Hres; try (by eauto).
    pose proof (resolveTargetPane_object _ _ _ _ Hres) as HP.
    bridge_cases o; simpl; try (by eauto).
    destruct (lookupTab _ _) as [[t tab]|]; simpl; [|by eauto].
    destruct (decide (r0 = r)) as [->|Hne].
    + exists (setActive P false). rewrite list_lookup_insert_eq.
      * split; [done|]. by simplify_eq.
      * rewrite length_app. simpl. lia.
    + exists p. rewrite list_lookup_insert_ne by done. by rewrite lookup_app_l.
  - unfold splitTerminal.
    destruct (resolveTargetPane st paneId) as [| |r0 P] eqn:Hres; try (by eauto).
    pose proof (resolveTargetPane_object _ _ _ _ Hres) as HP.
    bridge_cases o; simpl; try (by eauto).
    destruct (lookupTab _ _) as [[t tab]|]; simpl; [|by eauto].
    destruct (decide (r0 = r)) as [->|Hne].
    + exists (setActive P false). rewrite list_lookup_insert_eq.
      * split; [done|]. by simplify_eq.
      * rewrite length_app. simpl. lia.
    + exists p. rewrite list_lookup_insert_ne by done. by rewrite lookup_app_l.
  - destruct (lookupPane st paneId) as [[? ?]|]; [|by eauto].
    bridge_cases o; simpl; by eauto.
  - unfold getSessionInfo, afterBridge.
    destruct (lookupPane st paneId) as [[r0 pane]|] eqn:Hpane; [|by eauto].
    apply lookupPane_Some in Hpane as [_ HP].
    bridge_cases o; simpl; try (by eauto).
    destruct (decide (r0 = r)) as [->|Hne].
    + eexists. rewrite list_lookup_insert_eq by done.
      split; [done|]. by simplify_eq.
    + exists p. by rewrite list_lookup_insert_ne.
  - bridge_cases o; simpl; by eauto.
  - destruct (lookupPane st paneId) as [[? ?]|]; [|by eauto].
    bridge_cases o; simpl; try (by eauto).
    destruct (lookupTab _ _) as [[? ?]|]; simpl; by eauto.
  - bridge_cases o; simpl; by eauto.
  - destruct (lookupPane st paneId) as [[? ?]|]; [|by eauto].
    bridge_cases o; simpl; by eauto.
  - destruct (validPanes st paneIds); [by eauto|].
    destruct o as [m|m|data]; simpl; try (by eauto).
    destruct (getProp data "total_panes"); simpl; by eauto.
Qed.

(** X3. A pane object, once made, stays where it is and keeps its
    identifier, its session identifier, its window, its tab and its position
    through any sequence of calls: only its active flag and its cached title,
    working directory and foreground job are ever written. *)
Theorem X3_pane_identity_is_immutable (calls : list (Request * Outcome))
    (st : Tracker) (r : nat) (p : PaneInfo) :
  paneObjs st !! r = Some p →
  ∃ p', paneObjs (runAll calls st).1 !! r = Some p' ∧ identity p' = identity p.
Proof.
  revert st p. induction calls as [|[req o] calls IH]; intros st p Hobj.
  { by exists p. }
  simpl. destruct (dispatch_identity req o st r p Hobj) as (p1 & Hobj1 & Hid1).
  specialize (IH _ _ Hobj1).
  destruct (runAll calls (final (dispatch req o st))) as [st' more]. simpl in *.
  destruct IH as (p' & Hobj' & Hid'). exists p'. split; [done|congruence].
Qed.

Lemma X3_pane_identity_is_immutable_witness :
  ∃ p', paneObjs
          (runAll [(SplitTerminalVertical None None None,
                    Parsed (JObj [("newSessionId", JStr "S1")]));
                   (GetSessionInfo "pane-0",
                    Parsed (JObj [("title", JStr "zsh")]))] afterOpen).1
        !! 0%nat = Some p' ∧
        sessionId p' = jsString "S0" ∧ title p' = jsString "zsh" ∧
        isActive p' = false.
Proof.
  destruct (X3_pane_identity_is_immutable
              [(SplitTerminalVertical None None None,
                Parsed (JObj [("newSessionId", JStr "S1")]));
               (GetSessionInfo "pane-0", Parsed (JObj [("title", JStr "zsh")]))]
              afterOpen 0
              (mkPane "pane-0" (jsString "S0") "window-0" "tab-0" (0, 0)%Z true
                 None None None) eq_refl) as (p' & Hobj & Hid).
  exists p'. split; [exact Hobj|].
  vm_compute in Hobj. injection Hobj as <-. by repeat split.
Defined.

(** ** What open-terminal builds *)

(** X4. When the payload of open-terminal is not [null], the tracker
    afterwards holds, under the three identifiers just allocated, a pane, a
    tab and a window that are linked to each other: the pane (active, at
    (0,0), with the session identifier of the payload) names the tab and the
    window, the tab holds exactly that pane and has it as active pane, the
    window holds exactly that tab and has it as active tab. *)
Theorem X4_open_links_window_tab_pane (profile command wd : option string)
    (data : Json) (sid : JsVal) (st : Tracker) :
  getProp data "sessionId" = inr sid →
  ∃ r t,
    lookupPane (final (openTerminal profile command wd (Parsed data) st))
      (localId KPane (paneCounter st))
    = Some (r, mkPane (localId KPane (paneCounter st)) sid
                 (localId KWindow (windowCounter st))
                 (localId KTab (tabCounter st)) (0, 0)%Z true None
                 (JStr <$> wd) None) ∧
    lookupTab (final (openTerminal profile command wd (Parsed data) st))
      (localId KTab (tabCounter st))
    = Some (t, mkTab (localId KTab (tabCounter st))
                 (localId KWindow (windowCounter st))
                 [(localId KPane (paneCounter st), r)]
                 (Some (localId KPane (paneCounter st))) None) ∧
    JsMap.get (windows (final (openTerminal profile command wd (Parsed data) st)))
      (localId KWindow (windowCounter st))
    = Some (mkWindow (localId KWindow (windowCounter st))
              [(localId KTab (tabCounter st), t)]
              (Some (localId KTab (tabCounter st)))).
Proof.
  intros Hsid. unfold openTerminal. rewrite Hsid. simpl.
  exists (length (paneObjs st)), (length (tabObjs st)).
  unfold lookupPane, lookupTab. simpl. rewrite !JsMap_get_set_eq. simpl.
  rewrite !lookup_app_r by lia. rewrite !Nat.sub_diag. by simpl.
Qed.

Lemma X4_open_links_window_tab_pane_witness :
  ∃ r t,
    (sessionId ∘ snd <$> lookupPane afterOpen "pane-0") = Some (jsString "S0") ∧
    (fst <$> lookupPane afterOpen "pane-0") = Some r ∧
    (tab_panes ∘ snd <$> lookupTab afterOpen "tab-0") = Some [("pane-0", r)] ∧
    (fst <$> lookupTab afterOpen "tab-0") = Some t ∧
    (win_tabs <$> JsMap.get (windows afterOpen) "window-0")
    = Some [("tab-0", t)].
Proof.
  destruct (X4_open_links_window_tab_pane None (Some "echo hi") None
              (JObj [("sessionId", JStr "S0")]) (jsString "S0") initial eq_refl)
    as (r & t & Hp & Ht & Hw).
  exists r, t. fold afterOpen in Hp, Ht, Hw.
  change (localId KPane (paneCounter initial)) with "pane-0" in *.
  change (localId KTab (tabCounter initial)) with "tab-0" in *.
  change (localId KWindow (windowCounter initial)) with "window-0" in *.
  rewrite Hp, Ht, Hw. by repeat split.
Defined.

(** ** Replies to bad input and bad payloads *)

(** X5. A call that names a pane the tracker does not know (an explicit
    [paneId] of a split, or the [paneId] of execute-command-in-pane,
    get-session-info, set-tab-color, monitor-session) returns
    "Pane <id> not found", makes no bridge call, consumes no identifier and
    leaves the tracker as it was. *)
Theorem X5_unknown_pane_is_reported (req : Request) (o : Outcome)
    (st : Tracker) (id : string) :
  namedPane req = Some id →
  lookupPane st id = None →
  dispatch req o st = mkRun (Returned (notFound id)) st [] [].
Proof.
  intros Hnamed Hnone. destruct req; simpl in Hnamed; try discriminate; simpl;
    unfold splitTerminal, resolveTargetPane, executeCommandInPane,
      getSessionInfo, setTabColor, monitorSession;
    try (destruct (truthyArg paneId) eqn:Htruthy; [|discriminate]);
    simplify_eq/=; by rewrite Hnone.
Qed.

Lemma X5_unknown_pane_is_reported_witness :
  dispatch (SplitTerminalHorizontal (Some "pane-7") None None) (BridgeThrew "")
    afterOpen
  = mkRun (Returned [Lit "Pane pane-7 not found"]) afterOpen [] [] ∧
  dispatch (SetTabColor "" "red") (BridgeThrew "") afterOpen
  = mkRun (Returned [Lit "Pane  not found"]) afterOpen [] [].
Proof.
  split.
  - exact (X5_unknown_pane_is_reported
             (SplitTerminalHorizontal (Some "pane-7") None None)
             (BridgeThrew "") afterOpen "pane-7" eq_refl eq_refl).
  - exact (X5_unknown_pane_is_reported (SetTabColor "" "red")
             (BridgeThrew "") afterOpen "" eq_refl eq_refl).
Defined.

(** X6. When the bridge output parses to [null], every handler that
    called the bridge treats the TypeError of its first property read like
    any other failure: open-terminal and the splits throw, the others return
    their "Failed to ..." text, each with the TypeError message, and the
    maps and records are left as they were. *)
Theorem X6_null_payload_is_a_failure (req : Request) (st : Tracker) :
  bridgeCalls (dispatch req (Parsed JNull) st) ≠ [] →
  result (dispatch req (Parsed JNull) st)
  = (if rethrows req
     then Thrown (failurePrefix req +:+ "Cannot read properties of null (reading '"
                  +:+ firstField req +:+ "')")
     else Returned [Lit (failurePrefix req
                         +:+ "Cannot read properties of null (reading '"
                         +:+ firstField req +:+ "')")]) ∧
  records (final (dispatch req (Parsed JNull) st)) = records st.
Proof.
  destruct req; simpl;
    unfold openTerminal, splitTerminal, executeCommandInPane, getSessionInfo,
      getSessionDetails, setTabColor, listAllSessions, monitorSession,
      broadcastInput, listPanes, getTerminalState, afterBridge;
    try done;
    try (destruct (resolveTargetPane st paneId); simpl;
         by rewrite ?append_assoc);
    try (destruct (lookupPane st paneId) as [[? ?]|]; simpl;
         by rewrite ?append_assoc);
    try (destruct (validPanes st paneIds); simpl; done).
Qed.

Lemma X6_null_payload_is_a_failure_witness :
  result (dispatch (GetSessionInfo "pane-0") (Parsed JNull) afterOpen)
  = Returned [Lit "Failed to get session info: Cannot read properties of null (reading 'error')"] ∧
  result (dispatch (OpenTerminal None None None) (Parsed JNull) afterOpen)
  = Thrown "Failed to create terminal: Cannot read properties of null (reading 'sessionId')".
Proof.
  split.
  - refine (proj1 (X6_null_payload_is_a_failure (GetSessionInfo "pane-0")
                     afterOpen _)). discriminate.
  - refine (proj1 (X6_null_payload_is_a_failure (OpenTerminal None None None)
                     afterOpen _)). discriminate.
Defined.

(** X7. Every handler that tests [data.error] (all bridge callers but
    open-terminal and broadcast-input) answers a payload with a truthy
    [error] by returning the text "Error: <error>"; the two splits too
    return it and do not throw. *)
Theorem X7_domain_error_is_returned (req : Request) (data : Json) (e : JsVal)
    (st : Tracker) :
  checksError req = true →
  bridgeCalls (dispatch req (Parsed data) st) ≠ [] →
  getProp data "error" = inr e → truthy e = true →
  result (dispatch req (Parsed data) st) = Returned [Lit "Error: "; Interp e].
Proof.
  intros Hchecks Hcall Herr Htruthy.
  destruct req; try discriminate; simpl in *;
    unfold splitTerminal, executeCommandInPane, getSessionInfo,
      getSessionDetails, setTabColor, listAllSessions, monitorSession,
      afterBridge in *;
    rewrite ?Herr, ?Htruthy in *; try done;
    try (destruct (resolveTargetPane st paneId); simpl in *;
         rewrite ?Herr, ?Htruthy in *; done);
    try (destruct (lookupPane st paneId) as [[? ?]|]; simpl in *;
         rewrite ?Herr, ?Htruthy in *; done).
Qed.

Lemma X7_domain_error_is_returned_witness :
  result (dispatch (SplitTerminalVertical None None None)
            (Parsed (JObj [("error", JStr "Target session not found")]))
            afterOpen)
  = Returned [Lit "Error: "; Interp (jsString "Target session not found")].
Proof.
  refine (X7_domain_error_is_returned (SplitTerminalVertical None None None)
            (JObj [("error", JStr "Target session not found")])
            (jsString "Target session not found") afterOpen eq_refl _ eq_refl
            eq_refl).
  discriminate.
Defined.

(** ** Identifiers that are used up *)

Lemma dispatch_pane_key (req : Request) (o : Outcome) (st : Tracker) :
  (panes (final (dispatch req o st)) = panes st ∨
   ∃ v, panes (final (dispatch req o st))
        = JsMap.set (panes st) (localId KPane (paneCounter st)) v) ∧
  (paneCounter st <= paneCounter (final (dispatch req o st)))%N.
Proof.
  split.
  - destruct req; simpl;
      unfold openTerminal, splitTerminal, executeCommandInPane, getSessionInfo,
        getSessionDetails, setTabColor, listAllSessions, monitorSession,
        broadcastInput, listPanes, getTerminalState, afterBridge;
      try (by auto);
      try (destruct (resolveTargetPane st paneId); [by auto|by auto|]);
      try (destruct (lookupPane st paneId) as [[? ?]|]; [|by auto]);
      try (destruct (validPanes st paneIds); [by auto|]);
      bridge_cases o; simpl; try (by auto);
      try (destruct (lookupTab _ _) as [[? ?]|]; simpl);
      try (destruct (getProp _ "sessionId"); simpl);
      try (destruct (getProp _ "total_panes"); simpl);
      first [by left | right; by eauto].
  - destruct (dispatch_allocated req o st) as [[_ H]|[[_ H]|[_ H]]];
      unfold counters in H; injection H as _ _ ->; lia.
Qed.

Lemma JsMap_keys_elem {V} (m : JsMap.t V) (k : string) :
  k ∈ JsMap.keys m ↔ ∃ v, (k, v) ∈ m.
Proof.
  unfold JsMap.keys. rewrite list_elem_of_fmap. split.
  - intros ([k' v] & -> & Hin). eauto.
  - intros (v & Hin). by exists (k, v).
Qed.

(** A key that appears in [panes] during a run was made from a counter value
    of that run. *)
Lemma runAll_new_pane_keys (calls : list (Request * Outcome)) (st : Tracker)
    (id : string) :
  id ∈ JsMap.keys (panes (runAll calls st).1) →
  id ∈ JsMap.keys (panes st) ∨
  ∃ n, id = localId KPane n ∧ (paneCounter st <= n)%N.
Proof.
  revert st. induction calls as [|[req o] calls IH]; intros st; [by left|].
  simpl. specialize (IH (final (dispatch req o st))).
  destruct (runAll calls (final (dispatch req o st))) as [st' more]. simpl in *.
  destruct (dispatch_pane_key req o st) as [Hkey Hle].
  intros Hin. destruct (IH Hin) as [Hold|(n & -> & Hn)].
  - destruct Hkey as [Heq|[v Heq]]; rewrite Heq in Hold; [by left|].
    destruct (JsMap_keys_set (panes st) (localId KPane (paneCounter st)) v)
      as [Hk|Hk]; rewrite Hk in Hold; [by left|].
    apply elem_of_app in Hold as [Hold|Hnew]; [by left|].
    apply list_elem_of_singleton in Hnew as ->. right. eexists. split; [done|lia].
  - right. exists n. split; [done|lia].
Qed.

(** X8. A split that resolved its target and then failed (the bridge
    threw, the output did not parse, or the payload carried an error) has
    used up one pane number for good: whatever calls follow, no pane is ever
    stored under that identifier. *)
Theorem X8_failed_split_leaves_a_gap (vertical : bool)
    (paneId profile command : option string) (o : Outcome) (st : Tracker)
    (r : nat) (P : PaneInfo) (calls : list (Request * Outcome)) :
  wellFormed st →
  resolveTargetPane st paneId = TargetPane r P →
  bridgeFailed o = true ∨ reportsError o = true →
  paneCounter (final (splitTerminal vertical paneId profile command o st))
  = (paneCounter st + 1)%N ∧
  localId KPane (paneCounter st)
  ∉ JsMap.keys
      (panes (runAll calls
                (final (splitTerminal vertical paneId profile command o st))).1).
Proof.
  intros (Hp & _ & _) Hres Hfail.
  assert (panes (final (splitTerminal vertical paneId profile command o st))
          = panes st ∧
          paneCounter (final (splitTerminal vertical paneId profile command o st))
          = (paneCounter st + 1)%N) as [Hpanes Hcount].
  { unfold splitTerminal. rewrite Hres.
    destruct Hfail as [Hfail|Hfail]; destruct o as [m|m|data];
      try discriminate; try done.
    simpl in Hfail. destruct (getProp data "error") as [m|e]; [done|].
    by rewrite Hfail. }
  split; [exact Hcount|].
  intros Hin. apply runAll_new_pane_keys in Hin as [Hold|(n & Heq & Hn)].
  - rewrite Hpanes in Hold. apply JsMap_keys_elem in Hold as [v Hold].
    destruct (Hp _ _ Hold) as (_ & n & Heq & Hn).
    apply (inj (localId KPane)) in Heq. lia.
  - apply (inj (localId KPane)) in Heq. lia.
Qed.

Lemma X8_failed_split_leaves_a_gap_witness :
  localId KPane 1
  ∉ JsMap.keys
      (panes (runAll [(SplitTerminalVertical None None None,
                       Parsed (JObj [("newSessionId", JStr "S2")]))]
                (final (splitTerminal true None None None
                          (BridgeThrew "timeout") afterOpen))).1).
Proof.
  refine (proj2 (X8_failed_split_leaves_a_gap true None None None
                   (BridgeThrew "timeout") afterOpen 0
                   (mkPane "pane-0" (jsString "S0") "window-0" "tab-0" (0, 0)%Z
                      true None None None)
                   [(SplitTerminalVertical None None None,
                     Parsed (JObj [("newSessionId", JStr "S2")]))]
                   _ eq_refl (or_introl eq_refl))).
  apply wellFormed_open, wellFormed_initial.
Defined.

(** ** Splits and colours in the trackers the handlers build *)

(** X10. In every tracker reached from the start of the process, a split
    whose target resolves and whose payload carries no truthy [error]
    succeeds: the lookup of the target's tab never comes back empty. *)
Theorem X10_split_finds_the_tab (calls : list (Request * Outcome))
    (vertical : bool) (paneId profile command : option string)
    (data : Json) (e : JsVal) (r : nat) (P : PaneInfo) :
  resolveTargetPane (runAll calls initial).1 paneId = TargetPane r P →
  getProp data "error" = inr e → truthy e = false →
  result (splitTerminal vertical paneId profile command (Parsed data)
            (runAll calls initial).1)
  = Returned (splitText vertical
                (localId KPane (paneCounter (runAll calls initial).1))
                (prop data "newSessionId")).
Proof.
  intros Hres Herr Hfalsy. eapply split_succeeds; eauto.
  apply wellFormed_runAll, wellFormed_initial.
Qed.

Lemma X10_split_finds_the_tab_witness :
  result (splitTerminal false (Some "pane-0") None None
            (Parsed (JObj [("newSessionId", JStr "S1")]))
            (runAll [(OpenTerminal None None None,
                      Parsed (JObj [("sessionId", JStr "S0")]))] initial).1)
  = Returned [Lit "Pane split horizontally - New pane: pane-1, Session: ";
              Interp (jsString "S1")].
Proof.
  exact (X10_split_finds_the_tab
           [(OpenTerminal None None None,
             Parsed (JObj [("sessionId", JStr "S0")]))]
           false (Some "pane-0") None None
           (JObj [("newSessionId", JStr "S1")]) None 0
           (mkPane "pane-0" (jsString "S0") "window-0" "tab-0" (0, 0)%Z true
              None None None) eq_refl eq_refl eq_refl).
Defined.

(** X11. In a well-formed tracker, set-tab-color on a known pane with a
    payload that carries no truthy [error] returns "Tab color set to ...",
    and afterwards the tab of that pane, looked up by its identifier, has
    the colour; panes, windows and the maps are untouched. *)
Theorem X11_tab_color_is_stored (paneId color : string) (data : Json)
    (e : JsVal) (st : Tracker) (r : nat) (pane : PaneInfo) :
  wellFormed st →
  lookupPane st paneId = Some (r, pane) →
  getProp data "error" = inr e → truthy e = false →
  result (setTabColor paneId color (Parsed data) st)
  = Returned [Lit ("Tab color set to " +:+ color +:+ " for pane " +:+ paneId)] ∧
  (∃ t tab,
     lookupTab st (pane_tabId pane) = Some (t, tab) ∧
     lookupTab (final (setTabColor paneId color (Parsed data) st))
       (pane_tabId pane) = Some (t, setColor tab color)) ∧
  paneObjs (final (setTabColor paneId color (Parsed data) st)) = paneObjs st ∧
  panes (final (setTabColor paneId color (Parsed data) st)) = panes st ∧
  tabs (final (setTabColor paneId color (Parsed data) st)) = tabs st ∧
  windows (final (setTabColor paneId color (Parsed data) st)) = windows st.
Proof.
  intros (_ & Ht & Ho) Hpane Herr Hfalsy.
  unfold setTabColor, afterBridge. rewrite Hpane, Herr, Hfalsy.
  apply lookupPane_Some in Hpane as [_ Hobj].
  destruct (Ho _ _ Hobj) as [t Hget].
  pose proof (Ht _ _ (JsMap_get_elem _ _ _ Hget)) as Hlt.
  destruct (lookup_lt_is_Some_2 _ _ Hlt) as [tab Htab].
  assert (lookupTab st (pane_tabId pane) = Some (t, tab)) as Hlook
    by (unfold lookupTab; rewrite Hget; simpl; by rewrite Htab).
  rewrite Hlook. simpl. split; [done|]. split; [|done].
  exists t, tab. split; [done|].
  unfold lookupTab. simpl. rewrite Hget. simpl.
  by rewrite list_lookup_insert_eq.
Qed.

Lemma X11_tab_color_is_stored_witness :
  (color ∘ snd
   <$> lookupTab (final (setTabColor "pane-0" "#00ff80" (Parsed (JObj [])) afterOpen))
         "tab-0")
  = Some (Some "#00ff80").
Proof.
  destruct (X11_tab_color_is_stored "pane-0" "#00ff80" (JObj []) None afterOpen 0
              (mkPane "pane-0" (jsString "S0") "window-0" "tab-0" (0, 0)%Z true
                 None None None)) as (_ & (t & tab & _ & Hafter) & _);
    [apply wellFormed_open, wellFormed_initial|reflexivity..|].
  cbn [pane_tabId] in Hafter. by rewrite Hafter.
Defined.

(** X12. get-session-info on a known pane with a payload that carries no
    truthy [error] caches the payload's [title], [working_directory] and
    [foreground_job] in that pane: looked up again, the pane has exactly
    these three values and is otherwise as before; every other pane object
    and all maps are untouched. *)
Theorem X12_session_info_is_cached (paneId : string) (data : Json) (e : JsVal)
    (st : Tracker) (r : nat) (pane : PaneInfo) :
  lookupPane st paneId = Some (r, pane) →
  getProp data "error" = inr e → truthy e = false →
  lookupPane (final (getSessionInfo paneId (Parsed data) st)) paneId
  = Some (r, setAdvisory pane (prop data "title")
               (prop data "working_directory") (prop data "foreground_job")) ∧
  (∀ r', r' ≠ r →
     paneObjs (final (getSessionInfo paneId (Parsed data) st)) !! r'
     = paneObjs st !! r') ∧
  panes (final (getSessionInfo paneId (Parsed data) st)) = panes st ∧
  tabObjs (final (getSessionInfo paneId (Parsed data) st)) = tabObjs st.
Proof.
  intros Hpane Herr Hfalsy.
  unfold getSessionInfo, afterBridge. rewrite Hpane, Herr, Hfalsy. simpl.
  apply lookupPane_Some in Hpane as [Hkey Hobj].
  pose proof (lookup_lt_Some _ _ _ Hobj) as Hlt.
  split; [|split; [|done]].
  - unfold lookupPane. simpl. rewrite Hkey. simpl.
    by rewrite list_lookup_insert_eq.
  - intros r' Hne. by rewrite list_lookup_insert_ne.
Qed.

Lemma X12_session_info_is_cached_witness :
  (title ∘ snd
   <$> lookupPane
         (final (getSessionInfo "pane-0"
                   (Parsed (JObj [("title", JStr "vim"); ("error", JStr "")]))
                   afterOpen)) "pane-0")
  = Some (jsString "vim").
Proof.
  destruct (X12_session_info_is_cached "pane-0"
              (JObj [("title", JStr "vim"); ("error", JStr "")])
              (jsString "") afterOpen 0
              (mkPane "pane-0" (jsString "S0") "window-0" "tab-0" (0, 0)%Z true
                 None None None) eq_refl eq_refl eq_refl) as (Hafter & _).
  by rewrite Hafter.
Defined.

(** ** The default pane *)

Lemma JsMap_get_None {V} (m : JsMap.t V) (k : string) :
  k ∉ JsMap.keys m → JsMap.get m k = None.
Proof.
  intros Hout. destruct (JsMap.get m k) as [v|] eqn:E; [|done].
  exfalso. apply Hout. apply JsMap_keys_elem. exists v.
  by apply JsMap_get_elem.
Qed.

Lemma JsMap_set_fresh {V} (m : JsMap.t V) (k : string) (v : V) :
  k ∉ JsMap.keys m → JsMap.set m k v = m ++ [(k, v)].
Proof.
  unfold JsMap.keys. induction m as [|[k0 v0] m IH]; [done|].
  rewrite fmap_cons, not_elem_of_cons. intros [Hne Hout].
  cbn [JsMap.set]. destruct (String.eqb_spec k k0) as [->|_]; [done|].
  simpl. by rewrite IH.
Qed.

(** In a well-formed tracker the next pane identifier is not yet a key. *)
Lemma wellFormed_fresh (st : Tracker) :
  wellFormed st → localId KPane (paneCounter st) ∉ JsMap.keys (panes st).
Proof.
  intros (Hp & _ & _) Hin. apply JsMap_keys_elem in Hin as [v Hin].
  destruct (Hp _ _ Hin) as (_ & n & Heq & Hn).
  apply (inj (localId KPane)) in Heq. lia.
Qed.

(** The panes in iteration order after one more pane object was stored under
    a new key. *)
Lemma paneValues_snoc (st : Tracker) (objs : list TabInfo)
    (wins : JsMap.t WindowInfo) (m : JsMap.t nat)
    (pane : PaneInfo) (w t p : N) :
  wellFormed st →
  paneValues (mkTracker (paneObjs st ++ [pane]) objs wins m
                (JsMap.set (panes st) (localId KPane (paneCounter st))
                   (length (paneObjs st))) w t p)
  = paneValues st ++ [(length (paneObjs st), pane)].
Proof.
  intros Hwf. unfold paneValues, JsMap.values. simpl.
  rewrite JsMap_set_fresh by by apply wellFormed_fresh.
  rewrite fmap_app, omap_app. simpl.
  rewrite lookup_app_r by lia. rewrite Nat.sub_diag. simpl. f_equal.
  destruct Hwf as (Hp & _ & _).
  apply list_omap_ext. apply Forall2_same_length_lookup_2; [done|].
  intros i r r' Hr Hr'. simplify_eq.
  assert (r < length (paneObjs st)) as Hlt.
  { apply list_lookup_fmap_Some in Hr as ([id r0] & -> & Hin).
    apply list_elem_of_lookup_2 in Hin. by apply (Hp id r0). }
  by rewrite lookup_app_l.
Qed.

(** X9. open-terminal does not change which pane a split without pane
    identifier targets: as long as some older pane is flagged active, the
    first of them in insertion order stays the default, not the pane of the
    window just opened (which is flagged active as well). *)
Theorem X9_open_keeps_the_default_pane (profile command wd : option string)
    (o : Outcome) (st : Tracker) (paneId : option string) (r : nat)
    (P : PaneInfo) :
  wellFormed st →
  truthyArg paneId = false →
  resolveTargetPane st paneId = TargetPane r P →
  resolveTargetPane (final (openTerminal profile command wd o st)) paneId
  = TargetPane r P.
Proof.
  intros Hwf Hfalsy. unfold resolveTargetPane. rewrite Hfalsy.
  intros Hres. unfold openTerminal.
  destruct o as [m|m|data]; try exact Hres.
  destruct (getProp data "sessionId") as [m|sid]; [exact Hres|].
  cbn [final]. unfold withWindows, withTabs, withPanes, withTabObjs,
    withPaneObjs, withCounters. cbn [paneObjs tabObjs windows tabs panes
    windowCounter tabCounter paneCounter].
  rewrite (paneValues_snoc st _ _ _ _ _ _ _ Hwf), filter_app.
  destruct (filter _ (paneValues st)) as [|[r0 p0] rest]; [done|].
  exact Hres.
Qed.

Lemma X9_open_keeps_the_default_pane_witness :
  resolveTargetPane
    (final (openTerminal None None None
              (Parsed (JObj [("sessionId", JStr "S5")])) afterOpen)) None
  = TargetPane 0 (mkPane "pane-0" (jsString "S0") "window-0" "tab-0" (0, 0)%Z
                    true None None None).
Proof.
  apply (X9_open_keeps_the_default_pane None None None
           (Parsed (JObj [("sessionId", JStr "S5")])) afterOpen None 0);
    [apply wellFormed_open, wellFormed_initial|reflexivity|reflexivity].
Defined.

(** ** More on the scripts directory *)

(** X13. The start-up clean-up keeps, with its modification time, every
    file that is not named like a script and every script file that is at
    most five minutes old (one of exactly 300000 ms is kept). *)
Theorem X13_cleanup_keeps_the_rest (now : Z) (dir : Bridge.Dir)
    (file : string) (mtime : Z) :
  dir !! file = Some mtime →
  Bridge.isScriptName file = false ∨ (now - mtime <= 300000)%Z →
  Bridge.cleanupOldScripts now dir !! file = Some mtime.
Proof.
  intros Hfile Hkeep. rewrite cleanupOldScripts_lookup, Hfile. simpl.
  unfold kept, expired. destruct Hkeep as [->|Hrecent]; [done|].
  destruct (now - mtime >? 300000)%Z eqn:E.
  - apply Z.gtb_gt in E. lia.
  - by rewrite andb_false_r.
Qed.

Lemma X13_cleanup_keeps_the_rest_witness :
  Bridge.cleanupOldScripts 300005 twoScripts !! "iterm_script_5.py" = Some 5%Z.
Proof.
  apply X13_cleanup_keeps_the_rest; [reflexivity|]. right. reflexivity.
Defined.

(** X14. A later clean-up subsumes an earlier one: cleaning at [now] and
    then at a later [now'] leaves the directory that cleaning once at [now']
    leaves; in particular cleaning twice at the same time is cleaning
    once. *)
Theorem X14_cleanup_composes (now now' : Z) (dir : Bridge.Dir) :
  (now <= now')%Z →
  Bridge.cleanupOldScripts now' (Bridge.cleanupOldScripts now dir)
  = Bridge.cleanupOldScripts now' dir.
Proof.
  intros Hle. apply map_eq. intros g.
  rewrite !cleanupOldScripts_lookup.
  destruct (dir !! g) as [m|]; simpl; [|done].
  unfold kept at 2. destruct (Bridge.isScriptName g && expired now m) eqn:E;
    simpl; [|done].
  unfold kept, expired in *. apply andb_true_iff in E as [-> E].
  apply Z.gtb_gt in E. simpl.
  by rewrite (proj2 (Z.gtb_gt (now' - m) 300000)) by lia.
Qed.

Lemma X14_cleanup_composes_witness :
  Bridge.cleanupOldScripts 1300000 (Bridge.cleanupOldScripts 1000000 twoScripts)
  = Bridge.cleanupOldScripts 1300000 twoScripts.
Proof. apply X14_cleanup_composes. lia. Defined.

(** X15. The clean-up recognises the files the bridge writes: a script
    file written at time [t] and left behind (the process died before the
    unlink) is removed by a clean-up that starts more than five minutes
    after [t], and is still there after an earlier one. *)
Theorem X15_leftover_script_is_collected (t start : Z) (dir : Bridge.Dir) :
  Bridge.cleanupOldScripts start
    (Bridge.writeFileSync (Bridge.scriptName t) t dir) !! Bridge.scriptName t
  = if (start - t >? 300000)%Z then None else Some t.
Proof.
  rewrite cleanupOldScripts_lookup. unfold Bridge.writeFileSync.
  rewrite lookup_insert_eq. simpl. unfold kept, expired.
  by rewrite scriptName_isScriptName.
Qed.

#[global] Instance scriptName_inj : Inj (=) (=) Bridge.scriptName.
Proof.
  intros a b H. unfold Bridge.scriptName in H.
  apply (inj (String.append "iterm_script_")) in H.
  assert (∀ x y s, x +:+ s = y +:+ s → x = y) as Hcancel.
  { intros x y s Heq. apply (f_equal String.rev) in Heq.
    rewrite !rev_append in Heq. apply (inj (String.append _)) in Heq.
    apply (f_equal String.rev) in Heq.
    assert (∀ z, String.rev (String.rev z) = z) as Hinv.
    { induction z as [|c z IHz]; [done|].
      change (String.rev (String.rev_app z (String c "")) = String c z).
      rewrite rev_app_append, rev_append, IHz. done. }
    by rewrite !Hinv in Heq. }
  apply Hcancel in H. by apply (inj pretty) in H.
Qed.

(** X16. A bridge run touches no file but its own: the script file of a
    run started at another millisecond, like any file of another name, is
    after the run what it was before. *)
Theorem X16_bridge_run_spares_other_scripts (now now' : Z) (script : Script)
    (child : Bridge.ChildExit) (dir : Bridge.Dir) :
  now ≠ now' →
  Bridge.dirAfter (Bridge.executeITermPythonScript now script child dir)
    !! Bridge.scriptName now'
  = dir !! Bridge.scriptName now'.
Proof.
  intros Hne.
  unfold Bridge.executeITermPythonScript, Bridge.unlinkSync,
    Bridge.writeFileSync.
  rewrite lookup_insert_eq.
  assert (Bridge.scriptName now ≠ Bridge.scriptName now') as Hnames
    by (intros Heq; by apply (inj Bridge.scriptName) in Heq).
  destruct (Bridge.execPromise child) as [[stdout stderr]|m]; simpl;
    by rewrite lookup_delete_ne, lookup_insert_ne.
Qed.

Lemma X16_bridge_run_spares_other_scripts_witness :
  Bridge.dirAfter
    (Bridge.executeITermPythonScript 6 ScriptList (Bridge.TimedOut "") twoScripts)
    !! "iterm_script_5.py" = Some 5%Z.
Proof.
  exact (X16_bridge_run_spares_other_scripts 6 5 ScriptList (Bridge.TimedOut "")
           twoScripts ltac:(lia)).
Defined.

(** X17. A child that exits with a non-zero code is a failure whatever it
    printed: its standard output is never handed to the parser (so the error
    payload the Python harness prints before [sys.exit(1)] reaches no
    handler as data), the handler sees the exception "Python execution
    failed: ...", and the error is logged. *)
Theorem X17_nonzero_exit_discards_output (code : Z)
    (stdout stderr message : string) (parse : string → string + Json)
    (now : Z) (script : Script) (dir : Bridge.Dir) :
  code ≠ 0%Z →
  bridgeOutcome parse (Bridge.Exited code stdout stderr message) now script dir
  = BridgeThrew ("Python execution failed: " +:+ message) ∧
  Bridge.logged
    (Bridge.executeITermPythonScript now script
       (Bridge.Exited code stdout stderr message) dir)
  = [Bridge.LogError message].
Proof.
  intros Hcode.
  unfold bridgeOutcome, Bridge.executeITermPythonScript, Bridge.unlinkSync,
    Bridge.writeFileSync, Bridge.execPromise.
  rewrite lookup_insert_eq.
  destruct (Z.eqb_spec code 0) as [->|_]; [done|]. by simpl.
Qed.

Lemma X17_nonzero_exit_discards_output_witness :
  bridgeOutcome (λ _, inr (JObj [("error", JStr "boom")]))
    (Bridge.Exited 1 "{}" "" "Command failed") 0 ScriptList ∅
  = BridgeThrew "Python execution failed: Command failed".
Proof.
  exact (proj1 (X17_nonzero_exit_discards_output 1 "{}" "" "Command failed"
                  (λ _, inr (JObj [("error", JStr "boom")])) 0 ScriptList ∅
                  ltac:(lia))).
Defined.

(** ** More on the colour rule *)

Section MoreColorFacts.

Import PyScripts.

Variable U : Unicode.

(** X18. A colour that starts with "#" and has fewer than five characters
    after it (the short form "#F00", say) makes the script raise: the slice
    for the third channel is empty, and [int] of the empty text is a
    ValueError whatever the first two slices give. *)
Theorem X18_short_hex_colour_raises (color_value : str) :
  startswith color_value (text "#") = true →
  length color_value < 6 →
  parse_color U color_value = None.
Proof.
  intros Hhash Hshort. unfold parse_color. rewrite Hhash. cbv zeta.
  assert (slice 4 6 (drop 1 color_value) = []) as ->.
  { unfold slice. rewrite drop_drop, drop_ge by lia. apply take_nil. }
  destruct (int16 U (slice 0 2 (drop 1 color_value))); [|done]. simpl.
  by destruct (int16 U (slice 2 4 (drop 1 color_value))).
Qed.

Lemma asciiLower_ascii (c : N) :
  (c <? 128)%N = true →
  (asciiLower c <? 128)%N = true ∧ asciiLower (asciiLower c) = asciiLower c ∧
  (asciiLower c =? 35)%N = (c =? 35)%N.
Proof.
  intros Hc%N.ltb_lt.
  assert ((65 <= c <= 90)%N ∧ asciiLower c = (c + 32)%N ∨
          asciiLower c = c ∧ ¬ (65 <= c <= 90)%N) as [[Hrange ->]|[-> Hout]].
  { unfold asciiLower.
    destruct (N.leb_spec 65 c), (N.leb_spec c 90); simpl;
      first [left; split; [lia|done] | right; split; [done|lia]]. }
  - split; [apply N.ltb_lt; lia|]. split.
    + unfold asciiLower.
      destruct (N.leb_spec (c + 32) 90); [lia|]. by rewrite andb_false_r.
    + destruct (N.eqb_spec (c + 32) 35), (N.eqb_spec c 35); try done; lia.
  - split; [by apply N.ltb_lt|]. split; [|done].
    unfold asciiLower.
    destruct (N.leb_spec 65 c), (N.leb_spec c 90); simpl; try done; lia.
Qed.

(** X19. The colour rule does not see the case of the ASCII letters of a
    name: an ASCII name that does not start with "#" gets the colour of its
    lower-case spelling. *)
Theorem X19_colour_names_ignore_case (name : str) :
  isAscii name = true →
  startswith name (text "#") = false →
  parse_color U (asciiLower <$> name) = parse_color U name.
Proof.
  intros Hascii Hhash. unfold parse_color.
  assert (isAscii (asciiLower <$> name) = true) as Hascii'.
  { clear Hhash. induction name as [|c name IH]; [done|].
    unfold isAscii in *. simpl in *.
    apply andb_true_iff in Hascii as [Hc Hrest].
    destruct (asciiLower_ascii c Hc) as (-> & _). simpl. by apply IH. }
  assert (startswith (asciiLower <$> name) (text "#") = false) as ->.
  { destruct name as [|c name]; [done|].
    unfold isAscii in Hascii. simpl in Hascii.
    apply andb_true_iff in Hascii as [Hc _].
    destruct (asciiLower_ascii c Hc) as (_ & _ & Heq).
    change (((35 =? asciiLower c)%N && true) = false).
    change (((35 =? c)%N && true) = false) in Hhash.
    by rewrite N.eqb_sym, Heq, N.eqb_sym. }
  rewrite Hhash, !lower_ascii by done. do 3 f_equal.
  clear Hhash Hascii'. induction name as [|c name IH]; [done|].
  unfold isAscii in Hascii. simpl in Hascii.
  apply andb_true_iff in Hascii as [Hc Hrest].
  destruct (asciiLower_ascii c Hc) as (_ & Hidem & _).
  rewrite !fmap_cons, Hidem. f_equal. by apply IH.
Qed.

End MoreColorFacts.

Lemma X18_short_hex_colour_raises_witness :
  PyScripts.parse_color someUnicode (PyScripts.text "#F00") = None.
Proof.
  apply X18_short_hex_colour_raises; [reflexivity|]. simpl. lia.
Defined.

Lemma X19_colour_names_ignore_case_witness :
  PyScripts.parse_color someUnicode (PyScripts.text "Orange")
  = Some (PyScripts.rgb 1 (1 # 2) 0).
Proof.
  rewrite <- (X19_colour_names_ignore_case someUnicode
                (PyScripts.text "Orange") eq_refl eq_refl).
  reflexivity.
Defined.

(** ** The text of the script file *)

Section HarnessFacts.

Import Harness.

Lemma splitLines_cons (c : ascii) (s : string) :
  Ascii.eqb c "010" = false →
  ∃ line lines, splitLines s = line :: lines ∧
                splitLines (String c s) = String c line :: lines.
Proof.
  intros Hc. simpl. rewrite Hc.
  destruct (splitLines s) as [|line lines] eqn:E; [|by eauto].
  exfalso. by destruct s as [|c' s]; simpl in E;
    [|destruct (Ascii.eqb c' "010"); [|destruct (splitLines s)]].
Qed.

Lemma splitLines_nonempty (s : string) : splitLines s ≠ [].
Proof.
  destruct s as [|c s]; [done|]. simpl.
  destruct (Ascii.eqb c "010"); [done|]. by destruct (splitLines s).
Qed.

Lemma joinLines_cons (line : string) (lines : list string) :
  lines ≠ [] → joinLines (line :: lines) = line +:+ nl +:+ joinLines lines.
Proof. by destruct lines. Qed.

(** Joining the lines of a text with line feeds gives the text back. *)
Lemma joinLines_splitLines (s : string) : joinLines (splitLines s) = s.
Proof.
  induction s as [|c s IH]; [done|].
  destruct (Ascii.eqb c "010") eqn:Hc.
  - simpl. rewrite Hc. apply Ascii.eqb_eq in Hc as ->.
    rewrite joinLines_cons by apply splitLines_nonempty. by rewrite IH.
  - destruct (splitLines_cons c s Hc) as (line & lines & Hs & ->).
    rewrite Hs in IH. destruct lines as [|l lines]; simpl in *; by rewrite <- IH.
Qed.

Lemma splitLines_oneLine (line rest : string) :
  oneLine line = true →
  splitLines (line +:+ nl +:+ rest) = line :: splitLines rest ∧
  splitLines line = [line].
Proof.
  induction line as [|c line IH]; [done|]. simpl.
  intros [Hc Hline]%andb_true_iff. apply negb_true_iff in Hc.
  destruct (IH Hline) as [IH1 IH2].
  change (String c line +:+ nl +:+ rest) with (String c (line +:+ nl +:+ rest)).
  simpl. by rewrite Hc, IH1, IH2.
Qed.

Lemma splitLines_lines (s : string) : Forall (λ l, oneLine l = true) (splitLines s).
Proof.
  induction s as [|c s IH]; [by repeat constructor|].
  destruct (Ascii.eqb c "010") eqn:Hc.
  - simpl. rewrite Hc. by constructor.
  - destruct (splitLines_cons c s Hc) as (line & lines & Hs & ->).
    rewrite Hs in IH. apply Forall_cons in IH as [Hline Hlines].
    constructor; [|done]. simpl. by rewrite Hc.
Qed.

Lemma splitLines_joinLines (lines : list string) :
  lines ≠ [] → Forall (λ l, oneLine l = true) lines →
  splitLines (joinLines lines) = lines.
Proof.
  induction lines as [|line lines IH]; [done|]. intros _ Hall.
  apply Forall_cons in Hall as [Hline Hlines].
  destruct lines as [|l lines].
  - by apply (splitLines_oneLine line "").
  - rewrite joinLines_cons by done.
    rewrite (proj1 (splitLines_oneLine line _ Hline)).
    f_equal. by apply IH.
Qed.

(** X20. The body of [main] in the script file has the lines of the script,
    in order, each after eight spaces (the empty lines too), and nothing
    else; and a text is its lines joined by line feeds. *)
Theorem X20_indent_keeps_the_lines (scriptContent : string) :
  splitLines (indentScript scriptContent)
  = (λ line, indent +:+ line) <$> splitLines scriptContent ∧
  joinLines (splitLines scriptContent) = scriptContent.
Proof.
  split; [|apply joinLines_splitLines].
  unfold indentScript. apply splitLines_joinLines.
  - pose proof (splitLines_nonempty scriptContent).
    by destruct (splitLines scriptContent).
  - apply Forall_fmap. eapply Forall_impl; [apply splitLines_lines|].
    intros line Hline. exact Hline.
Qed.



End HarnessFacts.


(** Without the condition the literal can end early: a command that ends in
    a backslash and a double quote closes it before the script's own quote. *)
Example backslash_quote_ends_the_literal :
  Harness.scanLiteral
    (Harness.escapeQuotes ("a\" +:+ dquote) +:+ "\n" +:+ dquote +:+ ")")
  = Harness.Closed "a\\" ("\n" +:+ dquote +:+ ")").
Proof. reflexivity. Qed.

(** ** The change log of monitor-session *)

Section MonitorFacts.

Import PyMonitor.

Context {V : Type} `{EqDecision V}.

Implicit Types (prev curr : @Snapshot V) (samples : list (@Snapshot V)).

Lemma differs_neq prev curr :
  (curr.1.1 ≠ prev.1.1 ∨ curr.1.2 ≠ prev.1.2 ∨ curr.2 ≠ prev.2) ↔ curr ≠ prev.
Proof.
  destruct prev as [[a b] c], curr as [[a' b'] c']. simpl. split.
  - intros [H1|[H1|H1]] [= -> -> ->]; done.
  - intros Hne. destruct (decide (a' = a)) as [->|]; [|by left].
    destruct (decide (b' = b)) as [->|]; [|by right; left].
    right; right. by intros ->.
Qed.

(** The snapshots of the log after the first: those samples that differ
    from the sample before them. *)
Lemma monitorLoop_spec prev samples :
  (∀ e, e ∈ monitorLoop prev samples → e.1 = ChangeDetected) ∧
  (∀ first rest, (snd <$> monitorLoop prev samples) = first :: rest →
                 first ≠ prev) ∧
  (∀ i s1 s2, (snd <$> monitorLoop prev samples) !! i = Some s1 →
              (snd <$> monitorLoop prev samples) !! S i = Some s2 → s1 ≠ s2) ∧
  last (prev :: (snd <$> monitorLoop prev samples)) = last (prev :: samples) ∧
  (length (monitorLoop prev samples) <= length samples)%nat.
Proof.
  revert prev. induction samples as [|curr samples IH]; intros prev.
  { simpl. split; [intros e He; by apply elem_of_nil in He|].
    split; [done|]. split; [done|]. done. }
  simpl.
  destruct (decide (curr.1.1 ≠ prev.1.1 ∨ curr.1.2 ≠ prev.1.2 ∨ curr.2 ≠ prev.2))
    as [Hd|Hsame].
  - apply differs_neq in Hd.
    destruct (IH curr) as (Hev & Hfirst & Hadj & Hlast & Hlen).
    split; [|split; [|split; [|split]]].
    + intros e He. apply elem_of_cons in He as [->|He]; [reflexivity|by apply Hev].
    + intros first rest [= <- _]. done.
    + intros [|i] s1 s2; simpl.
      * intros [= <-] Hs2.
        destruct (monitorLoop curr samples) as [|[ev x] xs];
          simpl in Hs2; [discriminate Hs2|]. injection Hs2 as ->.
        intros Heq. by apply (Hfirst s2 (xs.*2)).
      * apply Hadj.
    + exact Hlast.
    + simpl. lia.
  - assert (curr = prev) as ->.
    { destruct (decide (curr = prev)) as [|Hne]; [done|].
      exfalso. by apply Hsame, differs_neq. }
    destruct (IH prev) as (Hev & Hfirst & Hadj & Hlast & Hlen).
    split; [|split; [|split; [|split]]]; try done. simpl. lia.
Qed.

(** X22. The change log of monitor-session starts with the state at the
    start, records after it exactly changes, never holds the same state
    twice in a row, ends with the state last read, and is no longer than
    the number of reads plus one. *)
Theorem X22_monitor_log_tracks_the_state (initial : @Snapshot V) samples :
  head (changes initial samples) = Some (MonitoringStarted, initial) ∧
  (∀ e, e ∈ tail (changes initial samples) → e.1 = ChangeDetected) ∧
  (∀ i s1 s2, (snd <$> changes initial samples) !! i = Some s1 →
              (snd <$> changes initial samples) !! S i = Some s2 → s1 ≠ s2) ∧
  last (snd <$> changes initial samples) = last (initial :: samples) ∧
  (length (changes initial samples) <= S (length samples))%nat.
Proof.
  destruct (monitorLoop_spec initial samples)
    as (Hev & Hfirst & Hadj & Hlast & Hlen).
  unfold changes. split; [done|]. split; [exact Hev|].
  split; [|split; [exact Hlast|simpl; lia]].
  intros [|i] s1 s2; simpl.
  - intros [= <-] Hs2.
    destruct (monitorLoop initial samples) as [|[ev x] xs];
      simpl in Hs2; [discriminate Hs2|]. injection Hs2 as ->.
    intros Heq. by apply (Hfirst s2 (xs.*2)).
  - apply Hadj.
Qed.

End MonitorFacts.

(** ** Tabs and panes stay linked *)

Lemma JsMap_elem_set_ne {V} (m : JsMap.t V) (k k' : string) (v v' : V) :
  (k', v') ∈ m → k' ≠ k → (k', v') ∈ JsMap.set m k v.
Proof.
  intros Hin Hne. induction m as [|[k0 v0] m IH]; [by apply elem_of_nil in Hin|].
  simpl. apply elem_of_cons in Hin as [[= <- <-]|Hin].
  - destruct (String.eqb_spec k k') as [->|_]; [done|]. apply list_elem_of_here.
  - destruct (String.eqb_spec k k0) as [->|_]; apply list_elem_of_further;
      [done|by apply IH].
Qed.

Lemma JsMap_elem_set_eq {V} (m : JsMap.t V) (k : string) (v : V) :
  (k, v) ∈ JsMap.set m k v.
Proof.
  induction m as [|[k0 v0] m IH]; simpl; [apply list_elem_of_here|].
  destruct (String.eqb_spec k k0) as [->|_];
    [apply list_elem_of_here|by apply list_elem_of_further].
Qed.

Lemma linked_initial : linked initial.
Proof.
  split; simpl.
  - intros tid t Hin. by apply elem_of_nil in Hin.
  - intros tid t tab Hin. by apply elem_of_nil in Hin.
Qed.

Lemma linked_counters (st : Tracker) (w t p : N) :
  (tabCounter st <= t)%N → linked st → linked (withCounters st w t p).
Proof.
  intros Hle [Hkeys Htabs]. split; simpl; [|done].
  intros tid r Hin. destruct (Hkeys tid r Hin) as (n & -> & Hn).
  exists n. split; [done|lia].
Qed.

Lemma linked_open (profile command wd : option string) (o : Outcome)
    (st : Tracker) :
  wellFormed st → linked st →
  linked (final (openTerminal profile command wd o st)).
Proof.
  intros Hwf Hl.
  assert (linked (withCounters st (windowCounter st + 1) (tabCounter st + 1)
                    (paneCounter st + 1))) as Hl1
    by (apply linked_counters; [lia|done]).
  unfold openTerminal. destruct o as [m|m|data]; try exact Hl1.
  destruct (getProp data "sessionId") as [m|sid]; [exact Hl1|].
  pose proof (wellFormed_fresh st Hwf) as Hfresh.
  destruct Hwf as (Hp & Ht & _). destruct Hl as [Hkeys Htabs].
  split; simpl.
  - intros tid t Hin. apply JsMap_elem_set in Hin as [Hin|[-> ->]].
    + destruct (Hkeys tid t Hin) as (n & -> & Hn). exists n. split; [done|lia].
    + exists (tabCounter st). split; [done|lia].
  - intros tid t tab Hin Hobj.
    apply JsMap_elem_set in Hin as [Hin|[-> ->]].
    + pose proof (Ht tid t Hin) as Hlt.
      rewrite lookup_app_l in Hobj by done.
      destruct (Htabs tid t tab Hin Hobj) as [Hid Hpanes].
      split; [done|]. intros pid r Hpid.
      destruct (Hpanes pid r Hpid) as (Hglobal & p & Hpobj & Hpid' & Htid).
      split.
      * apply JsMap_elem_set_ne; [done|]. intros ->.
        apply Hfresh, JsMap_keys_elem. eauto.
      * exists p. split; [|done]. rewrite lookup_app_l; [done|].
        by eapply lookup_lt_Some.
    + rewrite lookup_app_r in Hobj by lia. rewrite Nat.sub_diag in Hobj.
      injection Hobj as <-. simpl. split; [done|]. intros pid r Hpid.
      apply list_elem_of_singleton in Hpid as [= -> ->]. split.
      * apply JsMap_elem_set_eq.
      * eexists. rewrite lookup_app_r by lia. rewrite Nat.sub_diag.
        by split.
Qed.

Lemma linked_split (vertical : bool) (paneId profile command : option string)
    (o : Outcome) (st : Tracker) :
  wellFormed st → linked st →
  linked (final (splitTerminal vertical paneId profile command o st)).
Proof.
  intros Hwf Hl.
  assert (linked (withCounters st (windowCounter st) (tabCounter st)
                    (paneCounter st + 1))) as Hl1
    by (apply linked_counters; [lia|done]).
  unfold splitTerminal.
  destruct (resolveTargetPane st paneId) as [id| |r0 P] eqn:Hres; try exact Hl.
  pose proof (resolveTargetPane_object _ _ _ _ Hres) as HP.
  destruct o as [m|m|data]; try exact Hl1.
  destruct (getProp data "error") as [m|e]; [exact Hl1|].
  destruct (truthy e); [exact Hl1|].
  destruct (lookupTab _ (pane_tabId P)) as [[t0 tab0]|] eqn:Htab; [|exact Hl1].
  apply lookupTab_Some in Htab as [Hkey0 Hobj0]. simpl in Hkey0, Hobj0.
  pose proof (wellFormed_fresh st Hwf) as Hfresh.
  pose proof (lookup_lt_Some _ _ _ HP) as Hr0.
  destruct Hwf as (Hp & Ht & _). destruct Hl as [Hkeys Htabs].
  destruct (Htabs _ _ _ Hkey0 Hobj0) as [Hid0 Hpanes0].
  assert (∀ pid r p, (pid, r) ∈ panes st → paneObjs st !! r = Some p →
            (pid, r) ∈ JsMap.set (panes st) (localId KPane (paneCounter st))
                         (length (paneObjs st)) ∧
            ∃ p', <[r0 := setActive P false]> (paneObjs st ++ [
                     mkPane (localId KPane (paneCounter st))
                       (match getProp data "newSessionId" with
                        | inl _ => None
                        | inr v => v
                        end)
                       (pane_windowId P) (pane_tabId P)
                       (splitPosition vertical (position P)) true None None
                       None]) !! r = Some p' ∧
                  pane_id p' = pane_id p ∧ pane_tabId p' = pane_tabId p)
    as Hold.
  { intros pid r p Hglobal Hpobj. split.
    - apply JsMap_elem_set_ne; [done|]. intros ->.
      apply Hfresh, JsMap_keys_elem. eauto.
    - pose proof (lookup_lt_Some _ _ _ Hpobj) as Hr.
      destruct (decide (r0 = r)) as [->|Hne].
      + exists (setActive P false).
        rewrite list_lookup_insert_eq by (rewrite length_app; simpl; lia).
        by simplify_eq.
      + exists p. rewrite list_lookup_insert_ne by done.
        by rewrite lookup_app_l. }
  split; simpl.
  - intros tid t Hin. destruct (Hkeys tid t Hin) as (n & -> & Hn).
    exists n. split; [done|lia].
  - intros tid t tab Hin Hobj.
    destruct (decide (t0 = t)) as [->|Hne].
    + rewrite list_lookup_insert_eq in Hobj by by eapply lookup_lt_Some.
      injection Hobj as <-. simpl.
      destruct (Htabs _ _ _ Hin Hobj0) as [Hid _].
      split; [done|]. intros pid r Hpid.
      apply JsMap_elem_set in Hpid as [Hpid|[-> ->]].
      * destruct (Hpanes0 pid r Hpid) as (Hglobal & p & Hpobj & Hpid' & Htid).
        destruct (Hold pid r p Hglobal Hpobj) as (Hglobal' & p' & Hp' & Hi & Hti).
        split; [done|]. exists p'. split; [done|]. split; congruence.
      * split; [apply JsMap_elem_set_eq|].
        eexists. rewrite list_lookup_insert_ne by lia.
        rewrite lookup_app_r by lia. rewrite Nat.sub_diag.
        split; [done|]. simpl. split; [done|congruence].
    + rewrite list_lookup_insert_ne in Hobj by done.
      destruct (Htabs _ _ _ Hin Hobj) as [Hid Hpanes].
      split; [done|]. intros pid r Hpid.
      destruct (Hpanes pid r Hpid) as (Hglobal & p & Hpobj & Hpid' & Htid).
      destruct (Hold pid r p Hglobal Hpobj) as (Hglobal' & p' & Hp' & Hi & Hti).
      split; [done|]. exists p'. split; [done|]. split; congruence.
Qed.

Lemma linked_info (paneId : string) (o : Outcome) (st : Tracker) :
  linked st → linked (final (getSessionInfo paneId o st)).
Proof.
  intros Hl. unfold getSessionInfo, afterBridge.
  destruct (lookupPane st paneId) as [[r0 pane]|] eqn:Hpane; [|exact Hl].
  apply lookupPane_Some in Hpane as [_ HP].
  destruct o as [m|m|data]; try exact Hl.
  destruct (getProp data "error") as [m|e]; [exact Hl|].
  destruct (truthy e); [exact Hl|].
  destruct Hl as [Hkeys Htabs]. split; simpl; [done|].
  intros tid t tab Hin Hobj. destruct (Htabs _ _ _ Hin Hobj) as [Hid Hpanes].
  split; [done|]. intros pid r Hpid.
  destruct (Hpanes pid r Hpid) as (Hglobal & p & Hpobj & Hpid' & Htid).
  split; [done|]. destruct (decide (r0 = r)) as [->|Hne].
  - eexists. rewrite list_lookup_insert_eq by by eapply lookup_lt_Some.
    split; [done|]. by simplify_eq.
  - exists p. by rewrite list_lookup_insert_ne.
Qed.

Lemma linked_color (paneId color : string) (o : Outcome) (st : Tracker) :
  linked st → linked (final (setTabColor paneId color o st)).
Proof.
  intros Hl. unfold setTabColor, afterBridge.
  destruct (lookupPane st paneId) as [[r0 pane]|]; [|exact Hl].
  destruct o as [m|m|data]; try exact Hl.
  destruct (getProp data "error") as [m|e]; [exact Hl|].
  destruct (truthy e); [exact Hl|].
  destruct (lookupTab st (pane_tabId pane)) as [[t0 tab0]|] eqn:Htab;
    [|exact Hl].
  apply lookupTab_Some in Htab as [_ Hobj0].
  destruct Hl as [Hkeys Htabs]. split; simpl; [done|].
  intros tid t tab Hin Hobj.
  destruct (decide (t0 = t)) as [->|Hne].
  - rewrite list_lookup_insert_eq in Hobj by by eapply lookup_lt_Some.
    injection Hobj as <-. simpl. by apply (Htabs _ _ _ Hin Hobj0).
  - rewrite list_lookup_insert_ne in Hobj by done. by apply (Htabs _ _ _ Hin).
Qed.

Lemma linked_dispatch (req : Request) (o : Outcome) (st : Tracker) :
  wellFormed st → linked st → linked (final (dispatch req o st)).
Proof.
  intros Hwf Hl. destruct req; simpl.
  - by apply linked_open.
  - by apply linked_split.
  - by apply linked_split.
  - unfold executeCommandInPane, afterBridge.
    destruct (lookupPane st paneId) as [[r pane]|]; [|done].
    destruct o as [m|m|data]; try done.
    destruct (getProp data "error") as [m|e]; [done|]. by destruct (truthy e).
  - by apply linked_info.
  - unfold getSessionDetails, afterBridge.
    destruct o as [m|m|data]; try done.
    destruct (getProp data "error") as [m|e]; [done|]. by destruct (truthy e).
  - by apply linked_color.
  - unfold listAllSessions, afterBridge.
    destruct o as [m|m|data]; try done.
    destruct (getProp data "error") as [m|e]; [done|]. by destruct (truthy e).
  - unfold monitorSession, afterBridge.
    destruct (lookupPane st paneId) as [[r pane]|]; [|done].
    destruct o as [m|m|data]; try done.
    destruct (getProp data "error") as [m|e]; [done|]. by destruct (truthy e).
  - unfold broadcastInput.
    destruct (validPanes st paneIds); [done|].
    destruct o as [m|m|data]; try done.
    by destruct (getProp data "total_panes").
  - done.
  - done.
Qed.

Lemma linked_runAll (calls : list (Request * Outcome)) (st : Tracker) :
  wellFormed st → linked st → linked (runAll calls st).1.
Proof.
  revert st. induction calls as [|[req o] calls IH]; intros st Hwf Hl; [done|].
  simpl.
  specialize (IH _ (wellFormed_dispatch req o st Hwf)
                (linked_dispatch req o st Hwf Hl)).
  by destruct (runAll calls (final (dispatch req o st))).
Qed.

(** X23. Whatever calls are handled from the start of the process, the two
    views of the panes agree: every tab is stored under its own identifier,
    a [tab-N] with [N] below the tab counter; every pane a tab lists in its
    own map is an entry of the global [panes] map under the same identifier,
    and the pane object behind it bears that identifier and names that tab. *)
Theorem X23_tabs_and_panes_stay_linked (calls : list (Request * Outcome)) :
  linked (runAll calls initial).1.
Proof. apply linked_runAll; [apply wellFormed_initial|apply linked_initial]. Qed.

(** ** The active pane of a tab *)

(** One call keeps every tab object in its place and changes none of its
    identifier, window and active pane. *)
Lemma dispatch_tabIdentity (req : Request) (o : Outcome) (st : Tracker)
    (t : nat) (tab : TabInfo) :
  tabObjs st !! t = Some tab →
  ∃ tab', tabObjs (final (dispatch req o st)) !! t = Some tab' ∧
          tabIdentity tab' = tabIdentity tab.
Proof.
  intros Hobj. pose proof (lookup_lt_Some _ _ _ Hobj) as Hlt.
  assert (∀ t0 tab0 new,
            tabObjs st !! t0 = Some tab0 →
            tabIdentity new = tabIdentity tab0 →
            ∃ tab', <[t0 := new]> (tabObjs st) !! t = Some tab' ∧
                    tabIdentity tab' = tabIdentity tab) as Hset.
  { intros t0 tab0 new Hobj0 Hsame. destruct (decide (t0 = t)) as [->|Hne].
    - exists new. rewrite list_lookup_insert_eq by done.
      split; [done|]. rewrite Hsame. by simplify_eq.
    - exists tab. by rewrite list_lookup_insert_ne. }
  destruct req; simpl;
    unfold openTerminal, splitTerminal, executeCommandInPane, getSessionInfo,
      getSessionDetails, setTabColor, listAllSessions, monitorSession,
      broadcastInput, listPanes, getTerminalState, afterBridge;
    try (by eauto);
    try (destruct (resolveTargetPane st paneId); [by eauto|by eauto|]);
    try (destruct (lookupPane st paneId) as [[? ?]|]; [|by eauto]);
    try (destruct (validPanes st paneIds); [by eauto|]);
    bridge_cases o; simpl; try (by eauto);
    try (destruct (getProp _ "sessionId"); simpl; [by eauto|]);
    try (destruct (getProp _ "total_panes"); simpl; by eauto);
    try (destruct (lookupTab _ _) as [[t0 tab0]|] eqn:Htab; simpl;
         [apply lookupTab_Some in Htab as [_ Hobj0]|by eauto]).
  all: first [by eapply Hset | exists tab; by rewrite lookup_app_l].
Qed.

(** X24. The active pane a tab names is written once, when open-terminal
    makes the tab, like its identifier and its window: no sequence of calls
    changes it.  A split flags the new pane active and the old one
    inactive, and leaves the tab naming the old one. *)
Theorem X24_active_pane_of_a_tab_is_never_updated
    (calls : list (Request * Outcome)) (st : Tracker) (t : nat) (tab : TabInfo) :
  tabObjs st !! t = Some tab →
  ∃ tab', tabObjs (runAll calls st).1 !! t = Some tab' ∧
          tabIdentity tab' = tabIdentity tab.
Proof.
  revert st tab. induction calls as [|[req o] calls IH]; intros st tab Hobj.
  { by exists tab. }
  simpl. destruct (dispatch_tabIdentity req o st t tab Hobj) as (tab1 & Hobj1 & Hid1).
  specialize (IH _ _ Hobj1).
  destruct (runAll calls (final (dispatch req o st))) as [st' more]. simpl in *.
  destruct IH as (tab' & Hobj' & Hid'). exists tab'. split; [done|congruence].
Qed.

Lemma X24_active_pane_of_a_tab_is_never_updated_witness :
  ∃ tab', tabObjs
            (runAll [(SplitTerminalVertical None None None,
                      Parsed (JObj [("newSessionId", JStr "S1")]))] afterOpen).1
          !! 0%nat = Some tab' ∧
          activePaneId tab' = Some "pane-0" ∧
          JsMap.keys (tab_panes tab') = ["pane-0"; "pane-1"] ∧
          (isActive ∘ snd
           <$> lookupPane
                 (runAll [(SplitTerminalVertical None None None,
                           Parsed (JObj [("newSessionId", JStr "S1")]))]
                    afterOpen).1 "pane-0")
          = Some false.
Proof.
  destruct (X24_active_pane_of_a_tab_is_never_updated
              [(SplitTerminalVertical None None None,
                Parsed (JObj [("newSessionId", JStr "S1")]))]
              afterOpen 0
              (mkTab "tab-0" "window-0" [("pane-0", 0%nat)] (Some "pane-0") None)
              eq_refl) as (tab' & Hobj & Hid).
  exists tab'. split; [exact Hobj|].
  vm_compute in Hobj. injection Hobj as <-. by repeat split.
Defined.
